(** * Brand-mention worker: a shallow embedding of the worker runtime

    The development follows the layout of [worker/src/worker]: one module
    per source file, the definitions first and the statements about them
    afterwards.

    Conventions of the embedding.
    - A Python [str] is a [string]; a character is read as a code point
      below 256.  [PyStr] gives the string methods the sources call with
      the behaviour CPython has on such code points.  Where a text is
      encoded and hashed ([embeddings.py]) it is the list of its code
      points, so that every [str] is covered there.
    - A Python [float] holding a duration or a score is an exact rational
      ([Q]); no statement below depends on the rounding of a sum or a
      difference of durations.  A quotient whose value a statement
      gives is rounded as binary64 rounds it ([Float64]).
    - Code that raises returns a [result]; code that reads the clock, the
      store or module globals threads the corresponding state explicitly. *)

From Stdlib Require Import Ascii String QArith Qminmax Qround Qabs Lqa.
From Stdlib Require Floats.SpecFloat.
From stdpp Require Import base option list strings gmap pretty.

Set Warnings "-register-all".

Open Scope string_scope.
Open Scope nat_scope.
Open Scope list_scope.
Open Scope stdpp_scope.

(** ** Python strings *)

Module PyStr.

Definition chr (n : nat) : ascii := Ascii.ascii_of_nat n.
Definition ord (c : ascii) : nat := Ascii.nat_of_ascii c.

Definition newline : string := String (chr 10) "".
Definition dquote : string := String (chr 34) "".

(** [str.isspace] on one character, which is also what [\s] matches in a
    [str] pattern: TAB..CR, FS..US, SPACE, NEL and NBSP. *)
Definition isspace (c : ascii) : bool :=
  let n := ord c in
  ((9 <=? n) && (n <=? 13)) || ((28 <=? n) && (n <=? 32))
  || (n =? 133) || (n =? 160).

(** [str.lower] on one character: A..Z and the Latin-1 capitals. *)
Definition lower_char (c : ascii) : ascii :=
  let n := ord c in
  if ((65 <=? n) && (n <=? 90))
     || ((192 <=? n) && (n <=? 222) && negb (n =? 215))
  then chr (n + 32) else c.

Fixpoint lower (s : string) : string :=
  match s with
  | EmptyString => EmptyString
  | String c r => String (lower_char c) (lower r)
  end.

(** [s.split(sep)] for a one-character separator. *)
Fixpoint split (sep : ascii) (s : string) : list string :=
  match s with
  | EmptyString => [EmptyString]
  | String c r =>
      if Ascii.eqb c sep then EmptyString :: split sep r
      else match split sep r with
           | p :: ps => String c p :: ps
           | [] => [String c EmptyString]
           end
  end.

(** [needle in hay]. *)
Fixpoint contains (needle hay : string) : bool :=
  String.prefix needle hay
  || match hay with
     | EmptyString => false
     | String _ r => contains needle r
     end.

(** [hay.split(sep, 1)[1]] when [sep in hay]: what follows the first
    occurrence of [sep]. *)
Fixpoint after_first (sep hay : string) : option string :=
  if String.prefix sep hay
  then Some (String.substring (String.length sep)
                              (String.length hay - String.length sep) hay)
  else match hay with
       | EmptyString => None
       | String _ r => after_first sep r
       end.

(** [s[:n]]. *)
Definition upto (n : nat) (s : string) : string := String.substring 0 n s.

Fixpoint lstrip (s : string) : string :=
  match s with
  | EmptyString => EmptyString
  | String c r => if isspace c then lstrip r else s
  end.

Fixpoint rstrip (s : string) : string :=
  match s with
  | EmptyString => EmptyString
  | String c r =>
      match rstrip r with
      | EmptyString => if isspace c then EmptyString else String c EmptyString
      | r' => String c r'
      end
  end.

(** [s.strip()]. *)
Definition strip (s : string) : string := rstrip (lstrip s).

(** [sep.join(parts)]. *)
Fixpoint join (sep : string) (parts : list string) : string :=
  match parts with
  | [] => EmptyString
  | [p] => p
  | p :: ps => p +:+ sep +:+ join sep ps
  end.

(** Truth value of a [str]. *)
Definition truthy (s : string) : bool :=
  match s with EmptyString => false | _ => true end.

(** [a or b] on two [str]. *)
Definition or_else (a b : string) : string := if truthy a then a else b.

(** The code points of a [str]. *)
Fixpoint codes (s : string) : list N :=
  match s with
  | EmptyString => []
  | String c r => N.of_nat (ord c) :: codes r
  end.

End PyStr.

(** ** Python floats

    A [float] is an IEEE 754 binary64.  The quotient of two integers is
    the nearest such number, ties going to the even significand; the
    rounding is the one of the Standard Library's [SpecFloat]. *)

Module Float64.
Local Open Scope Z_scope.

Definition prec : Z := 53.
Definition emax : Z := 1024.

(** An [int] as an operand that has not been rounded. *)
Definition of_int (n : Z) : SpecFloat.spec_float :=
  match n with
  | 0 => SpecFloat.S754_zero false
  | Z.pos p => SpecFloat.S754_finite false p 0
  | Z.neg p => SpecFloat.S754_finite true p 0
  end.

(** The rational that a finite [float] is (zero for the others, which
    no quotient below yields). *)
Definition to_Q (x : SpecFloat.spec_float) : Q :=
  match x with
  | SpecFloat.S754_finite s m e =>
      let v := match e with
               | Z.neg k => Z.pos m # Pos.pow 2 k
               | _ => inject_Z (Z.pos m * 2 ^ e)
               end in
      if s then Qopp v else v
  | _ => 0%Q
  end.

(** [a / b] for two [int] with [b] not zero, which is also [x / y] for
    two [float] that hold the integers [a] and [b]. *)
Definition div_int (a b : Z) : Q :=
  to_Q (SpecFloat.SFdiv prec emax (of_int a) (of_int b)).

(** [int(x)]: towards zero. *)
Definition int (x : Q) : Z := Z.quot (Qnum x) (Z.pos (Qden x)).

End Float64.

(** ** Python values and exceptions *)

Module Py.

Inductive exn :=
| ValueError (msg : string)
| TypeError (msg : string)
| AttributeError (msg : string)
| ValidationError (msg : string)
| IndexError (msg : string)
| TimeoutError
| NotImplementedError (msg : string)
| RedisError (msg : string)
| ProviderError (msg : string)
| UnicodeEncodeError (start : nat)
| OverflowError (msg : string).

Inductive result (A : Type) :=
| Ok (a : A)
| Raise (e : exn).
Arguments Ok {A} a.
Arguments Raise {A} e.

(** What [json.loads] builds: [None], [bool], numbers, [str], [list] and
    [dict] (in insertion order). *)
Inductive json :=
| JNull
| JBool (b : bool)
| JNum (q : Q)
| JStr (s : string)
| JArr (items : list json)
| JObj (fields : list (string * json)).

(** [d.get(key)] on the fields of a [dict]. *)
Fixpoint dict_get {V} (key : string) (d : list (string * V)) : option V :=
  match d with
  | [] => None
  | (k, v) :: r => if String.eqb k key then Some v else dict_get key r
  end.

(** A timezone-aware [datetime], as the microseconds from the epoch to
    its instant.  (A naive one, whose [timestamp] depends on the zone
    of the platform, is not covered.) *)
Definition datetime := Z.

(** [int(dt.timestamp())]: [timestamp] divides the microseconds by
    [10**6], which gives a [float], and [int] cuts its fraction off. *)
Definition int_timestamp (dt : datetime) : Z :=
  Float64.int (Float64.div_int dt 1000000).

End Py.

Export Py(exn, result, Ok, Raise, json).

(** ** State and exceptions

    Code that both updates some state and may raise is a function from the
    state to a [result] and the state it leaves; an exception keeps the
    state reached when it was raised. *)

Module Eff.

Definition M (S A : Type) : Type := S -> result A * S.

Definition ret {S A} (a : A) : M S A := fun s => (Ok a, s).
Definition raise {S A} (e : exn) : M S A := fun s => (Raise e, s).
Definition bind {S A B} (m : M S A) (k : A -> M S B) : M S B :=
  fun s => match m s with
           | (Ok a, s') => k a s'
           | (Raise e, s') => (Raise e, s')
           end.
(** [try: m except Exception as e: h e]. *)
Definition try_except {S A} (m : M S A) (h : exn -> M S A) : M S A :=
  fun s => match m s with
           | (Ok a, s') => (Ok a, s')
           | (Raise e, s') => h e s'
           end.
Definition get {S} : M S S := fun s => (Ok s, s).
Definition lift_result {S A} (r : result A) : M S A := fun s => (r, s).

End Eff.

Notation "'do' x <- m ; k" := (Eff.bind m (fun x => k))
  (at level 10, x name, m at level 100, k at level 200, only parsing).

(** ** types.py *)

Module Mention.
Record t := {
  id : string;
  source : string;
  text : string;
  created_at : Py.datetime;
  sentiment : option (list (string * Q));
  metadata : option (list (string * json));
}.
End Mention.

Module ChunkMeta.
Record t := {
  chunk_index : option Z;
  total_chunks : option Z;
}.
End ChunkMeta.

Module Chunk.
Record t := {
  brand : string;
  chunk_id : string;
  created_at : Py.datetime;
  mentions : list Mention.t;
  meta : option ChunkMeta.t;
}.
End Chunk.

Module ClusterResult.
Record t := {
  cluster_id : Z;
  count : nat;
  examples : list string;
  summary : option string;
  spike : bool;
  sentiment : list (string * Q);
  topics : option (list string);
}.
End ClusterResult.

Module ChunkMetrics.
Record t := {
  preprocessing_time_ms : Q;
  embedding_time_ms : Q;
  clustering_time_ms : Q;
  llm_time_ms : Q;
  spike_detection_time_ms : Q;
  io_time_ms : Q;
  total_task_time_ms : Q;
}.

(** [ChunkMetrics(io_time_ms=...)]: every other field at its default. *)
Definition init (io : Q) : t :=
  {| preprocessing_time_ms := 0; embedding_time_ms := 0;
     clustering_time_ms := 0; llm_time_ms := 0;
     spike_detection_time_ms := 0; io_time_ms := io;
     total_task_time_ms := 0 |}.

(** Attribute assignments, one per field the pipeline writes. *)
Definition set_preprocessing_time_ms (v : Q) (m : t) : t :=
  {| preprocessing_time_ms := v; embedding_time_ms := embedding_time_ms m;
     clustering_time_ms := clustering_time_ms m; llm_time_ms := llm_time_ms m;
     spike_detection_time_ms := spike_detection_time_ms m;
     io_time_ms := io_time_ms m; total_task_time_ms := total_task_time_ms m |}.
Definition set_embedding_time_ms (v : Q) (m : t) : t :=
  {| preprocessing_time_ms := preprocessing_time_ms m; embedding_time_ms := v;
     clustering_time_ms := clustering_time_ms m; llm_time_ms := llm_time_ms m;
     spike_detection_time_ms := spike_detection_time_ms m;
     io_time_ms := io_time_ms m; total_task_time_ms := total_task_time_ms m |}.
Definition set_clustering_time_ms (v : Q) (m : t) : t :=
  {| preprocessing_time_ms := preprocessing_time_ms m;
     embedding_time_ms := embedding_time_ms m;
     clustering_time_ms := v; llm_time_ms := llm_time_ms m;
     spike_detection_time_ms := spike_detection_time_ms m;
     io_time_ms := io_time_ms m; total_task_time_ms := total_task_time_ms m |}.
Definition set_llm_time_ms (v : Q) (m : t) : t :=
  {| preprocessing_time_ms := preprocessing_time_ms m;
     embedding_time_ms := embedding_time_ms m;
     clustering_time_ms := clustering_time_ms m; llm_time_ms := v;
     spike_detection_time_ms := spike_detection_time_ms m;
     io_time_ms := io_time_ms m; total_task_time_ms := total_task_time_ms m |}.
Definition set_spike_detection_time_ms (v : Q) (m : t) : t :=
  {| preprocessing_time_ms := preprocessing_time_ms m;
     embedding_time_ms := embedding_time_ms m;
     clustering_time_ms := clustering_time_ms m; llm_time_ms := llm_time_ms m;
     spike_detection_time_ms := v;
     io_time_ms := io_time_ms m; total_task_time_ms := total_task_time_ms m |}.
Definition set_io_time_ms (v : Q) (m : t) : t :=
  {| preprocessing_time_ms := preprocessing_time_ms m;
     embedding_time_ms := embedding_time_ms m;
     clustering_time_ms := clustering_time_ms m; llm_time_ms := llm_time_ms m;
     spike_detection_time_ms := spike_detection_time_ms m;
     io_time_ms := v; total_task_time_ms := total_task_time_ms m |}.
Definition set_total_task_time_ms (v : Q) (m : t) : t :=
  {| preprocessing_time_ms := preprocessing_time_ms m;
     embedding_time_ms := embedding_time_ms m;
     clustering_time_ms := clustering_time_ms m; llm_time_ms := llm_time_ms m;
     spike_detection_time_ms := spike_detection_time_ms m;
     io_time_ms := io_time_ms m; total_task_time_ms := v |}.
End ChunkMetrics.

Module ChunkResult.
Record t := {
  chunk_id : string;
  brand : string;
  timestamp : Z;
  clusters : list ClusterResult.t;
  metrics : ChunkMetrics.t;
}.

(** [result.metrics = ...] seen from the owner of the metrics object. *)
Definition set_metrics (m : ChunkMetrics.t) (r : t) : t :=
  {| chunk_id := chunk_id r; brand := brand r; timestamp := timestamp r;
     clusters := clusters r; metrics := m |}.
End ChunkResult.

Module FailureRecord.
Record t := {
  worker_id : string;
  brand : string;
  chunk_id : string;
  reason : string;
  payload : string;
}.
End FailureRecord.

(** ** config.py *)

Module Config.

Inductive embeddings_provider_t := EmbLocal | EmbOpenai | EmbGemini.
Inductive llm_provider_t := LlmMock | LlmOpenai | LlmGemini.
Inductive log_level_t := Debug | Info | Warning | Error | Critical.

Record Settings := {
  redis_url : string;
  worker_id : option string;
  chunk_batch_size : Z;
  embeddings_provider : embeddings_provider_t;
  llm_provider : llm_provider_t;
  embedding_api_key : option string;
  llm_api_key : option string;
  gemini_api_key : option string;
  openai_api_key : option string;
  gemini_model : string;
  gemini_api_version : string;
  openai_model : string;
  max_retries : Z;
  retry_backoff_base : Q;
  prometheus_port : Z;
  http_port : Z;
  log_level : log_level_t;
  heartbeat_interval_sec : Z;
  blpop_timeout_sec : Z;
  redis_queue_prefix : string;
  redis_result_prefix : string;
  redis_failed_prefix : string;
  redis_spike_prefix : string;
  spike_history_ttl_sec : Z;
  llm_summary_max_tokens : Z;
  llm_timeout_sec : Z;
  llm_min_delay_sec : Q;
  embeddings_batch_size : Z;
  metrics_wait_log_interval_sec : Z;
  preprocessing_examples : Z;
  llm_max_concurrency : Z;
  (** the private attribute [__init__] adds *)
  _generated_worker_id : option string;
}.

(** Truth value of a [str | None]. *)
Definition configured (o : option string) : bool :=
  match o with Some s => PyStr.truthy s | None => false end.

(** The [Field(ge=...)] bounds. *)
Definition field_bounds (s : Settings) : bool :=
  (1 <=? chunk_batch_size s)%Z && (0 <=? max_retries s)%Z
  && Qle_bool 0 (retry_backoff_base s)
  && (1 <=? prometheus_port s)%Z && (1 <=? http_port s)%Z
  && (1 <=? heartbeat_interval_sec s)%Z && (1 <=? blpop_timeout_sec s)%Z
  && (60 <=? spike_history_ttl_sec s)%Z
  && (16 <=? llm_summary_max_tokens s)%Z && (1 <=? llm_timeout_sec s)%Z
  && Qle_bool 0 (llm_min_delay_sec s)
  && (1 <=? embeddings_batch_size s)%Z
  && (1 <=? metrics_wait_log_interval_sec s)%Z
  && (1 <=? preprocessing_examples s)%Z && (1 <=? llm_max_concurrency s)%Z.

Definition is_gemini (p : llm_provider_t) : bool :=
  match p with LlmGemini => true | _ => false end.
Definition is_openai (p : llm_provider_t) : bool :=
  match p with LlmOpenai => true | _ => false end.
Definition is_local (p : embeddings_provider_t) : bool :=
  match p with EmbLocal => true | _ => false end.

(** [_validate_llm_configuration]. *)
Definition _validate_llm_configuration (s : Settings) : result Settings :=
  if is_gemini (llm_provider s) && negb (configured (gemini_api_key s))
  then Raise (Py.ValueError "GEMINI_API_KEY must be set when LLM_PROVIDER is 'gemini'")
  else if is_openai (llm_provider s) && negb (configured (openai_api_key s))
  then Raise (Py.ValueError "OPENAI_API_KEY must be set when LLM_PROVIDER is 'openai'")
  else if negb (is_local (embeddings_provider s))
          && negb (configured (embedding_api_key s))
  then Raise (Py.ValueError "EMBEDDING_API_KEY must be set when EMBEDDINGS_PROVIDER is not 'local'")
  else Ok s.

Definition set_generated_worker_id (v : option string) (s : Settings) : Settings :=
  {| redis_url := redis_url s; worker_id := worker_id s;
     chunk_batch_size := chunk_batch_size s;
     embeddings_provider := embeddings_provider s;
     llm_provider := llm_provider s;
     embedding_api_key := embedding_api_key s; llm_api_key := llm_api_key s;
     gemini_api_key := gemini_api_key s; openai_api_key := openai_api_key s;
     gemini_model := gemini_model s;
     gemini_api_version := gemini_api_version s;
     openai_model := openai_model s; max_retries := max_retries s;
     retry_backoff_base := retry_backoff_base s;
     prometheus_port := prometheus_port s; http_port := http_port s;
     log_level := log_level s;
     heartbeat_interval_sec := heartbeat_interval_sec s;
     blpop_timeout_sec := blpop_timeout_sec s;
     redis_queue_prefix := redis_queue_prefix s;
     redis_result_prefix := redis_result_prefix s;
     redis_failed_prefix := redis_failed_prefix s;
     redis_spike_prefix := redis_spike_prefix s;
     spike_history_ttl_sec := spike_history_ttl_sec s;
     llm_summary_max_tokens := llm_summary_max_tokens s;
     llm_timeout_sec := llm_timeout_sec s;
     llm_min_delay_sec := llm_min_delay_sec s;
     embeddings_batch_size := embeddings_batch_size s;
     metrics_wait_log_interval_sec := metrics_wait_log_interval_sec s;
     preprocessing_examples := preprocessing_examples s;
     llm_max_concurrency := llm_max_concurrency s;
     _generated_worker_id := v |}.

(** The constructor [Settings]: the fields as read from the environment are
    checked, then [__init__] sets the private attribute to [None]. *)
Definition Settings_init (environ : Settings) : result Settings :=
  if negb (field_bounds environ)
  then Raise (Py.ValidationError "field out of bounds")
  else match _validate_llm_configuration environ with
       | Ok s => Ok (set_generated_worker_id None s)
       | Raise e => Raise e
       end.

(** The process: objects live on a heap and are handed around by
    reference, so every holder of the cached [Settings] sees the write
    [effective_worker_id] makes. *)
Record Process := {
  heap : gmap nat Settings;
  get_settings_cache : option nat;
  uuid4_calls : nat;
}.

Definition fresh_ref (h : gmap nat Settings) : nat :=
  S (max_list (elements (dom h))).

Section with_environment.
(** What the environment and the [.env] file hold, and the values
    successive calls of [uuid.uuid4()] return, as text. *)
Variable environ : Settings.
Variable uuid4 : nat -> string.

(** [get_settings] under [lru_cache(maxsize=1)]: the first call that
    returns fills the cache; a call that raises caches nothing. *)
Definition get_settings (p : Process) : result nat * Process :=
  match get_settings_cache p with
  | Some ref => (Ok ref, p)
  | None =>
      match Settings_init environ with
      | Ok s =>
          let ref := fresh_ref (heap p) in
          (Ok ref, {| heap := <[ref := s]> (heap p);
                      get_settings_cache := Some ref;
                      uuid4_calls := uuid4_calls p |})
      | Raise e => (Raise e, p)
      end
  end.

(** The property [effective_worker_id] on the object at [ref]. *)
Definition effective_worker_id (ref : nat) (p : Process)
  : result string * Process :=
  match heap p !! ref with
  | None => (Raise (Py.AttributeError "no such object"), p)
  | Some s =>
      if configured (worker_id s) then (Ok (default "" (worker_id s)), p)
      else match _generated_worker_id s with
           | Some w => (Ok w, p)
           | None =>
               let w := "worker-" +:+ uuid4 (uuid4_calls p) in
               (Ok w,
                {| heap := <[ref := set_generated_worker_id (Some w) s]> (heap p);
                   get_settings_cache := get_settings_cache p;
                   uuid4_calls := S (uuid4_calls p) |})
           end
  end.

(** [get_settings().effective_worker_id]. *)
Definition get_settings_effective_worker_id (p : Process)
  : result string * Process :=
  match get_settings p with
  | (Ok ref, p1) => effective_worker_id ref p1
  | (Raise e, p1) => (Raise e, p1)
  end.

(** The state after [n] further evaluations of that expression. *)
Fixpoint after_calls (n : nat) (p : Process) : Process :=
  match n with
  | O => p
  | S k => after_calls k (snd (get_settings_effective_worker_id p))
  end.

End with_environment.

(** The cache holds an object whose effective worker id is [w]. *)
Definition settled (w : string) (p : Process) : Prop :=
  exists ref s,
    get_settings_cache p = Some ref /\ heap p !! ref = Some s
    /\ ((configured (worker_id s) = true /\ default "" (worker_id s) = w)
        \/ (configured (worker_id s) = false /\ _generated_worker_id s = Some w)).

End Config.

(** ** queue_consumer.py *)

Module QueueConsumer.

(** [extract_brand_from_queue]: split on the colon, take index 2 when
    there are at least three parts. *)
Definition extract_brand_from_queue (queue_key : string) : string :=
  let parts := PyStr.split ":" queue_key in
  if 3 <=? length parts then nth 2 parts "unknown" else "unknown".

(** The keys the scan of the store client looks for,
    [f"{prefix}:*:chunks"] with the brand at the star. *)
Definition brand_queue_key (queue_prefix brand : string) : string :=
  queue_prefix +:+ ":" +:+ brand +:+ ":chunks".

End QueueConsumer.

(** ** embeddings.py *)

(** [hashlib.sha256]: FIPS 180-4 on a list of octets, words as integers
    reduced modulo [2^32]. *)
Module Sha256.
Local Open Scope Z_scope.

Definition w32 (x : Z) : Z := Z.land x 0xffffffff.
Definition add32 (x y : Z) : Z := w32 (x + y).
Definition rotr (n x : Z) : Z :=
  Z.lor (Z.shiftr x n) (w32 (Z.shiftl x (32 - n))).
Definition Ch (x y z : Z) : Z :=
  Z.lxor (Z.land x y) (Z.land (Z.lxor x 0xffffffff) z).
Definition Maj (x y z : Z) : Z :=
  Z.lxor (Z.lxor (Z.land x y) (Z.land x z)) (Z.land y z).
Definition bsig0 (x : Z) : Z := Z.lxor (Z.lxor (rotr 2 x) (rotr 13 x)) (rotr 22 x).
Definition bsig1 (x : Z) : Z := Z.lxor (Z.lxor (rotr 6 x) (rotr 11 x)) (rotr 25 x).
Definition ssig0 (x : Z) : Z := Z.lxor (Z.lxor (rotr 7 x) (rotr 18 x)) (Z.shiftr x 3).
Definition ssig1 (x : Z) : Z := Z.lxor (Z.lxor (rotr 17 x) (rotr 19 x)) (Z.shiftr x 10).

(** The constants are fractional parts of roots of the first primes:
    thirty-two bits of the cube roots of the first 64 for the rounds, of
    the square roots of the first 8 for the initial hash value. *)
Definition is_prime (n : nat) : bool :=
  (2 <=? n)%nat && forallb (fun d => negb (n mod d =? 0)%nat) (seq 2 (n - 2)).

Definition primes (count : nat) : list Z :=
  map Z.of_nat (take count (filter (fun n => Is_true (is_prime n)) (seq 0 400))).

(** The integer part of the [k]-th root of [n], one bit at a time. *)
Fixpoint iroot (k : Z) (bits : nat) (n acc : Z) : Z :=
  match bits with
  | O => acc
  | S b =>
      let candidate := acc + 2 ^ Z.of_nat b in
      if candidate ^ k <=? n then iroot k b n candidate else iroot k b n acc
  end.

Definition root_fraction (k p : Z) : Z :=
  w32 (iroot k 36 (p * 2 ^ (32 * k)) 0).

Definition K : list Z := Eval vm_compute in map (root_fraction 3) (primes 64).

Record state := {
  ha : Z; hb : Z; hc : Z; hd : Z; he : Z; hf : Z; hg : Z; hh : Z;
}.

Definition H0 : state :=
  Eval vm_compute in
  match map (root_fraction 2) (primes 8) with
  | [a; b; c; d; e; f; g; h] =>
      {| ha := a; hb := b; hc := c; hd := d; he := e; hf := f; hg := g; hh := h |}
  | _ => {| ha := 0; hb := 0; hc := 0; hd := 0; he := 0; hf := 0; hg := 0; hh := 0 |}
  end.

(** Padding: the bit 1, zeros up to 56 modulo 64, the length in bits on
    eight octets. *)
Definition be_bytes (n : nat) (x : Z) : list Z :=
  map (fun i => Z.land (Z.shiftr x (8 * Z.of_nat i)) 0xff) (rev (seq 0 n)).

Definition pad (msg : list Z) : list Z :=
  let len := Z.of_nat (length msg) in
  let zeros := Z.to_nat ((55 - len) mod 64) in
  msg ++ [0x80] ++ replicate zeros 0 ++ be_bytes 8 (8 * len).

Fixpoint words (fuel : nat) (bytes : list Z) : list Z :=
  match fuel, bytes with
  | S f, b0 :: b1 :: b2 :: b3 :: r =>
      Z.lor (Z.shiftl b0 24) (Z.lor (Z.shiftl b1 16) (Z.lor (Z.shiftl b2 8) b3))
      :: words f r
  | _, _ => []
  end.

(** The message schedule: sixteen words of the block, extended to 64. *)
Fixpoint schedule (n : nat) (w : list Z) : list Z :=
  match n with
  | O => w
  | S k =>
      let t := length w in
      let x := add32 (add32 (ssig1 (nth (t - 2) w 0)) (nth (t - 7) w 0))
                     (add32 (ssig0 (nth (t - 15) w 0)) (nth (t - 16) w 0)) in
      schedule k (w ++ [x])
  end.

Definition round (s : state) (kw : Z * Z) : state :=
  let t1 := add32 (add32 (add32 (hh s) (bsig1 (he s)))
                         (add32 (Ch (he s) (hf s) (hg s)) (fst kw))) (snd kw) in
  let t2 := add32 (bsig0 (ha s)) (Maj (ha s) (hb s) (hc s)) in
  {| ha := add32 t1 t2; hb := ha s; hc := hb s; hd := hc s;
     he := add32 (hd s) t1; hf := he s; hg := hf s; hh := hg s |}.

Definition compress (h : state) (block : list Z) : state :=
  let s := fold_left round (zip K (schedule 48 block)) h in
  {| ha := add32 (ha h) (ha s); hb := add32 (hb h) (hb s);
     hc := add32 (hc h) (hc s); hd := add32 (hd h) (hd s);
     he := add32 (he h) (he s); hf := add32 (hf h) (hf s);
     hg := add32 (hg h) (hg s); hh := add32 (hh h) (hh s) |}.

Fixpoint blocks (fuel : nat) (ws : list Z) (h : state) : state :=
  match fuel, ws with
  | S f, _ :: _ => blocks f (drop 16 ws) (compress h (take 16 ws))
  | _, _ => h
  end.

(** [hashlib.sha256(msg).digest()]: thirty-two octets. *)
Definition digest (msg : list Z) : list Z :=
  let p := pad msg in
  let ws := words (length p) p in
  let h := blocks (length ws) ws H0 in
  be_bytes 4 (ha h) ++ be_bytes 4 (hb h) ++ be_bytes 4 (hc h)
  ++ be_bytes 4 (hd h) ++ be_bytes 4 (he h) ++ be_bytes 4 (hf h)
  ++ be_bytes 4 (hg h) ++ be_bytes 4 (hh h).

End Sha256.

Module Embeddings.
Local Open Scope Z_scope.

(** A text as the list of its code points. *)
Definition text := list N.

(** A code point of the surrogate range, which UTF-8 cannot encode. *)
Definition is_surrogate (cp : N) : bool :=
  ((0xD800 <=? cp) && (cp <=? 0xDFFF))%N.

(** The octets of one code point that is not a surrogate: one below
    U+0080, two below U+0800, three below U+10000, four from there on. *)
Definition utf8_char (cp : N) : list Z :=
  let n := Z.of_N cp in
  let tail k := Z.lor 0x80 (Z.land (Z.shiftr n k) 0x3f) in
  if n <? 0x80 then [n]
  else if n <? 0x800 then [Z.lor 0xc0 (Z.shiftr n 6); tail 0]
  else if n <? 0x10000 then [Z.lor 0xe0 (Z.shiftr n 12); tail 6; tail 0]
  else [Z.lor 0xf0 (Z.land (Z.shiftr n 18) 0x07); tail 12; tail 6; tail 0].

(** [text.encode("utf-8")] from position [start] on:
    [UnicodeEncodeError] at the first surrogate. *)
Fixpoint encode_from (start : nat) (t : text) : result (list Z) :=
  match t with
  | [] => Ok []
  | cp :: r =>
      if is_surrogate cp then Raise (Py.UnicodeEncodeError start)
      else match encode_from (S start) r with
           | Ok octets => Ok (utf8_char cp ++ octets)
           | Raise e => Raise e
           end
  end.

Definition encode_utf8 (t : text) : result (list Z) := encode_from 0 t.

(** A text without a surrogate. *)
Definition encodable (t : text) : Prop :=
  Forall (fun cp => is_surrogate cp = false) t.

(** [x] lies between 0 and 1 and within [2^-54] of [b / 255]. *)
Definition near_quotient (b : Z) (x : Q) : Prop :=
  (0 <= x <= 1 /\ Qabs (x - (b # 255)) <= 1 # 2 ^ 54)%Q.

Record LocalEmbeddingAdapter := {
  _model_name : string;
  _dim : nat;
  _use_fallback : bool;
}.

(** [LocalEmbeddingAdapter()] where [sentence_transformers] is absent. *)
Definition fallback_adapter : LocalEmbeddingAdapter :=
  {| _model_name := "sentence-transformers/all-MiniLM-L6-v2";
     _dim := 384; _use_fallback := true |}.

(** [np.zeros((n, d))]. *)
Definition zeros (n d : nat) : list (list Q) := replicate n (replicate d 0%Q).

(** The body of the loop of [_hash_embed] for one text: the digest,
    repeated and cut to [_dim] octets, each divided by [255.0]. *)
Definition hash_row (dim : nat) (t : text) : result (list Q) :=
  match encode_utf8 t with
  | Raise e => Raise e
  | Ok octets =>
      let digest := Sha256.digest octets in
      let repeat_factor := ((dim + length digest - 1) / length digest)%nat in
      let repeated := take dim (concat (replicate repeat_factor digest)) in
      Ok (map (fun b => Float64.div_int b 255) repeated)
  end.

Definition enumerate {A} (l : list A) : list (nat * A) :=
  zip (seq 0 (length l)) l.

(** [_hash_embed]: rows of a zero matrix overwritten in a loop, which
    an exception leaves. *)
Definition _hash_embed (self : LocalEmbeddingAdapter) (texts : list text)
  : result (list (list Q)) :=
  fold_left
    (fun acc it =>
       match acc with
       | Raise e => Raise e
       | Ok vectors =>
           match hash_row (_dim self) (snd it) with
           | Raise e => Raise e
           | Ok row => Ok (<[fst it := row]> vectors)
           end
       end)
    (enumerate texts)
    (Ok (zeros (length texts) (_dim self))).

End Embeddings.

(** ** llm_executor.py *)

Module LlmExecutor.

Record ChatGoogleGenerativeAI := {
  model : string;
  google_api_key : option string;
  api_version : string;
  temperature : Q;
}.

Record GoogleGenerativeAIEmbeddings := {
  emb_model : string;
  emb_google_api_key : option string;
}.

(** The objects [_ensure_clients] hands out. *)
Inductive obj :=
| OChat (c : ChatGoogleGenerativeAI)
| OEmbeddings (e : GoogleGenerativeAIEmbeddings)
| OSemaphore
| OFloat (q : Q).

Inductive prompt_t := GENERAL_PROMPT | ROADMAP_PROMPT | DEFAULT_PROMPT.

(** [prompt | chat | _parser]. *)
Record chain_t := {
  chain_prompt : prompt_t;
  chain_model : obj;
}.

Inductive event :=
| EvLog (message : string)
| EvAcquire
| EvInvoke (chain : chain_t) (variables : list (string * string))
| EvSleep (seconds : Q)
| EvRelease.

(** The module globals, the permits the semaphore has left, and what
    the module did so far (latest first). *)
Record state := {
  _chat_model : option ChatGoogleGenerativeAI;
  _embeddings_model : option GoogleGenerativeAIEmbeddings;
  _semaphore : option Z;
  _min_delay : Q;
  events : list event;
}.

(** The module as imported: nothing initialised. *)
Definition initial : state :=
  {| _chat_model := None; _embeddings_model := None; _semaphore := None;
     _min_delay := 0; events := [] |}.

Definition emit (e : event) (st : state) : state :=
  {| _chat_model := _chat_model st; _embeddings_model := _embeddings_model st;
     _semaphore := _semaphore st; _min_delay := _min_delay st;
     events := e :: events st |}.

Definition set_permits (v : Z) (st : state) : state :=
  {| _chat_model := _chat_model st; _embeddings_model := _embeddings_model st;
     _semaphore := Some v; _min_delay := _min_delay st;
     events := events st |}.

(** A coroutine either finishes, with a value or an exception, or stays
    suspended (here: on a semaphore nobody releases). *)
Inductive outcome (A : Type) :=
| Done (r : result A)
| Suspended.
Arguments Done {A} r.
Arguments Suspended {A}.

(** Unpacking a tuple into three, resp. four, targets. *)
Definition unpack3 {A} (t : list A) : result (A * A * A) :=
  match t with
  | [a; b; c] => Ok (a, b, c)
  | _ => if 3 <? length t
         then Raise (Py.ValueError "too many values to unpack (expected 3)")
         else Raise (Py.ValueError "not enough values to unpack (expected 3)")
  end.

Definition unpack4 {A} (t : list A) : result (A * A * A * A) :=
  match t with
  | [a; b; c; d] => Ok (a, b, c, d)
  | _ => if 4 <? length t
         then Raise (Py.ValueError "too many values to unpack (expected 4)")
         else Raise (Py.ValueError "not enough values to unpack (expected 4)")
  end.

Section with_settings.
(** The cached settings, and the remote service: what a blocking
    [chain.invoke] yields and the seconds it takes. *)
Variable settings : Config.Settings.
Variable client : chain_t -> list (string * string) -> result string * Q.

(** [_ensure_clients]: builds the three shared objects on first use
    and returns a tuple of four. *)
Definition _ensure_clients : Eff.M state (list obj) := fun st =>
  match _chat_model st, _embeddings_model st, _semaphore st with
  | Some chat, Some emb, Some _ =>
      (Ok [OChat chat; OEmbeddings emb; OSemaphore; OFloat (_min_delay st)], st)
  | _, _, _ =>
      if negb (Config.configured (Config.gemini_api_key settings))
      then (Raise (Py.ValueError
              "GEMINI_API_KEY must be set when using the Gemini LLM provider"), st)
      else
        let chat := {| model := Config.gemini_model settings;
                       google_api_key := Config.gemini_api_key settings;
                       api_version := Config.gemini_api_version settings;
                       temperature := 3 # 10 |} in
        let emb := {| emb_model := "models/text-embedding-004";
                      emb_google_api_key := Config.gemini_api_key settings |} in
        let delay := Qmax 0 (Config.llm_min_delay_sec settings) in
        (Ok [OChat chat; OEmbeddings emb; OSemaphore; OFloat delay],
         {| _chat_model := Some chat; _embeddings_model := Some emb;
            _semaphore := Some (Config.llm_max_concurrency settings);
            _min_delay := delay;
            events := EvLog "Initialized shared Gemini clients" :: events st |})
  end.

(** [_run_chain].  [asyncio.wait_for] gives the call up when it takes
    longer than the timeout, and at once when the timeout is not
    positive. *)
Definition _run_chain (chain : chain_t) (variables : list (string * string))
    (timeout : Z) (brand chunk_id operation : string)
  : state -> outcome string * state := fun st =>
  match _ensure_clients st with
  | (Raise e, st1) => (Done (Raise e), st1)
  | (Ok tup, st1) =>
      match unpack4 tup with
      | Raise e => (Done (Raise e), st1)
      | Ok (_, _, _, min_delay) =>
          let delay := match min_delay with OFloat q => q | _ => 0%Q end in
          match _semaphore st1 with
          | Some permits =>
              if (permits <=? 0)%Z then (Suspended, st1)
              else
                let st2 := emit EvAcquire (set_permits (permits - 1) st1) in
                let st3 := emit (EvInvoke chain variables) st2 in
                let release st := emit EvRelease (set_permits permits st) in
                let failed e :=
                  (Done (Raise e),
                   release (emit (EvLog "Gemini invocation failed") st3)) in
                match client chain variables with
                | (r, seconds) =>
                    if (timeout <=? 0)%Z
                       || negb (Qle_bool seconds (inject_Z timeout))
                    then failed Py.TimeoutError
                    else match r with
                         | Raise e => failed e
                         | Ok text =>
                             if Qle_bool delay 0
                             then (Done (Ok text), release st3)
                             else (Done (Ok text),
                                   release (emit (EvSleep delay) st3))
                         end
                end
          | None => (Done (Raise (Py.AttributeError "__aenter__")), st1)
          end
      end
  end.

(** The three entry points unpack the tuple into three names before
    they build the chain. *)
Definition invoke_with (prompt : prompt_t) (variables : list (string * string))
    (timeout : Z) (brand chunk_id operation : string)
  : state -> outcome string * state := fun st =>
  match _ensure_clients st with
  | (Raise e, st1) => (Done (Raise e), st1)
  | (Ok tup, st1) =>
      match unpack3 tup with
      | Raise e => (Done (Raise e), st1)
      | Ok (chat, _, _) =>
          _run_chain {| chain_prompt := prompt; chain_model := chat |}
                     variables timeout brand chunk_id operation st1
      end
  end.

Definition invoke_prompt_text (prompt : string) :=
  invoke_with DEFAULT_PROMPT [("input", prompt)].

Definition invoke_general (data : string) :=
  invoke_with GENERAL_PROMPT [("data", data)].

Definition invoke_roadmap (payload : list (string * string)) :=
  invoke_with ROADMAP_PROMPT
    [("interests", default "Not specified" (Py.dict_get "interests" payload));
     ("skills", default "Not specified" (Py.dict_get "skills" payload));
     ("goal", default "Not specified" (Py.dict_get "goal" payload))].

End with_settings.

Definition reaches_client (st : state) : bool :=
  existsb (fun e => match e with
                    | EvAcquire | EvInvoke _ _ => true
                    | _ => false
                    end) (events st).

End LlmExecutor.

(** ** llm_adapter.py *)

Module LlmAdapter.
Import PyStr.

(** [SUMMARY_PROMPT.format(joined_texts=..., max_tokens=...)]. *)
Definition SUMMARY_PROMPT (joined_texts : string) (max_tokens : Z) : string :=
  "You are an analyst summarizing brand mentions." +:+ newline
  +:+ "Summarize the following texts into a concise overview (max "
  +:+ pretty max_tokens +:+ " tokens)." +:+ newline
  +:+ "Texts:" +:+ newline +:+ joined_texts +:+ newline.

(** [SENTIMENT_PROMPT.format(joined_texts=...)]. *)
Definition SENTIMENT_PROMPT (joined_texts : string) : string :=
  "You are a sentiment analysis assistant. Analyse the sentiment of the texts below and return a JSON object with keys positive, negative, neutral whose values are floats between 0 and 1 summing to 1."
  +:+ newline +:+ "Texts:" +:+ newline +:+ joined_texts +:+ newline.

(** [json.dumps] of a dict with the three sentiment keys, given the
    text of each number. *)
Definition dumps_sentiment (positive negative neutral : string) : string :=
  "{" +:+ dquote +:+ "positive" +:+ dquote +:+ ": " +:+ positive
  +:+ ", " +:+ dquote +:+ "negative" +:+ dquote +:+ ": " +:+ negative
  +:+ ", " +:+ dquote +:+ "neutral" +:+ dquote +:+ ": " +:+ neutral +:+ "}".

Inductive llm_input :=
| InStr (s : string)
| InDict (d : list (string * string)).

Definition positive_words : list string :=
  ["great"; "good"; "love"; "awesome"; "excellent"; "improved"; "success"; "fast"].
Definition negative_words : list string :=
  ["bad"; "hate"; "poor"; "slow"; "issue"; "problem"; "bug"; "error"].

(** [sum(1 for word in words if word in lower)]. *)
Definition hits (words : list string) (lower : string) : nat :=
  length (filter (fun w => Is_true (contains w lower)) words).

(** The three counters after the loop over the lines. *)
Definition tally (lines : list string) : nat * nat * nat :=
  fold_left
    (fun acc line =>
       let '(positive, negative, neutral) := acc in
       let lower := lower line in
       let pos_hits := hits positive_words lower in
       let neg_hits := hits negative_words lower in
       if neg_hits <? pos_hits then (S positive, negative, neutral)
       else if pos_hits <? neg_hits then (positive, S negative, neutral)
       else (positive, negative, S neutral))
    lines (0, 0, 0).

Section mock.
(** [repr] of the float [a / b]. *)
Variable repr_quotient : nat -> nat -> string.

(** [MockLLM.ainvoke]. *)
Definition MockLLM_ainvoke (input : llm_input) : string :=
  let text := match input with
              | InDict d => default "" (Py.dict_get "input" d)
              | InStr s => s
              end in
  let summary := if truthy text
                 then upto 160 (hd "" (split (chr 10) text)) else "" in
  if contains "Analyse the sentiment" text then
    let body := default text (after_first ("Texts:" +:+ newline) text) in
    let lines := filter (fun l => Is_true (truthy l))
                        (map strip (split (chr 10) body)) in
    let lines := match lines with
                 | [] => if truthy (strip body) then [strip body] else []
                 | _ => lines
                 end in
    let '(positive, negative, neutral) := tally lines in
    let total := if positive + negative + neutral =? 0 then 1
                 else positive + negative + neutral in
    dumps_sentiment (repr_quotient positive total)
                    (repr_quotient negative total)
                    (repr_quotient neutral total)
  else if contains "summary" (lower text) then
    (if truthy summary then summary else "no summary available")
  else dumps_sentiment "0.33" "0.33" "0.34".
End mock.

Inductive provider :=
| MockLLM
| GeminiProxy
| ChatOpenAI (model : string) (api_key : option string).

(** What a provider call hands back: a [str], a [dict], a message with
    a [content] attribute, [None], or some other object. *)
Inductive response :=
| RStr (s : string)
| RDict (d : list (string * json))
| RMessage (content : response)
| RNone
| ROther.

Record LangChainLLMAdapter := {
  _primary : provider;
  _fallback : option provider;
  _max_tokens : Z;
  _timeout : Z;
  _worker_id : string;
  _brand : string;
  _chunk_id : string;
}.

(** [_build_chat_models]. *)
Definition _build_chat_models (settings : Config.Settings)
  : result (provider * option provider) :=
  match Config.llm_provider settings with
  | Config.LlmMock => Ok (MockLLM, None)
  | Config.LlmGemini =>
      if negb (Config.configured (Config.gemini_api_key settings))
      then Raise (Py.ValueError "GEMINI_API_KEY must be set when LLM_PROVIDER is 'gemini'")
      else
        let fallback :=
          if Config.configured (Config.openai_api_key settings)
          then ChatOpenAI (Config.openai_model settings) (Config.openai_api_key settings)
          else MockLLM in
        Ok (GeminiProxy, Some fallback)
  | Config.LlmOpenai =>
      if negb (Config.configured (Config.openai_api_key settings))
      then Raise (Py.ValueError "OPENAI_API_KEY must be set when LLM_PROVIDER is 'openai'")
      else
        let fallback :=
          if Config.configured (Config.gemini_api_key settings)
          then GeminiProxy else MockLLM in
        Ok (ChatOpenAI (Config.openai_model settings) (Config.openai_api_key settings),
            Some fallback)
  end.

(** [get_llm_adapter]. *)
Definition get_llm_adapter (settings : Config.Settings) (worker_id : string)
  : result LangChainLLMAdapter :=
  match _build_chat_models settings with
  | Raise e => Raise e
  | Ok (primary, fallback) =>
      Ok {| _primary := primary; _fallback := fallback;
            _max_tokens := Config.llm_summary_max_tokens settings;
            _timeout := Config.llm_timeout_sec settings;
            _worker_id := worker_id;
            _brand := "unknown"; _chunk_id := "unknown" |}
  end.

Section adapter.
Variable repr_quotient : nat -> nat -> string.
(** The remote providers: what the executor helpers, resp. the OpenAI
    client, answer to a prompt within the timeout (a timeout is
    [Raise TimeoutError]). *)
Variable remote : provider -> string -> string -> result response.
(** [json.loads] ([None] for [JSONDecodeError]) and [float] on a
    [str]. *)
Variable json_loads : string -> option json.
Variable float_of_str : string -> option Q.

(** One provider call of [_invoke] or [_invoke_fallback]: the executor
    helpers for the Gemini proxy, and for the two others
    [asyncio.wait_for(p.ainvoke(prompt), timeout=self._timeout)], which
    cancels the call before it starts when the timeout is not positive.
    The mock answers without waiting. *)
Definition ainvoke (timeout : Z) (p : provider) (prompt operation : string)
  : result response :=
  match p with
  | GeminiProxy => remote p prompt operation
  | MockLLM =>
      if (timeout <=? 0)%Z then Raise Py.TimeoutError
      else Ok (RStr (MockLLM_ainvoke repr_quotient (InStr prompt)))
  | ChatOpenAI _ _ =>
      if (timeout <=? 0)%Z then Raise Py.TimeoutError
      else remote p prompt operation
  end.

(** [_invoke]: primary, then the fallback if there is one; a message
    is replaced by its content. *)
Definition _invoke (self : LangChainLLMAdapter) (prompt operation : string)
  : result response :=
  let answered :=
    match ainvoke (_timeout self) (_primary self) prompt operation with
    | Ok r => Ok r
    | Raise primary_exc =>
        match _fallback self with
        | None => Raise primary_exc
        | Some fallback => ainvoke (_timeout self) fallback prompt operation
        end
    end in
  match answered with
  | Ok (RMessage content) => Ok content
  | other => other
  end.

Definition summarize (self : LangChainLLMAdapter) (texts : list string)
  : result response :=
  _invoke self (SUMMARY_PROMPT (join newline texts) (_max_tokens self)) "summary".

Definition default_sentiment : json :=
  Py.JObj [("positive", Py.JNum (33 # 100)); ("negative", Py.JNum (33 # 100));
           ("neutral", Py.JNum (34 # 100))].

(** [parsed.get(key, dflt)]: only a [dict] has the method. *)
Definition py_get (parsed : json) (key : string) (dflt : json) : result json :=
  match parsed with
  | Py.JObj d => Ok (default dflt (Py.dict_get key d))
  | Py.JArr _ => Raise (Py.AttributeError "'list' object has no attribute 'get'")
  | Py.JStr _ => Raise (Py.AttributeError "'str' object has no attribute 'get'")
  | Py.JNum _ => Raise (Py.AttributeError "'float' object has no attribute 'get'")
  | Py.JBool _ => Raise (Py.AttributeError "'bool' object has no attribute 'get'")
  | Py.JNull => Raise (Py.AttributeError "'NoneType' object has no attribute 'get'")
  end.

(** The least [int] that [float] does not take: it would round to
    [2**1024]. *)
Definition float_overflow : Z := 2 ^ 1024 - 2 ^ 970.

(** [float(v)].  A number beyond the range of [float] can only be an
    [int], on which [float] raises [OverflowError]. *)
Definition py_float (v : json) : result Q :=
  match v with
  | Py.JNum q =>
      if Qle_bool (inject_Z float_overflow) (Qabs q)
      then Raise (Py.OverflowError "int too large to convert to float")
      else Ok q
  | Py.JBool b => Ok (if b then 1 else 0)%Q
  | Py.JStr s => match float_of_str s with
                 | Some q => Ok q
                 | None => Raise (Py.ValueError "could not convert string to float")
                 end
  | _ => Raise (Py.TypeError "float() argument must be a string or a real number")
  end.

Definition field (parsed : json) (key : string) (dflt : Q) : result Q :=
  match py_get parsed key (Py.JNum dflt) with
  | Ok v => py_float v
  | Raise e => Raise e
  end.

(** What [sentiment] does with the response of [_invoke]. *)
Definition sentiment_of_response (response : response)
  : result (list (string * Q)) :=
  let parsed :=
    match response with
    | RStr s => match json_loads s with
                | Some v => v
                | None => default_sentiment
                end
    | RDict d => Py.JObj d
    | _ => default_sentiment
    end in
  match field parsed "positive" 0 with
  | Raise e => Raise e
  | Ok positive =>
      match field parsed "negative" 0 with
      | Raise e => Raise e
      | Ok negative =>
          match field parsed "neutral" 1 with
          | Raise e => Raise e
          | Ok neutral =>
              Ok [("positive", positive); ("negative", negative);
                  ("neutral", neutral)]
          end
      end
  end.

Definition sentiment (self : LangChainLLMAdapter) (texts : list string)
  : result (list (string * Q)) :=
  match _invoke self (SENTIMENT_PROMPT (join newline texts)) "sentiment" with
  | Raise e => Raise e
  | Ok response => sentiment_of_response response
  end.

End adapter.

End LlmAdapter.

(** ** The running worker

    What the pipeline reads and writes while it handles one payload: the
    monotonic clock, the collaborators' own state, the list keys of the
    store, the objects built so far and the metric samples.  JSON text
    kept in the store is represented by the value it encodes. *)

Module World.

Inductive metric :=
| Inc (name : string) (labels : list string)
| Observe (name : string) (labels : list string) (value : Q).

Record t (E I : Type) := {
  now_ns : N;
  perf_reads : nat;
  rpush_attempts : nat;
  ext : E;
  redis : gmap string (list I);
  objects : gmap nat ChunkResult.t;
  metrics : list metric;
}.
Arguments now_ns {E I} _.
Arguments perf_reads {E I} _.
Arguments rpush_attempts {E I} _.
Arguments ext {E I} _.
Arguments redis {E I} _.
Arguments objects {E I} _.
Arguments metrics {E I} _.

Section ops.
Context {E I : Type}.
Local Abbreviation W := (t E I).

Definition advance (d : N) (w : W) : W :=
  {| now_ns := now_ns w + d; perf_reads := perf_reads w;
     rpush_attempts := rpush_attempts w; ext := ext w; redis := redis w;
     objects := objects w; metrics := metrics w |}.

Definition seconds (w : W) : Q := Z.of_N (now_ns w) # 1000000000.

(** [time.perf_counter()]: [drift n] nanoseconds have passed since the
    previous event when the [n]-th reading is taken. *)
Definition perf_counter (drift : nat -> N) : Eff.M W Q := fun w =>
  let w1 := advance (drift (perf_reads w)) w in
  (Ok (seconds w1),
   {| now_ns := now_ns w1; perf_reads := S (perf_reads w1);
      rpush_attempts := rpush_attempts w1; ext := ext w1;
      redis := redis w1; objects := objects w1; metrics := metrics w1 |}).

(** [await asyncio.sleep(d)]. *)
Definition sleep (d : Q) : Eff.M W unit := fun w =>
  (Ok tt, advance (Z.to_N (Qfloor (d * 1000000000))) w).

(** A collaborator call: its answer, the nanoseconds it took, and
    the state it leaves behind. *)
Definition call {A} (f : E -> result A * N * E) : Eff.M W A := fun w =>
  let '(r, d, e) := f (ext w) in
  (r, {| now_ns := now_ns w + d; perf_reads := perf_reads w;
         rpush_attempts := rpush_attempts w; ext := e; redis := redis w;
         objects := objects w; metrics := metrics w |}).

(** A new [ChunkResult] object; the reference is what callers hold. *)
Definition alloc (r : ChunkResult.t) : Eff.M W nat := fun w =>
  let ref := S (max_list (elements (dom (objects w)))) in
  (Ok ref,
   {| now_ns := now_ns w; perf_reads := perf_reads w;
      rpush_attempts := rpush_attempts w; ext := ext w; redis := redis w;
      objects := <[ref := r]> (objects w); metrics := metrics w |}).

Definition deref (ref : nat) : Eff.M W ChunkResult.t := fun w =>
  match objects w !! ref with
  | Some r => (Ok r, w)
  | None => (Raise (Py.AttributeError "no such object"), w)
  end.

(** An attribute assignment on the object at [ref]. *)
Definition mutate (ref : nat) (f : ChunkResult.t -> ChunkResult.t)
  : Eff.M W unit := fun w =>
  (Ok tt,
   {| now_ns := now_ns w; perf_reads := perf_reads w;
      rpush_attempts := rpush_attempts w; ext := ext w; redis := redis w;
      objects := alter f ref (objects w); metrics := metrics w |}).

Definition record_metric (m : metric) : Eff.M W unit := fun w =>
  (Ok tt,
   {| now_ns := now_ns w; perf_reads := perf_reads w;
      rpush_attempts := rpush_attempts w; ext := ext w; redis := redis w;
      objects := objects w; metrics := m :: metrics w |}).

(** [LLEN key]. *)
Definition llen (key : string) (w : W) : nat :=
  length (default [] (redis w !! key)).

(** Nanoseconds as milliseconds. *)
Definition ms_of_ns (d : N) : Q := ((Z.of_N d # 1000000000) * 1000)%Q.

(** Milliseconds between two states of the clock. *)
Definition elapsed_ms (w w' : W) : Q := ((seconds w' - seconds w) * 1000)%Q.

(** [w'] comes after [w] and differs from it in neither the store nor
    the objects. *)
Definition quiet (w w' : W) : Prop :=
  redis w' = redis w /\ rpush_attempts w' = rpush_attempts w
  /\ objects w' = objects w /\ (now_ns w <= now_ns w')%N.

(** A computation that is quiet whatever it returns or raises. *)
Definition Quiet {A} (m : Eff.M W A) : Prop :=
  forall w r w', m w = (r, w') -> quiet w w'.

(** A computation that leaves the store alone whatever it returns. *)
Definition Calm {A} (m : Eff.M W A) : Prop :=
  forall w r w', m w = (r, w') -> redis w' = redis w.

End ops.

End World.

(** ** processor.py *)

Module Processor.
Import PyStr.

(** A match of [https?://\S+] starts at the head of [s]. *)
Definition nonspace_head (s : string) : bool :=
  match s with
  | String c _ => negb (isspace c)
  | EmptyString => false
  end.

Definition drop_prefix (p s : string) : option string :=
  if String.prefix p s
  then Some (String.substring (String.length p)
                              (String.length s - String.length p) s)
  else None.

Definition url_at (s : string) : bool :=
  match drop_prefix "https://" s with
  | Some r => nonspace_head r
  | None => false
  end
  || match drop_prefix "http://" s with
     | Some r => nonspace_head r
     | None => false
     end.

(** [CLEAN_URL_RE.sub("", text)].  A match runs up to the next
    whitespace, so it is the whole run of non-space characters that
    starts at its [h]; [in_match] says that the scan is inside one. *)
Fixpoint sub_url (in_match : bool) (s : string) : string :=
  match s with
  | EmptyString => EmptyString
  | String c r =>
      if in_match then
        if isspace c then String c (sub_url false r) else sub_url true r
      else if url_at s then sub_url true r
      else String c (sub_url false r)
  end.

(** [CLEAN_WHITESPACE_RE.sub(" ", text)]: every maximal run of
    whitespace becomes one space. *)
Fixpoint sub_whitespace (in_run : bool) (s : string) : string :=
  match s with
  | EmptyString => EmptyString
  | String c r =>
      if isspace c then
        if in_run then sub_whitespace true r
        else String " " (sub_whitespace true r)
      else String c (sub_whitespace false r)
  end.

(** [_clean_text]. *)
Definition _clean_text (text : string) : string :=
  let text := sub_url false text in
  let text := sub_whitespace false text in
  lower (strip text).



(** Every whitespace character of [s] is a space, and none follows
    another one ([after_space]: the character before [s] was a space). *)
Fixpoint single_spaced (after_space : bool) (s : string) : bool :=
  match s with
  | EmptyString => true
  | String c r =>
      if isspace c
      then Ascii.eqb c " " && negb after_space && single_spaced true r
      else single_spaced false r
  end.

(** [Mention(id=mention.id, ..., text=cleaned, ...)]. *)
Definition with_text (cleaned : string) (mention : Mention.t) : Mention.t :=
  {| Mention.id := Mention.id mention;
     Mention.source := Mention.source mention;
     Mention.text := cleaned;
     Mention.created_at := Mention.created_at mention;
     Mention.sentiment := Mention.sentiment mention;
     Mention.metadata := Mention.metadata mention |}.

(** [cleaned in dedup] on a dict kept in insertion order. *)
Definition has_key {V} (key : string) (d : list (string * V)) : bool :=
  existsb (fun kv => String.eqb (fst kv) key) d.

(** One turn of the loop of [_preprocess]. *)
Definition dedup_step (dedup : list (string * Mention.t)) (mention : Mention.t)
  : list (string * Mention.t) :=
  let cleaned := _clean_text (Mention.text mention) in
  if negb (truthy cleaned) then dedup
  else if has_key cleaned dedup then dedup
  else dedup ++ [(cleaned, with_text cleaned mention)].

(** The mentions [_preprocess] returns: [list(dedup.values())]. *)
Definition preprocess_mentions (mentions : list Mention.t) : list Mention.t :=
  map snd (fold_left dedup_step mentions []).



(** The specification's wording of [_clean_text], to compare with.  The
    words of a text are its maximal runs of characters that are not
    whitespace.  A match of [https?://\S+] lies inside one word and runs
    to the end of it, so stripping the URLs cuts every word where its
    first match starts; collapsing and trimming leave the words that are
    not empty with one space between two of them; lowercasing replaces
    each capital letter by its small one. *)
Fixpoint split_words (s : string) : list string :=
  match s with
  | EmptyString => []
  | String c r =>
      if isspace c then split_words r
      else if nonspace_head r
           then match split_words r with
                | w :: ws => String c w :: ws
                | [] => [String c EmptyString]
                end
           else String c EmptyString :: split_words r
  end.



(** A match starts at the head of the word [w]: the scheme and at least
    one more character. *)
Definition url_start (w : string) : bool :=
  (String.prefix "http://" w && (String.length "http://" <? String.length w))
  || (String.prefix "https://" w
      && (String.length "https://" <? String.length w)).

Fixpoint cut_url (w : string) : string :=
  match w with
  | EmptyString => EmptyString
  | String c r => if url_start w then EmptyString else String c (cut_url r)
  end.

(** The capital letters below 256: A to Z, and the letters from U+00C0
    to U+00DE, among which U+00D7 is the multiplication sign.  The
    small letter of each lies 32 code points higher. *)
Definition is_capital (c : ascii) : bool :=
  let n := ord c in
  ((65 <=? n) && (n <=? 90))
  || ((192 <=? n) && (n <=? 222) && negb (n =? 215)).

Fixpoint lowercase (s : string) : string :=
  match s with
  | EmptyString => EmptyString
  | String c r =>
      String (if is_capital c then chr (ord c + 32) else c) (lowercase r)
  end.

Definition cleaned_text (text : string) : string :=
  lowercase
    (join " " (filter (fun w => Is_true (truthy w))
                      (map cut_url (split_words text)))).


(** Modelled from the spec: the clustering collaborator ([clustering.py]
    is not part of the sources at hand).  It "returns
    [{ clusters: [{ cluster_id: integer, indices: [int] }], duration_ms }]". *)
Record Grouping := {
  cluster_id : Z;
  indices : list Z;
}.
Record ClusteringOutput := {
  clusters : list Grouping;
  duration_ms : Q;
}.

(** [l[idx]] with Python's negative indices and [IndexError]. *)
Definition py_index {A} (l : list A) (idx : Z) : result A :=
  let n := Z.of_nat (length l) in
  let i := if (idx <? 0)%Z then (idx + n)%Z else idx in
  if ((0 <=? i) && (i <? n))%Z
  then match l !! Z.to_nat i with
       | Some a => Ok a
       | None => Raise (Py.IndexError "list index out of range")
       end
  else Raise (Py.IndexError "list index out of range").

Fixpoint gather {A} (l : list A) (idxs : list Z) : result (list A) :=
  match idxs with
  | [] => Ok []
  | i :: r => match py_index l i with
              | Raise e => Raise e
              | Ok a => match gather l r with
                        | Raise e => Raise e
                        | Ok t => Ok (a :: t)
                        end
              end
  end.

(** Every stage time the processor measures itself lies between zero
    and [bound]. *)
Definition stage_times_within (bound : Q) (m : ChunkMetrics.t) : Prop :=
  (0 <= ChunkMetrics.preprocessing_time_ms m <= bound
   /\ 0 <= ChunkMetrics.embedding_time_ms m <= bound
   /\ 0 <= ChunkMetrics.llm_time_ms m <= bound
   /\ 0 <= ChunkMetrics.spike_detection_time_ms m <= bound)%Q.

(** A clustering collaborator whose reported [duration_ms] is at most the
    time its call took. *)
Definition reports_at_most_elapsed {E}
    (cluster : list (list Q) -> string -> string -> E
               -> result ClusteringOutput * N * E) : Prop :=
  forall embeddings brand chunk_id e output d e',
    cluster embeddings brand chunk_id e = (Ok output, d, e') ->
    (duration_ms output <= World.ms_of_ns d)%Q.

Section pipeline.
Context {E I : Type}.
Local Abbreviation W := (World.t E I).

Variable settings : Config.Settings.
Variable worker_id : string.
Variable drift : nat -> N.
(** The collaborators held by the processor. *)
Variable embed :
  list string -> string -> string -> E -> result (list (list Q)) * N * E.
Variable cluster :
  list (list Q) -> string -> string -> E -> result ClusteringOutput * N * E.
Variable summarize :
  string -> string -> list string -> E -> result LlmAdapter.response * N * E.
Variable sentiment :
  string -> string -> list string -> E -> result (list (string * Q)) * N * E.
Variable detect : string -> Z -> nat -> E -> result bool * N * E.

Definition perf_counter : Eff.M W Q := World.perf_counter drift.

(** [_preprocess]: the deduplicated mentions and the metrics object
    after the write of [preprocessing_time_ms]. *)
Definition _preprocess (chunk : Chunk.t) (metrics : ChunkMetrics.t)
  : Eff.M W (list Mention.t * ChunkMetrics.t) :=
  do start <- perf_counter ;
  let mentions := preprocess_mentions (Chunk.mentions chunk) in
  do finish <- perf_counter ;
  let duration := (finish - start)%Q in
  let metrics := ChunkMetrics.set_preprocessing_time_ms (duration * 1000) metrics in
  do _ <- World.record_metric
         (World.Observe "worker_preprocessing_time_seconds"
                        [worker_id; Chunk.brand chunk] duration) ;
  Eff.ret (mentions, metrics).

Definition _generate_embeddings (chunk : Chunk.t) (mentions : list Mention.t)
  : Eff.M W (list (list Q) * Q) :=
  do start <- perf_counter ;
  do embeddings <- World.call (embed (map Mention.text mentions)
                                  (Chunk.brand chunk) (Chunk.chunk_id chunk)) ;
  do finish <- perf_counter ;
  Eff.ret (embeddings, ((finish - start) * 1000)%Q).

Definition _perform_clustering (chunk : Chunk.t) (embeddings : list (list Q))
  : Eff.M W ClusteringOutput :=
  World.call (cluster embeddings (Chunk.brand chunk) (Chunk.chunk_id chunk)).

(** [ClusterResult(...)]: the summary has to be a [str] or [None]. *)
Definition ClusterResult_init (cluster_id : Z) (count : nat)
    (examples : list string) (summary : LlmAdapter.response) (spike : bool)
    (sentiment : list (string * Q)) : result ClusterResult.t :=
  let built summary :=
    Ok {| ClusterResult.cluster_id := cluster_id;
          ClusterResult.count := count;
          ClusterResult.examples := examples;
          ClusterResult.summary := summary;
          ClusterResult.spike := spike;
          ClusterResult.sentiment := sentiment;
          ClusterResult.topics := None |} in
  match summary with
  | LlmAdapter.RStr s => built (Some s)
  | LlmAdapter.RNone => built None
  | _ => Raise (Py.ValidationError "summary: Input should be a valid string")
  end.

(** The loop of [_analyze_clusters], with its three accumulators. *)
Fixpoint analyze_loop (brand chunk_id : string) (mentions : list Mention.t)
    (groupings : list Grouping)
    (acc : list ClusterResult.t) (llm_total_ms spike_total_ms : Q)
  : Eff.M W (list ClusterResult.t * Q * Q) :=
  match groupings with
  | [] => Eff.ret (acc, llm_total_ms, spike_total_ms)
  | grouping :: rest =>
      do cluster_mentions <- Eff.lift_result (gather mentions (indices grouping)) ;
      let texts := map Mention.text cluster_mentions in
      let examples :=
        map Mention.text
            (take (Z.to_nat (Config.preprocessing_examples settings))
                  cluster_mentions) in
      do cluster_start <- perf_counter ;
      do summary <- World.call (summarize brand chunk_id texts) ;
      do sentiment_ <- World.call (sentiment brand chunk_id texts) ;
      do llm_end <- perf_counter ;
      let llm_total_ms := (llm_total_ms + (llm_end - cluster_start) * 1000)%Q in
      do spike_start <- perf_counter ;
      do is_spike <- World.call (detect brand (cluster_id grouping)
                                     (length cluster_mentions)) ;
      do spike_end <- perf_counter ;
      let spike_total_ms := (spike_total_ms + (spike_end - spike_start) * 1000)%Q in
      do result <- Eff.lift_result
                  (ClusterResult_init (cluster_id grouping)
                     (length cluster_mentions) examples summary is_spike
                     sentiment_) ;
      analyze_loop brand chunk_id mentions rest (acc ++ [result])
                   llm_total_ms spike_total_ms
  end.

Definition _analyze_clusters (chunk : Chunk.t) (mentions : list Mention.t)
    (clustering_output : ClusteringOutput) (metrics : ChunkMetrics.t)
  : Eff.M W (list ClusterResult.t * ChunkMetrics.t) :=
  do r <- analyze_loop (Chunk.brand chunk) (Chunk.chunk_id chunk) mentions
                    (clusters clustering_output) [] 0%Q 0%Q ;
  let '(clusters, llm_total_ms, spike_total_ms) := r in
  let metrics := ChunkMetrics.set_llm_time_ms llm_total_ms metrics in
  let metrics := ChunkMetrics.set_spike_detection_time_ms spike_total_ms metrics in
  Eff.ret (clusters, metrics).

(** [process_chunk]: the reference of the [ChunkResult] it builds. *)
Definition process_chunk (chunk : Chunk.t) (fetch_time_ms : Q)
  : Eff.M W nat :=
  let metrics := ChunkMetrics.init fetch_time_ms in
  do total_start <- perf_counter ;
  do pre <- _preprocess chunk metrics ;
  let '(mentions, metrics) := pre in
  match mentions with
  | [] =>
      do finish <- perf_counter ;
      let processing_ms := ((finish - total_start) * 1000)%Q in
      let metrics :=
        ChunkMetrics.set_total_task_time_ms
          (processing_ms + ChunkMetrics.io_time_ms metrics) metrics in
      World.alloc
        {| ChunkResult.chunk_id := Chunk.chunk_id chunk;
           ChunkResult.brand := Chunk.brand chunk;
           ChunkResult.timestamp := Py.int_timestamp (Chunk.created_at chunk);
           ChunkResult.clusters := [];
           ChunkResult.metrics := metrics |}
  | _ =>
      do emb <- _generate_embeddings chunk mentions ;
      let '(embeddings, embed_duration) := emb in
      let metrics := ChunkMetrics.set_embedding_time_ms embed_duration metrics in
      do clustering_output <- _perform_clustering chunk embeddings ;
      let metrics :=
        ChunkMetrics.set_clustering_time_ms (duration_ms clustering_output)
                                            metrics in
      do an <- _analyze_clusters chunk mentions clustering_output metrics ;
      let '(clusters, metrics) := an in
      do finish <- perf_counter ;
      let processing_ms := ((finish - total_start) * 1000)%Q in
      let metrics :=
        ChunkMetrics.set_total_task_time_ms
          (processing_ms + ChunkMetrics.io_time_ms metrics) metrics in
      World.alloc
        {| ChunkResult.chunk_id := Chunk.chunk_id chunk;
           ChunkResult.brand := Chunk.brand chunk;
           ChunkResult.timestamp := Py.int_timestamp (Chunk.created_at chunk);
           ChunkResult.clusters := clusters;
           ChunkResult.metrics := metrics |}
  end.

End pipeline.

End Processor.

(** ** storage.py *)

Module Storage.
Import PyStr.

(** One entry of [clusters] in the orchestrator payload. *)
Record ClusterPayload := {
  id : string;
  label : string;
  mentions : list string;
  sentimentScore : Q;
  spike : bool;
  mentionCount : nat;
}.

(** The orchestrator payload; [meta] is flattened into two fields. *)
Record OrchestratorPayload := {
  chunkId : string;
  brand : string;
  processedAt : string;
  sentiment : list (string * Q);
  clusters : list ClusterPayload;
  topics : list string;
  summary : string;
  spikeDetected : bool;
  meta_metrics : ChunkMetrics.t;
  meta_mentionCount : nat;
}.

(** What a list key of the store holds: the JSON text of a payload or
    of a failure record. *)
Inductive stored :=
| ResultJson (payload : OrchestratorPayload)
| FailureJson (failure : FailureRecord.t).

Definition startswith (p s : string) : bool := String.prefix p s.

Fixpoint endswith_char (c : ascii) (s : string) : bool :=
  match s with
  | EmptyString => false
  | String d EmptyString => Ascii.eqb c d
  | String _ r => endswith_char c r
  end.

(** [_normalize_summary_text]. *)
Definition _normalize_summary_text (summary : option string)
    (examples : list string) (fallback_label : option string) : string :=
  let candidate := strip (default "" summary) in
  let candidate :=
    if startswith "{" candidate && endswith_char "}" candidate
       && contains "positive" candidate && contains "negative" candidate
    then "" else candidate in
  let candidate :=
    match examples with
    | e :: _ => if negb (truthy candidate) then strip e else candidate
    | [] => candidate
    end in
  match fallback_label with
  | Some l => if negb (truthy candidate) && truthy l then l else candidate
  | None => candidate
  end.

Definition get_float (key : string) (d : list (string * Q)) : Q :=
  default 0%Q (Py.dict_get key d).

(** [_build_clusters]. *)
Definition _build_clusters (clusters : list ClusterResult.t)
  : list ClusterPayload :=
  map (fun cluster =>
         let sentiment := ClusterResult.sentiment cluster in
         {| id := pretty (ClusterResult.cluster_id cluster);
            label := _normalize_summary_text
                       (ClusterResult.summary cluster)
                       (ClusterResult.examples cluster)
                       (Some ("Cluster " +:+ pretty (ClusterResult.cluster_id cluster)));
            mentions := ClusterResult.examples cluster;
            sentimentScore :=
              (get_float "positive" sentiment - get_float "negative" sentiment)%Q;
            spike := ClusterResult.spike cluster;
            mentionCount := ClusterResult.count cluster |})
      clusters.

(** [_aggregate_sentiment]. *)
Definition _aggregate_sentiment (clusters : list ClusterResult.t)
  : list (string * Q) :=
  let with_sentiment :=
    filter (fun c => ClusterResult.sentiment c <> []) clusters in
  let counted := length with_sentiment in
  let total key :=
    fold_left (fun acc c => (acc + get_float key (ClusterResult.sentiment c))%Q)
              with_sentiment 0%Q in
  let mean key :=
    if 0 <? counted then (total key / inject_Z (Z.of_nat counted))%Q
    else total key in
  [("positive", mean "positive"); ("neutral", mean "neutral");
   ("negative", mean "negative");
   ("score", (mean "positive" - mean "negative")%Q)].

(** [_extract_topics]. *)
Definition _extract_topics (clusters : list ClusterResult.t) : list string :=
  let topics :=
    concat
      (map (fun cluster =>
              let normalized :=
                _normalize_summary_text (ClusterResult.summary cluster)
                                        (ClusterResult.examples cluster) None in
              if truthy normalized then [normalized]
              else take 1 (ClusterResult.examples cluster))
           clusters) in
  take 10 (map strip (filter (fun t => Is_true (truthy (strip t))) topics)).

(** [_combine_summaries]. *)
Definition _combine_summaries (clusters : list ClusterResult.t) : string :=
  let lines :=
    filter (fun l => Is_true (truthy l))
      (map (fun cluster =>
              _normalize_summary_text (ClusterResult.summary cluster)
                                      (ClusterResult.examples cluster) None)
           clusters) in
  join " " lines.

(** [_format_for_orchestrator], given the text of the current time. *)
Definition _format_for_orchestrator (now_iso : string) (result : ChunkResult.t)
  : OrchestratorPayload :=
  let clusters_payload := _build_clusters (ChunkResult.clusters result) in
  {| chunkId := ChunkResult.chunk_id result;
     brand := ChunkResult.brand result;
     processedAt := now_iso;
     sentiment := _aggregate_sentiment (ChunkResult.clusters result);
     clusters := clusters_payload;
     topics := _extract_topics (ChunkResult.clusters result);
     summary := _combine_summaries (ChunkResult.clusters result);
     spikeDetected := existsb spike clusters_payload;
     meta_metrics := ChunkResult.metrics result;
     meta_mentionCount := list_sum (map mentionCount clusters_payload) |}.

(** [store'] is [store] after one [RPUSH key value]. *)
Definition appended (key : string) (value : stored)
    (store store' : gmap string (list stored)) : Prop :=
  store' = <[key := default [] (store !! key) ++ [value]]> store.

Section store.
Context {E : Type}.
Local Abbreviation W := (World.t E stored).

Variable settings : Config.Settings.
Variable worker_id : string.
Variable drift : nat -> N.
(** The wall clock as text, and the attempts of the store client that
    fail: attempt [n] of an append raises, appending nothing, when
    [rpush_fails n]. *)
Variable isoformat_now : N -> string.
Variable rpush_fails : nat -> bool.

(** One [RPUSH] of the underlying client. *)
Definition client_rpush (key : string) (value : stored) : Eff.M W unit :=
  fun w =>
    let n := World.rpush_attempts w in
    let failed := rpush_fails n in
    (if failed then Raise (Py.RedisError "rpush") else Ok tt,
     {| World.now_ns := World.now_ns w;
        World.perf_reads := World.perf_reads w;
        World.rpush_attempts := S n;
        World.ext := World.ext w;
        World.redis :=
          if failed then World.redis w
          else <[key := default [] (World.redis w !! key) ++ [value]]>
                 (World.redis w);
        World.objects := World.objects w;
        World.metrics := World.metrics w |}).

(** Modelled from the spec: [utils.with_retry], which is not part of
    the sources at hand: "invoke the idempotent operation; on
    exception, sleep [base_delay * 2^attempt] and retry up to
    [retries] times. Final failure re-raises." *)
Fixpoint with_retry {A} (op : Eff.M W A) (retries : nat) (base_delay : Q)
    (attempt : nat) : Eff.M W A :=
  match retries with
  | O => op
  | S k =>
      Eff.try_except op
        (fun _ =>
           do _ <- World.sleep (base_delay * inject_Z (2 ^ Z.of_nat attempt)) ;
           with_retry op k base_delay (S attempt))
  end.

(** [RedisClient.rpush] and [RedisClient.record_failure]. *)
Definition redis_rpush (key : string) (value : stored) : Eff.M W unit :=
  with_retry (client_rpush key value)
             (Z.to_nat (Config.max_retries settings))
             (Config.retry_backoff_base settings) 0.

Definition redis_record_failure (key : string) (value : stored)
  : Eff.M W unit :=
  with_retry (client_rpush key value)
             (Z.to_nat (Config.max_retries settings))
             (Config.retry_backoff_base settings) 0.

(** Modelled from the spec: [utils.timer], which is not part of the
    sources at hand: a "scoped stopwatch exposing [elapsed_ms] on
    exit"; it "always runs, even on failure paths". *)
Definition timed {A} (body : Eff.M W A) : Eff.M W Q :=
  do start <- World.perf_counter drift ;
  do _ <- Eff.try_except body
            (fun e => do _ <- World.perf_counter drift ; Eff.raise e) ;
  do finish <- World.perf_counter drift ;
  Eff.ret ((finish - start) * 1000)%Q.

Definition result_key (brand : string) : string :=
  Config.redis_result_prefix settings +:+ ":" +:+ brand +:+ ":chunks".

Definition failure_key (brand : string) : string :=
  Config.redis_failed_prefix settings +:+ ":" +:+ brand.

(** [push_result]: serialises the object at [result], appends the
    text to the result queue, returns the milliseconds it took. *)
Definition push_result (brand : string) (result : nat) : Eff.M W Q :=
  let key := result_key brand in
  do r <- World.deref result ;
  do w <- Eff.get ;
  let payload :=
    ResultJson (_format_for_orchestrator (isoformat_now (World.now_ns w)) r) in
  do elapsed_ms <- timed (redis_rpush key payload) ;
  do _ <- World.record_metric
            (World.Observe "worker_io_time_seconds" [worker_id; brand; "push"]
                           (elapsed_ms / 1000)) ;
  Eff.ret elapsed_ms.

(** [record_failure]. *)
Definition record_failure (brand : string) (failure : FailureRecord.t)
    (reason_label : string) : Eff.M W Q :=
  let key := failure_key brand in
  let payload := FailureJson failure in
  do elapsed_ms <- timed (redis_record_failure key payload) ;
  do _ <- World.record_metric
            (World.Inc "worker_chunks_failed_total"
                       [worker_id; brand; reason_label]) ;
  do _ <- World.record_metric
            (World.Observe "worker_io_time_seconds"
                           [worker_id; brand; "failure"] (elapsed_ms / 1000)) ;
  Eff.ret elapsed_ms.

End store.

End Storage.

(** ** app.py *)

Module App.
Import PyStr.

Section service.
Context {E : Type}.
Local Abbreviation W := (World.t E Storage.stored).

Variable settings : Config.Settings.
Variable worker_id : string.
Variable drift : nat -> N.
Variable isoformat_now : N -> string.
Variable rpush_fails : nat -> bool.
(** The collaborators of the processor. *)
Variable embed :
  list string -> string -> string -> E -> result (list (list Q)) * N * E.
Variable cluster :
  list (list Q) -> string -> string -> E
  -> result Processor.ClusteringOutput * N * E.
Variable summarize :
  string -> string -> list string -> E -> result LlmAdapter.response * N * E.
Variable sentiment :
  string -> string -> list string -> E -> result (list (string * Q)) * N * E.
Variable detect : string -> Z -> nat -> E -> result bool * N * E.
(** [utils.safe_json_loads] and [Chunk.model_validate]. *)
Variable safe_json_loads : string -> result json.
Variable Chunk_model_validate : json -> result Chunk.t.

Definition process_chunk :=
  Processor.process_chunk (I := Storage.stored) settings worker_id drift
                          embed cluster summarize sentiment detect.

(** [FailureRecord(...)]: every field is declared [str]; the one
    argument that may be something else is [chunk_id], which can come
    straight from the decoded payload. *)
Definition FailureRecord_init (worker_id brand : string) (chunk_id : json)
    (reason payload : string) : result FailureRecord.t :=
  match chunk_id with
  | Py.JStr c =>
      Ok {| FailureRecord.worker_id := worker_id;
            FailureRecord.brand := brand;
            FailureRecord.chunk_id := c;
            FailureRecord.reason := reason;
            FailureRecord.payload := payload |}
  | _ => Raise (Py.ValidationError "chunk_id: Input should be a valid string")
  end.

(** [_record_failure]. *)
Definition _record_failure (brand reason_key message payload : string)
    (chunk_id : json) : Eff.M W unit :=
  do failure <- Eff.lift_result
                  (FailureRecord_init worker_id brand chunk_id message payload) ;
  do _ <- Storage.record_failure settings worker_id drift rpush_fails
                                 brand failure reason_key ;
  Eff.ret tt.

Definition add_push_time (push_time_ms : Q) (r : ChunkResult.t) : ChunkResult.t :=
  ChunkResult.set_metrics
    (ChunkMetrics.set_io_time_ms
       (ChunkMetrics.io_time_ms (ChunkResult.metrics r) + push_time_ms)%Q
       (ChunkResult.metrics r)) r.

(** The body of the last [try] of [_handle_payload]. *)
Definition process_and_push (chunk : Chunk.t) (chunk_brand : string)
    (fetch_time_ms : Q) : Eff.M W unit :=
  do result <- process_chunk chunk fetch_time_ms ;
  do push_time_ms <- Storage.push_result settings worker_id drift
                                          isoformat_now rpush_fails
                                          chunk_brand result ;
  do _ <- World.mutate result (add_push_time push_time_ms) ;
  do r <- World.deref result ;
  do _ <- World.record_metric
            (World.Observe "worker_processing_time_seconds"
               [worker_id; chunk_brand]
               (ChunkMetrics.total_task_time_ms (ChunkResult.metrics r) / 1000)) ;
  World.record_metric
    (World.Inc "worker_chunks_processed_total" [worker_id; chunk_brand]).

(** [_handle_payload]. *)
Definition _handle_payload (queue_key payload : string) (fetch_time_ms : Q)
  : Eff.M W unit :=
  let brand_hint := QueueConsumer.extract_brand_from_queue queue_key in
  match safe_json_loads payload with
  | Raise (Py.ValueError _) =>
      _record_failure brand_hint "json_decode" "Invalid JSON" payload
                      (Py.JStr "unknown")
  | Raise e => Eff.raise e
  | Ok raw_data =>
      match Chunk_model_validate raw_data with
      | Raise _ =>
          let chunk_id :=
            match raw_data with
            | Py.JObj d => default (Py.JStr "unknown") (Py.dict_get "chunkId" d)
            | _ => Py.JStr "unknown"
            end in
          _record_failure brand_hint "validation" "Validation failed" payload
                          chunk_id
      | Ok chunk =>
          let chunk_brand := or_else (Chunk.brand chunk) brand_hint in
          Eff.try_except
            (process_and_push chunk chunk_brand fetch_time_ms)
            (fun _ =>
               _record_failure chunk_brand "processing" "Processing failed"
                               payload (Py.JStr (Chunk.chunk_id chunk)))
      end
  end.

End service.



End App.

(** ** Concrete settings and runs used in the examples below *)

Module Scenario.

(** Settings with the short prefixes [q], [r], [f], [s]. *)
Definition settings_for (provider : Config.llm_provider_t)
    (gemini_key : option string) : Config.Settings :=
  {| Config.redis_url := "redis://localhost:6379/0";
     Config.worker_id := None;
     Config.chunk_batch_size := 10;
     Config.embeddings_provider := Config.EmbLocal;
     Config.llm_provider := provider;
     Config.embedding_api_key := None;
     Config.llm_api_key := None;
     Config.gemini_api_key := gemini_key;
     Config.openai_api_key := None;
     Config.gemini_model := "gemini-1.5-flash";
     Config.gemini_api_version := "v1";
     Config.openai_model := "gpt-4o-mini";
     Config.max_retries := 3;
     Config.retry_backoff_base := 1 # 2;
     Config.prometheus_port := 9100;
     Config.http_port := 8080;
     Config.log_level := Config.Info;
     Config.heartbeat_interval_sec := 10;
     Config.blpop_timeout_sec := 5;
     Config.redis_queue_prefix := "q";
     Config.redis_result_prefix := "r";
     Config.redis_failed_prefix := "f";
     Config.redis_spike_prefix := "s";
     Config.spike_history_ttl_sec := 3600;
     Config.llm_summary_max_tokens := 64;
     Config.llm_timeout_sec := 30;
     Config.llm_min_delay_sec := 2;
     Config.embeddings_batch_size := 32;
     Config.metrics_wait_log_interval_sec := 30;
     Config.preprocessing_examples := 3;
     Config.llm_max_concurrency := 4;
     Config._generated_worker_id := None |}.

Definition mock_settings : Config.Settings := settings_for Config.LlmMock None.
Definition gemini_settings : Config.Settings :=
  settings_for Config.LlmGemini (Some "key").

(** A process that has not called [get_settings] yet. *)
Definition fresh_process : Config.Process :=
  {| Config.heap := ∅; Config.get_settings_cache := None;
     Config.uuid4_calls := 0 |}.

Definition uuid4 (n : nat) : string := "uuid-" +:+ pretty n.

(** A remote model that answers every prompt at once. *)
Definition echo_client (c : LlmExecutor.chain_t) (v : list (string * string))
  : result string * Q := (Ok "ok", 1%Q).

(** The adapter [get_llm_adapter] builds under [mock_settings]. *)
Definition mock_adapter : LlmAdapter.LangChainLLMAdapter :=
  {| LlmAdapter._primary := LlmAdapter.MockLLM;
     LlmAdapter._fallback := None;
     LlmAdapter._max_tokens := 64;
     LlmAdapter._timeout := 30;
     LlmAdapter._worker_id := "w1";
     LlmAdapter._brand := "unknown";
     LlmAdapter._chunk_id := "unknown" |}.

(** An adapter whose primary is a remote chat model. *)
Definition openai_adapter : LlmAdapter.LangChainLLMAdapter :=
  {| LlmAdapter._primary := LlmAdapter.ChatOpenAI "gpt-4o-mini" (Some "key");
     LlmAdapter._fallback := Some LlmAdapter.MockLLM;
     LlmAdapter._max_tokens := 64;
     LlmAdapter._timeout := 30;
     LlmAdapter._worker_id := "w1";
     LlmAdapter._brand := "unknown";
     LlmAdapter._chunk_id := "unknown" |}.

(** A remote model that answers every prompt with a JSON array, and a
    decoder that knows that one text. *)
Definition array_remote (p : LlmAdapter.provider) (prompt operation : string)
  : result LlmAdapter.response := Ok (LlmAdapter.RStr "[0.2, 0.3, 0.5]").
Definition array_loads (s : string) : option json :=
  if String.eqb s "[0.2, 0.3, 0.5]"
  then Some (Py.JArr [Py.JNum (2 # 10); Py.JNum (3 # 10); Py.JNum (5 # 10)])
  else None.
Definition no_float (s : string) : option Q := None.
Definition no_repr (a b : nat) : string := "".

(** The mentions of scenario S1, with a URL-only mention added. *)
Definition mention (id text : string) : Mention.t :=
  {| Mention.id := id; Mention.source := "tw"; Mention.text := text;
     Mention.created_at := 1704067200000000%Z;
     Mention.sentiment := None; Mention.metadata := None |}.

Definition s1_mentions : list Mention.t :=
  [mention "m1" "Great product!"; mention "m0" "https://x.com";
   mention "m2" "great product!"; mention "m3" "Terrible bug"].

(** *** A worker with stand-ins for its collaborators *)

Definition quoted (s : string) : string := PyStr.dquote +:+ s +:+ PyStr.dquote.

(** The chunk of scenario S4: its only mention is a URL. *)
Definition s4_chunk : Chunk.t :=
  {| Chunk.brand := "acme"; Chunk.chunk_id := "c4";
     Chunk.created_at := 1704067200000000%Z;
     Chunk.mentions := [mention "m1" "https://x.com"];
     Chunk.meta := None |}.

(** A chunk with one mention that survives cleaning. *)
Definition s1_chunk : Chunk.t :=
  {| Chunk.brand := "acme"; Chunk.chunk_id := "c1";
     Chunk.created_at := 1704067200000000%Z;
     Chunk.mentions := [mention "m1" "Great product!"];
     Chunk.meta := None |}.

Definition chunk_text : string := "{chunk}".

(** A payload that is a JSON object with a null [chunkId] and no
    [createdAt]. *)
Definition null_id_text : string :=
  "{" +:+ quoted "brand" +:+ ": " +:+ quoted "acme" +:+ ", "
  +:+ quoted "chunkId" +:+ ": null, " +:+ quoted "mentions" +:+ ": []}".
Definition null_id_fields : list (string * json) :=
  [("brand", Py.JStr "acme"); ("chunkId", Py.JNull); ("mentions", Py.JArr [])].

(** Decoding and validation as they go on the texts above. *)
Definition loads (chunk : Chunk.t) (s : string) : result json :=
  if String.eqb s chunk_text then Ok (Py.JObj [("chunkId", Py.JStr (Chunk.chunk_id chunk))])
  else if String.eqb s null_id_text then Ok (Py.JObj null_id_fields)
  else Raise (Py.ValueError "Expecting value").

Definition validate (chunk : Chunk.t) (raw : json) : result Chunk.t :=
  match raw with
  | Py.JObj [("chunkId", Py.JStr _)] => Ok chunk
  | _ => Raise (Py.ValidationError "2 validation errors for Chunk")
  end.

Definition embed (texts : list string) (brand chunk_id : string) (e : unit)
  : result (list (list Q)) * N * unit :=
  (Embeddings._hash_embed Embeddings.fallback_adapter (map PyStr.codes texts),
   2000000%N, e).

(** One grouping holding the first mention; the call takes 3 ms and
    reports 3 ms. *)
Definition cluster (embeddings : list (list Q)) (brand chunk_id : string)
    (e : unit) : result Processor.ClusteringOutput * N * unit :=
  (Ok {| Processor.clusters :=
           [{| Processor.cluster_id := 0; Processor.indices := [0%Z] |}];
         Processor.duration_ms := 3 |}, 3000000%N, e).

Definition summarize (brand chunk_id : string) (texts : list string) (e : unit)
  : result LlmAdapter.response * N * unit :=
  (LlmAdapter.summarize no_repr array_remote mock_adapter texts, 1000000%N, e).

Definition sentiment (brand chunk_id : string) (texts : list string) (e : unit)
  : result (list (string * Q)) * N * unit :=
  (Ok [("positive", 1%Q); ("negative", 0%Q); ("neutral", 0%Q)], 1000000%N, e).

Definition detect (brand : string) (cluster_id : Z) (count : nat) (e : unit)
  : result bool * N * unit := (Ok false, 1000000%N, e).

Definition isoformat_now (now : N) : string := "2024-01-01T00:00:00+00:00".

(** A store that accepts every append. *)
Definition never_fails (attempt : nat) : bool := false.

(** Clock readings 3 and 5 come 1 ms and 5 ms after the event before
    them, the others at once: on [s4_chunk], reading 3 closes
    [process_chunk] and reading 5 closes the timer around the push. *)
Definition drift (reading : nat) : N :=
  if reading =? 3 then 1000000%N
  else if reading =? 5 then 5000000%N else 0%N.

Definition start : World.t unit Storage.stored :=
  {| World.now_ns := 0; World.perf_reads := 0; World.rpush_attempts := 0;
     World.ext := tt; World.redis := ∅; World.objects := ∅;
     World.metrics := [] |}.

(** [_handle_payload] of that worker on a payload fetched in 2 ms. *)
Definition handle (chunk : Chunk.t) (queue_key payload : string)
  : result unit * World.t unit Storage.stored :=
  App._handle_payload mock_settings "w1" drift isoformat_now never_fails
    embed cluster summarize sentiment detect (loads chunk) (validate chunk)
    queue_key payload 2 start.

End Scenario.

(** ** redis_client.py *)

Module RedisClient.

(** [sorted(set(results))]: the distinct keys, in ascending order of
    their code points. *)
Fixpoint insert_key (key : string) (sorted : list string) : list string :=
  match sorted with
  | [] => [key]
  | k :: rest =>
      match String.compare key k with
      | Lt => key :: sorted
      | Eq => sorted
      | Gt => k :: insert_key key rest
      end
  end.

Definition sorted_set (results : list string) : list string :=
  foldr insert_key [] results.


(** [max(interval * 2, interval + 5)]. *)
Definition heartbeat_ttl (interval : Z) : Z :=
  Z.max (interval * 2) (interval + 5).

Definition heartbeat_key (worker_id : string) : string :=
  "workers:heartbeat:" +:+ worker_id.

Section client.
Context {E I : Type}.
Local Abbreviation W := (World.t E I).

Variable settings : Config.Settings.
(** The underlying [redis.asyncio] client: [scan] with a cursor and a
    pattern, [blpop] and [set] with an expiry; each call answers or
    raises, takes some time and leaves the server in some state. *)
Variable client_scan : N -> string -> E -> result (N * list string) * N * E.
Variable client_blpop :
  list string -> Z -> E -> result (option (string * string)) * N * E.
Variable client_set : string -> string -> Z -> E -> result unit * N * E.

(** [try: m except RedisError: h]; any other exception passes. *)
Definition except_redis_error {A} (m h : Eff.M W A) : Eff.M W A :=
  fun w => match m w with
           | (Raise (Py.RedisError _), w1) => h w1
           | other => other
           end.

(** [blpop]. *)
Definition blpop (keys : list string) (timeout : Z)
  : Eff.M W (option (string * string)) :=
  match keys with
  | [] => do _ <- World.sleep (inject_Z timeout) ; Eff.ret None
  | _ =>
      except_redis_error
        (World.call (client_blpop keys timeout))
        (do _ <- World.sleep (inject_Z timeout) ; Eff.ret None)
  end.

(** [set_heartbeat]. *)
Definition set_heartbeat (worker_id : string) (interval : Z) : Eff.M W unit :=
  except_redis_error
    (World.call (client_set (heartbeat_key worker_id) "alive"
                            (heartbeat_ttl interval)))
    (Eff.ret tt).

Definition scan_pattern : string :=
  Config.redis_queue_prefix settings +:+ ":*:chunks".

(** The [while True] loop of [scan_brand_queues] inside its [try]:
    [None] when the server has not handed out cursor 0 after [fuel]
    rounds; a [RedisError] ends the loop with what has been collected. *)
Fixpoint scan_loop (fuel : nat) (cursor : N) (results : list string)
  : Eff.M W (option (list string)) :=
  match fuel with
  | O => Eff.ret None
  | S fuel => fun w =>
      match World.call (client_scan cursor scan_pattern) w with
      | (Ok (cursor, chunk), w1) =>
          let results := results ++ chunk in
          if (cursor =? 0)%N then (Ok (Some results), w1)
          else scan_loop fuel cursor results w1
      | (Raise (Py.RedisError _), w1) => (Ok (Some results), w1)
      | (Raise e, w1) => (Raise e, w1)
      end
  end.

(** [scan_brand_queues]. *)
Definition scan_brand_queues (fuel : nat) : Eff.M W (option (list string)) :=
  do results <- scan_loop fuel 0%N [] ;
  Eff.ret (option_map sorted_set results).

End client.

End RedisClient.

(** ** queue_consumer.py: the consumer object *)

Module Consumer.

(** The two private attributes, and what the consumer has logged as
    "Waiting for new tasks" so far, latest first: the clock reading, the
    queue names and the seconds waited. *)
Record fields := {
  _waiting_since : option Q;
  _last_wait_log : Q;
  waiting_log : list (Q * string * Q);
}.

(** [QueueConsumer(...)]. *)
Definition init : fields :=
  {| _waiting_since := None; _last_wait_log := 0; waiting_log := [] |}.

(** [_update_waiting] once the clock has been read: the attributes
    after it and the value the gauge is set to. *)
Definition update_waiting_at (interval : Z) (now : Q)
    (queues : option (list string)) (self : fields) : fields * Q :=
  let since := match _waiting_since self with
               | None => now
               | Some t => t
               end in
  let elapsed := (now - since)%Q in
  if Qle_bool (inject_Z interval) (now - _last_wait_log self)
  then
    let names := match queues with
                 | Some (q :: qs) => q :: qs
                 | _ => ["<none>"]
                 end in
    ({| _waiting_since := Some since; _last_wait_log := now;
        waiting_log := (now, PyStr.join ", " names, elapsed) :: waiting_log self |},
     elapsed)
  else
    ({| _waiting_since := Some since; _last_wait_log := _last_wait_log self;
        waiting_log := waiting_log self |},
     elapsed).

(** The waiting bookkeeping is consistent at time [now]: neither the
    start of the wait nor the last log line lies in the future, and
    the log lines are at least [interval] seconds apart, the latest one
    being the one [_last_wait_log] remembers. *)
Fixpoint log_spaced (interval : Q) (latest : Q) (log : list (Q * string * Q))
  : Prop :=
  match log with
  | [] => True
  | (t, _, _) :: older =>
      (t + interval <= latest)%Q /\ log_spaced interval t older
  end.

Definition consistent (interval : Z) (now : Q) (self : fields) : Prop :=
  (match _waiting_since self with Some t => t <= now | None => True end)%Q
  /\ (_last_wait_log self <= now)%Q
  /\ match waiting_log self with
     | [] => True
     | (t, _, _) :: older =>
         t = _last_wait_log self /\ log_spaced (inject_Z interval) t older
     end.

Section consumer.
Context {E I : Type}.
Local Abbreviation W := (World.t E I).

Variable settings : Config.Settings.
Variable worker_id : string.
Variable drift : nat -> N.
Variable client_scan : N -> string -> E -> result (N * list string) * N * E.
Variable client_blpop :
  list string -> Z -> E -> result (option (string * string)) * N * E.

(** [_update_waiting]; the value a gauge is set to is recorded as a
    sample. *)
Definition _update_waiting (queues : option (list string)) (self : fields)
  : Eff.M W fields :=
  do now <- World.perf_counter drift ;
  let updated :=
    update_waiting_at (Config.metrics_wait_log_interval_sec settings) now
                      queues self in
  do _ <- World.record_metric
            (World.Observe "worker_waiting_seconds" [worker_id] (snd updated)) ;
  Eff.ret (fst updated).

(** [_clear_waiting]. *)
Definition _clear_waiting (self : fields) : Eff.M W fields :=
  do _ <- World.record_metric
            (World.Observe "worker_waiting_seconds" [worker_id] 0%Q) ;
  Eff.ret {| _waiting_since := None; _last_wait_log := _last_wait_log self;
             waiting_log := waiting_log self |}.

(** Modelled from the spec: [utils.timer], which is not part of the
    sources at hand: a "scoped stopwatch exposing [elapsed_ms] on
    exit"; it "always runs, even on failure paths".  The value of the
    body is kept beside the elapsed milliseconds. *)
Definition timing {A} (body : Eff.M W A) : Eff.M W (A * Q) :=
  do start <- World.perf_counter drift ;
  do value <- Eff.try_except body
                (fun e => do _ <- World.perf_counter drift ; Eff.raise e) ;
  do finish <- World.perf_counter drift ;
  Eff.ret (value, ((finish - start) * 1000)%Q).

(** [fetch], given the rounds allowed to the scan: [None] when the scan
    has not finished within them. *)
Definition fetch (fuel : nat) (self : fields)
  : Eff.M W (option (option (string * string * Q) * fields)) :=
  let timeout := Config.blpop_timeout_sec settings in
  do scanned <- RedisClient.scan_brand_queues settings client_scan fuel ;
  match scanned with
  | None => Eff.ret None
  | Some [] =>
      do _ <- World.sleep (inject_Z timeout) ;
      do self <- _update_waiting None self ;
      Eff.ret (Some (None, self))
  | Some queue_keys =>
      do timed <- timing (RedisClient.blpop client_blpop queue_keys timeout) ;
      let result := fst timed in
      let fetch_time_ms := snd timed in
      match result with
      | None =>
          do self <- _update_waiting (Some queue_keys) self ;
          do _ <- World.record_metric
                    (World.Observe "worker_io_time_seconds"
                       [worker_id; "unknown"; "fetch"] (fetch_time_ms / 1000)) ;
          Eff.ret (Some (None, self))
      | Some (queue_key, payload) =>
          do self <- _clear_waiting self ;
          do _ <- World.record_metric
                    (World.Observe "worker_io_time_seconds"
                       [worker_id;
                        QueueConsumer.extract_brand_from_queue queue_key;
                        "fetch"] (fetch_time_ms / 1000)) ;
          Eff.ret (Some (Some (queue_key, payload, fetch_time_ms), self))
      end
  end.

End consumer.

End Consumer.

(** ** embeddings.py: the adapters *)

Module EmbeddingAdapters.

Inductive EmbeddingAdapter :=
| Local (adapter : Embeddings.LocalEmbeddingAdapter)
| Remote (provider : string).

(** The text of a member of the [Literal] type of [embeddings_provider]. *)
Definition provider_text (p : Config.embeddings_provider_t) : string :=
  match p with
  | Config.EmbLocal => "local"
  | Config.EmbOpenai => "openai"
  | Config.EmbGemini => "gemini"
  end.

Section adapters.
Context {E I : Type}.
Local Abbreviation W := (World.t E I).

(** Whether [sentence_transformers] could be imported, and what the
    model of a given name answers to [encode]. *)
Variable sentence_transformers : bool.
Variable model_encode :
  string -> list Embeddings.text -> E -> result (list (list Q)) * N * E.
Variable drift : nat -> N.

(** [LocalEmbeddingAdapter()]. *)
Definition LocalEmbeddingAdapter_init : Embeddings.LocalEmbeddingAdapter :=
  {| Embeddings._model_name := "sentence-transformers/all-MiniLM-L6-v2";
     Embeddings._dim := 384;
     Embeddings._use_fallback := negb sentence_transformers |}.

(** The delegate [get_embedding_adapter] wraps. *)
Definition get_embedding_adapter (settings : Config.Settings)
  : EmbeddingAdapter :=
  if Config.is_local (Config.embeddings_provider settings)
  then Local LocalEmbeddingAdapter_init
  else Remote (provider_text (Config.embeddings_provider settings)).

(** [embed] of the two concrete adapters. *)
Definition delegate_embed (delegate : EmbeddingAdapter)
    (texts : list Embeddings.text) (brand chunk_id : string)
  : Eff.M W (list (list Q)) :=
  match delegate with
  | Local adapter =>
      if Embeddings._use_fallback adapter
      then Eff.lift_result (Embeddings._hash_embed adapter texts)
      else World.call (model_encode (Embeddings._model_name adapter) texts)
  | Remote _ => Eff.ret (Embeddings.zeros (length texts) 384)
  end.

(** [InstrumentedEmbeddingAdapter.embed]. *)
Definition embed (worker_id : string) (delegate : EmbeddingAdapter)
    (texts : list Embeddings.text) (brand chunk_id : string)
  : Eff.M W (list (list Q)) :=
  do start <- World.perf_counter drift ;
  do embeddings <- delegate_embed delegate texts brand chunk_id ;
  do finish <- World.perf_counter drift ;
  do _ <- World.record_metric
            (World.Observe "worker_embedding_time_seconds" [worker_id; brand]
                           (finish - start)) ;
  Eff.ret embeddings.

End adapters.

End EmbeddingAdapters.

(** ** Counters *)

Module Telemetry.

Definition is_inc (name : string) (m : World.metric) : bool :=
  match m with
  | World.Inc n _ => String.eqb n name
  | World.Observe _ _ _ => false
  end.

(** How often the counter [name] has been incremented. *)
Definition increments (name : string) (ms : list World.metric) : nat :=
  length (List.filter (is_inc name) ms).

(** A computation that leaves the counter [name] as it is, whatever it
    returns or raises. *)
Definition Steady {E I A} (name : string) (m : Eff.M (World.t E I) A) : Prop :=
  forall w r w',
    m w = (r, w') ->
    increments name (World.metrics w') = increments name (World.metrics w).

End Telemetry.

(** ** Stand-ins for the store client, used in the examples below *)

Module Fixture.

(** A server that hands out its keys on two pages, the second reached
    through cursor 7, and one that fails on the second page. *)
Definition two_pages (cursor : N) (pattern : string) (e : unit)
  : result (N * list string) * N * unit :=
  if (cursor =? 0)%N
  then (Ok (7%N, ["q:b:chunks"; "q:a:chunks"]), 1000000%N, e)
  else (Ok (0%N, ["q:a:chunks"; "q:c:chunks"]), 1000000%N, e).


Definition no_keys (cursor : N) (pattern : string) (e : unit)
  : result (N * list string) * N * unit := (Ok (0%N, []), 1000000%N, e).

(** A [blpop] that pops one payload from the first key after 2 ms, and
    one that loses the connection. *)
Definition pops_first (keys : list string) (timeout : Z) (e : unit)
  : result (option (string * string)) * N * unit :=
  (Ok (match keys with k :: _ => Some (k, "{chunk}") | [] => None end),
   2000000%N, e).

Definition blpop_fails (keys : list string) (timeout : Z) (e : unit)
  : result (option (string * string)) * N * unit :=
  (Raise (Py.RedisError "connection lost"), 0%N, e).

Definition set_fails (key value : string) (ex : Z) (e : unit)
  : result unit * N * unit := (Raise (Py.RedisError "connection lost"), 0%N, e).

(** A clock that moves only with the calls. *)
Definition still (reading : nat) : N := 0%N.

(** A world in which nothing has happened yet. *)
Definition idle : World.t unit unit :=
  {| World.now_ns := 0; World.perf_reads := 0; World.rpush_attempts := 0;
     World.ext := tt; World.redis := ∅; World.objects := ∅;
     World.metrics := [] |}.

End Fixture.

(** * Statements *)

Module ListFacts.

Lemma map_fmap {A B} (f : A -> B) (l : list A) : map f l = f <$> l.
Proof. induction l as [|x l IH]; simpl; [done|]. by rewrite IH. Qed.

End ListFacts.

Module PyStrFacts.

Lemma app_assoc (a b c : string) : (a +:+ b) +:+ c = a +:+ (b +:+ c).
Proof.
  induction a as [|x a IH]; [done|].
  change (String x ((a +:+ b) +:+ c) = String x (a +:+ b +:+ c)).
  by f_equal.
Qed.

End PyStrFacts.

Module Float64Facts.

(** [1 / 10] is the binary64 [0x1.999999999999ap-4], a quotient that is
    a whole number is that number, and a half between two neighbours
    goes to the even one. *)
Example div_int_examples :
  (Float64.div_int 1 10 == 3602879701896397 # 2 ^ 55)%Q
  /\ (Float64.div_int 255 255 == 1)%Q
  /\ (Float64.div_int (-7) 2 == - (7 # 2))%Q
  /\ (Float64.div_int (2 ^ 54 + 2) 1 == inject_Z (2 ^ 54))%Q
  /\ (Float64.div_int (2 ^ 54 + 6) 1 == inject_Z (2 ^ 54 + 8))%Q.
Proof. repeat split. Qed.

(** The first second of 2024; the last microsecond of a second in the
    year 3000, which the division rounds up to the next second; and a
    time before the epoch, cut towards zero. *)
Example int_timestamp_examples :
  map Py.int_timestamp [1704067200000000; 32503680000999999; -1500000]%Z
  = [1704067200; 32503680001; -1]%Z.
Proof. reflexivity. Qed.

End Float64Facts.

Module QueueConsumerFacts.
Import QueueConsumer.

Lemma split_cons_no_sep (sep : ascii) (a rest : string) :
  PyStr.contains (String sep "") a = false ->
  PyStr.split sep (a +:+ String sep rest) = a :: PyStr.split sep rest.
Proof.
  induction a as [|c a IH]; simpl.
  - intros _. by rewrite Ascii.eqb_refl.
  - destruct (ascii_dec sep c) as [->|Hne].
    + destruct a; discriminate.
    + intros Hc. rewrite (proj2 (Ascii.eqb_neq c sep)) by congruence.
      rewrite IH; [done|]. destruct a; done.
Qed.

Lemma split_no_sep (sep : ascii) (a : string) :
  PyStr.contains (String sep "") a = false -> PyStr.split sep a = [a].
Proof.
  induction a as [|c a IH]; simpl; [done|].
  destruct (ascii_dec sep c) as [->|Hne].
  - destruct a; discriminate.
  - intros Hc. rewrite (proj2 (Ascii.eqb_neq c sep)) by congruence.
    rewrite IH; [done|]. destruct a; done.
Qed.

(** With a one-segment prefix the function returns the literal suffix,
    whatever the brand is. *)
Lemma extract_brand_one_segment_prefix (queue_prefix brand : string) :
  PyStr.contains ":" queue_prefix = false ->
  PyStr.contains ":" brand = false ->
  extract_brand_from_queue (brand_queue_key queue_prefix brand) = "chunks".
Proof.
  intros Hp Hb. unfold extract_brand_from_queue, brand_queue_key.
  change (queue_prefix +:+ ":" +:+ brand +:+ ":chunks")
    with (queue_prefix +:+ String ":" (brand +:+ String ":" "chunks")).
  rewrite split_cons_no_sep by done.
  rewrite split_cons_no_sep by done.
  reflexivity.
Qed.

(** With a two-segment prefix such as [queue:brand] it returns the
    brand. *)
Lemma extract_brand_two_segment_prefix (p1 p2 brand : string) :
  PyStr.contains ":" p1 = false ->
  PyStr.contains ":" p2 = false ->
  PyStr.contains ":" brand = false ->
  extract_brand_from_queue (brand_queue_key (p1 +:+ ":" +:+ p2) brand) = brand.
Proof.
  intros H1 H2 Hb. unfold extract_brand_from_queue, brand_queue_key.
  replace ((p1 +:+ ":" +:+ p2) +:+ ":" +:+ brand +:+ ":chunks")
    with (p1 +:+ String ":" (p2 +:+ String ":" (brand +:+ String ":" "chunks"))).
  - do 3 (rewrite split_cons_no_sep by done). reflexivity.
  - by rewrite !PyStrFacts.app_assoc.
Qed.

(** Fewer than three segments: ["unknown"]. *)
Lemma extract_brand_missing (a b : string) :
  PyStr.contains ":" a = false ->
  PyStr.contains ":" b = false ->
  extract_brand_from_queue a = "unknown"
  /\ extract_brand_from_queue (a +:+ ":" +:+ b) = "unknown".
Proof.
  intros Ha Hb. unfold extract_brand_from_queue. split.
  - by rewrite split_no_sep.
  - change (a +:+ ":" +:+ b) with (a +:+ String ":" b).
    rewrite split_cons_no_sep by done. by rewrite split_no_sep.
Qed.

(** C1.  On the key [q:acme:chunks] of scenario S2,
    [extract_brand_from_queue] returns the suffix [chunks], not the
    brand [acme], so the failure record of an undecodable payload is
    filed under [f:chunks]. *)
Theorem extract_brand_q_acme_chunks :
  extract_brand_from_queue (brand_queue_key "q" "acme") = "chunks"
  /\ extract_brand_from_queue (brand_queue_key "q" "acme") <> "acme"
  /\ Storage.failure_key Scenario.mock_settings
       (extract_brand_from_queue "q:acme:chunks") = "f:chunks".
Proof. repeat split; [discriminate]. Qed.

End QueueConsumerFacts.

Module LlmExecutorFacts.
Import LlmExecutor.

Section facts.
Variable settings : Config.Settings.
Variable client : chain_t -> list (string * string) -> result string * Q.

(** [_ensure_clients] hands out four objects and contacts nobody. *)
Lemma ensure_clients_tuple st tup st' :
  _ensure_clients settings st = (Ok tup, st') ->
  length tup = 4 /\ reaches_client st' = reaches_client st
  /\ exists permits, _semaphore st' = Some permits.
Proof.
  unfold _ensure_clients.
  destruct (_chat_model st) as [chat|] eqn:Hc,
           (_embeddings_model st) as [emb|] eqn:He,
           (_semaphore st) as [sem|] eqn:Hs;
    try (destruct (negb _); intros [= <- <-]; simpl; by eauto).
  intros [= <- <-]. eauto.
Qed.

Lemma ensure_clients_raise st e st' :
  _ensure_clients settings st = (Raise e, st') -> st' = st.
Proof.
  unfold _ensure_clients.
  destruct (_chat_model st), (_embeddings_model st), (_semaphore st);
    try (destruct (negb _); by intros [= <- <-]); discriminate.
Qed.

Lemma ensure_clients_configured st :
  Config.configured (Config.gemini_api_key settings) = true ->
  exists tup st', _ensure_clients settings st = (Ok tup, st').
Proof.
  intros Hk. unfold _ensure_clients. rewrite Hk. simpl.
  destruct (_chat_model st), (_embeddings_model st), (_semaphore st); eauto.
Qed.

Lemma unpack3_of_four {A} (t : list A) :
  length t = 4 ->
  unpack3 t = Raise (Py.ValueError "too many values to unpack (expected 3)").
Proof. destruct t as [|a [|b [|c [|d [|? ?]]]]]; done. Qed.

(** No entry point ever gets past the unpacking. *)
Lemma invoke_with_stops prompt variables timeout brand chunk_id operation st :
  exists e st',
    invoke_with settings client prompt variables timeout brand chunk_id
                operation st = (Done (Raise e), st')
    /\ reaches_client st' = reaches_client st.
Proof.
  unfold invoke_with.
  destruct (_ensure_clients settings st) as [[tup|e] st1] eqn:Hens.
  - apply ensure_clients_tuple in Hens as (Hlen & Hev & _).
    rewrite (unpack3_of_four tup Hlen). eauto.
  - apply ensure_clients_raise in Hens as ->. eauto.
Qed.

(** The sibling [_run_chain], which unpacks four names, does acquire
    the permit and call the client. *)
Lemma run_chain_reaches_client chain variables timeout brand chunk_id operation :
  Config.configured (Config.gemini_api_key settings) = true ->
  (0 < Config.llm_max_concurrency settings)%Z ->
  reaches_client
    (snd (_run_chain settings client chain variables timeout brand chunk_id
                     operation initial)) = true.
Proof.
  intros Hk Hc. unfold _run_chain, _ensure_clients. simpl. rewrite Hk. simpl.
  destruct (Z.leb_spec (Config.llm_max_concurrency settings) 0); [lia|].
  destruct (client chain variables) as [[text|e] seconds];
    destruct (_ || negb _); simpl; try done.
  destruct (Qle_bool _ 0); done.
Qed.

(** C2.  With [gemini_api_key] configured, every call of
    [invoke_general] and of [invoke_prompt_text] raises [ValueError]
    while it unpacks the four-tuple of [_ensure_clients] into three
    names: the exception comes from the code before the permit, and
    neither the semaphore nor the client is reached. *)
Theorem invoke_raises_before_permit
    (text : string) (timeout : Z) (brand chunk_id operation : string)
    (st : state) :
  Config.configured (Config.gemini_api_key settings) = true ->
  let unpack_error :=
    Py.ValueError "too many values to unpack (expected 3)" in
  let general :=
    invoke_general settings client text timeout brand chunk_id operation st in
  let prompt_text :=
    invoke_prompt_text settings client text timeout brand chunk_id operation st in
  fst general = Done (Raise unpack_error)
  /\ fst prompt_text = Done (Raise unpack_error)
  /\ reaches_client (snd general) = reaches_client st
  /\ reaches_client (snd prompt_text) = reaches_client st.
Proof.
  intros Hk. cbv zeta. unfold invoke_general, invoke_prompt_text, invoke_with.
  destruct (ensure_clients_configured st Hk) as (tup & st1 & Hens).
  rewrite Hens.
  apply ensure_clients_tuple in Hens as (Hlen & Hev & _).
  rewrite (unpack3_of_four tup Hlen). done.
Qed.

End facts.

Lemma invoke_raises_before_permit_witness :
  Config.configured (Config.gemini_api_key Scenario.gemini_settings) = true
  /\ fst (invoke_general Scenario.gemini_settings Scenario.echo_client
            "Summarize" 30 "acme" "c1" "summary" initial)
     = Done (Raise (Py.ValueError "too many values to unpack (expected 3)")).
Proof.
  split; [reflexivity|].
  exact (proj1 (invoke_raises_before_permit Scenario.gemini_settings
                  Scenario.echo_client "Summarize" 30 "acme" "c1" "summary"
                  initial eq_refl)).
Defined.

End LlmExecutorFacts.

Module LlmAdapterFacts.
Import LlmAdapter.

Lemma mock_settings_adapter :
  get_llm_adapter Scenario.mock_settings "w1" = Ok Scenario.mock_adapter.
Proof. reflexivity. Qed.

Section facts.
Variable repr_quotient : nat -> nat -> string.
Variable remote : provider -> string -> string -> result response.
Variable json_loads : string -> option json.
Variable float_of_str : string -> option Q.

(** The rendered summary prompt never spells the word the mock looks
    for: it says "summarizing" and "Summarize". *)
Example summary_prompt_lacks_keyword :
  PyStr.contains "summary"
    (PyStr.lower (SUMMARY_PROMPT (PyStr.join PyStr.newline ["Great product!"]) 64))
  = false.
Proof. reflexivity. Qed.

(** When a text itself says "summary", the mock does answer with the
    first line of the prompt. *)
Example mock_summarize_keyword_in_text :
  summarize repr_quotient remote Scenario.mock_adapter ["A summary of it"]
  = Ok (RStr "You are an analyst summarizing brand mentions.").
Proof. reflexivity. Qed.

(** C3.  Under the mock provider, [summarize] of the one text
    ["Great product!"] returns the JSON text of the default sentiment
    object, not the first line of the rendered prompt. *)
Theorem mock_summarize_returns_sentiment_json :
  let self := Scenario.mock_adapter in
  let texts := ["Great product!"] in
  let prompt :=
    SUMMARY_PROMPT (PyStr.join PyStr.newline texts) (_max_tokens self) in
  let first_line := PyStr.upto 160 (hd "" (PyStr.split (PyStr.chr 10) prompt)) in
  summarize repr_quotient remote self texts
  = Ok (RStr (dumps_sentiment "0.33" "0.33" "0.34"))
  /\ first_line = "You are an analyst summarizing brand mentions."
  /\ summarize repr_quotient remote self texts <> Ok (RStr first_line).
Proof. cbv zeta. repeat split. discriminate. Qed.

(** What does hold for [sentiment]: the default on undecodable text
    and on a response that is neither text nor dict, and the fields
    as they come, without renormalisation, on a dict of numbers. *)
Lemma sentiment_default_on_parse_failure s :
  json_loads s = None ->
  sentiment_of_response json_loads float_of_str (RStr s)
  = Ok [("positive", 33 # 100); ("negative", 33 # 100); ("neutral", 34 # 100)]%Q.
Proof. intros H. unfold sentiment_of_response. by rewrite H. Qed.

Lemma sentiment_default_on_other_object :
  sentiment_of_response json_loads float_of_str ROther
  = Ok [("positive", 33 # 100); ("negative", 33 # 100); ("neutral", 34 # 100)]%Q.
Proof. reflexivity. Qed.

Lemma py_float_number (q : Q) :
  (Qabs q < inject_Z float_overflow)%Q ->
  py_float float_of_str (Py.JNum q) = Ok q.
Proof.
  intros Hq. unfold py_float.
  destruct (Qle_bool (inject_Z float_overflow) (Qabs q)) eqn:Hb; [|done].
  apply Qle_bool_iff, Qle_not_lt in Hb. done.
Qed.

Lemma sentiment_numbers_as_they_come s (p n u : Q) :
  json_loads s = Some (Py.JObj [("positive", Py.JNum p); ("negative", Py.JNum n);
                                ("neutral", Py.JNum u)]) ->
  (Qabs p < inject_Z float_overflow)%Q ->
  (Qabs n < inject_Z float_overflow)%Q ->
  (Qabs u < inject_Z float_overflow)%Q ->
  sentiment_of_response json_loads float_of_str (RStr s)
  = Ok [("positive", p); ("negative", n); ("neutral", u)].
Proof.
  intros H Hp Hn Hu. unfold sentiment_of_response. rewrite H.
  unfold field, py_get. cbn [Py.dict_get String.eqb Ascii.eqb Bool.eqb default
                             from_option id].
  by rewrite !py_float_number.
Qed.

(** An integer beyond the range of [float] makes [float] raise. *)
Lemma sentiment_raises_on_huge_integer s :
  json_loads s = Some (Py.JObj [("positive", Py.JNum (inject_Z (10 ^ 400)))]) ->
  sentiment_of_response json_loads float_of_str (RStr s)
  = Raise (Py.OverflowError "int too large to convert to float").
Proof. intros H. unfold sentiment_of_response. rewrite H. by vm_compute. Qed.

Lemma sentiment_missing_fields s :
  json_loads s = Some (Py.JObj []) ->
  sentiment_of_response json_loads float_of_str (RStr s)
  = Ok [("positive", 0); ("negative", 0); ("neutral", 1)]%Q.
Proof. intros H. unfold sentiment_of_response. by rewrite H. Qed.

(** A field that is present but is not a number makes [float] raise. *)
Lemma sentiment_raises_on_null_field s :
  json_loads s = Some (Py.JObj [("positive", Py.JNull)]) ->
  sentiment_of_response json_loads float_of_str (RStr s)
  = Raise (Py.TypeError "float() argument must be a string or a real number").
Proof. intros H. unfold sentiment_of_response. by rewrite H. Qed.

(** C6.  When the provider answers with text that decodes to a JSON
    array, [sentiment] raises [AttributeError]: the decoded list has
    no [get], and nothing replaces it by the default. *)
Theorem sentiment_raises_on_json_array
    (self : LangChainLLMAdapter) (texts : list string) (s : string)
    (items : list json) :
  _invoke repr_quotient remote self
          (SENTIMENT_PROMPT (PyStr.join PyStr.newline texts)) "sentiment"
  = Ok (RStr s) ->
  json_loads s = Some (Py.JArr items) ->
  sentiment repr_quotient remote json_loads float_of_str self texts
  = Raise (Py.AttributeError "'list' object has no attribute 'get'").
Proof.
  intros Hresp Hload. unfold sentiment. rewrite Hresp.
  unfold sentiment_of_response. by rewrite Hload.
Qed.

End facts.

Lemma sentiment_raises_on_json_array_witness :
  sentiment Scenario.no_repr Scenario.array_remote Scenario.array_loads
            Scenario.no_float Scenario.openai_adapter ["Great product!"]
  = Raise (Py.AttributeError "'list' object has no attribute 'get'").
Proof.
  apply (sentiment_raises_on_json_array Scenario.no_repr Scenario.array_remote
           Scenario.array_loads Scenario.no_float Scenario.openai_adapter
           ["Great product!"] "[0.2, 0.3, 0.5]"
           [Py.JNum (2 # 10); Py.JNum (3 # 10); Py.JNum (5 # 10)]);
    reflexivity.
Defined.

End LlmAdapterFacts.

Module ConfigFacts.
Import Config.

Section facts.
Variable environ : Settings.
Variable uuid4 : nat -> string.

Lemma effective_worker_id_settles ref p w p1 :
  get_settings_cache p = Some ref ->
  effective_worker_id uuid4 ref p = (Ok w, p1) ->
  settled w p1.
Proof.
  intros Hc. unfold effective_worker_id.
  destruct (heap p !! ref) as [s|] eqn:Hs; [|discriminate].
  destruct (configured (worker_id s)) eqn:Hw.
  { intros [= <- <-]. exists ref, s. eauto. }
  destruct (_generated_worker_id s) as [g|] eqn:Hg.
  { intros [= <- <-]. exists ref, s. eauto. }
  intros [= <- <-].
  exists ref, (set_generated_worker_id (Some ("worker-" +:+ uuid4 (uuid4_calls p))) s).
  simpl. rewrite lookup_insert_eq. eauto.
Qed.

Lemma first_call_settles p w p1 :
  get_settings_effective_worker_id environ uuid4 p = (Ok w, p1) ->
  settled w p1.
Proof.
  unfold get_settings_effective_worker_id, get_settings.
  destruct (get_settings_cache p) as [ref|] eqn:Hc.
  - by apply effective_worker_id_settles.
  - destruct (Settings_init environ) as [s|e]; [|discriminate].
    by apply effective_worker_id_settles.
Qed.

(** Once settled, a call changes nothing and answers [w]. *)
Lemma settled_call w p :
  settled w p ->
  get_settings_effective_worker_id environ uuid4 p = (Ok w, p).
Proof.
  intros (ref & s & Hc & Hs & Hw).
  unfold get_settings_effective_worker_id, get_settings, effective_worker_id.
  rewrite Hc, Hs.
  destruct Hw as [[-> <-]|[-> ->]]; reflexivity.
Qed.

Lemma settled_after_calls w p n :
  settled w p -> after_calls environ uuid4 n p = p.
Proof.
  intros Hs. induction n as [|n IH]; simpl; [done|].
  by rewrite (settled_call w p Hs).
Qed.

(** The generated identifier has the shape [worker-<uuid>] and one
    value of [uuid4] is drawn for it. *)
Lemma generated_worker_id p s :
  get_settings_cache p = None ->
  Settings_init environ = Ok s ->
  configured (worker_id s) = false ->
  exists p1,
    get_settings_effective_worker_id environ uuid4 p
    = (Ok ("worker-" +:+ uuid4 (uuid4_calls p)), p1)
    /\ uuid4_calls p1 = S (uuid4_calls p).
Proof.
  intros Hc Hi Hw.
  assert (_generated_worker_id s = None) as Hg.
  { unfold Settings_init in Hi. destruct (negb _); [discriminate|].
    destruct (_validate_llm_configuration environ); [|discriminate].
    by injection Hi as <-. }
  unfold get_settings_effective_worker_id, get_settings, effective_worker_id.
  rewrite Hc, Hi. simpl. rewrite lookup_insert_eq, Hw, Hg. eauto.
Qed.

(** C10.  Once [get_settings().effective_worker_id] has returned a
    string, every later evaluation in the process returns the same
    string, [get_settings()] keeps returning the same object, and no
    further identifier is generated. *)
Theorem effective_worker_id_stable (p p1 : Process) (w : string) (n : nat) :
  get_settings_effective_worker_id environ uuid4 p = (Ok w, p1) ->
  let later := after_calls environ uuid4 n p1 in
  fst (get_settings_effective_worker_id environ uuid4 later) = Ok w
  /\ fst (get_settings environ later) = fst (get_settings environ p1)
  /\ uuid4_calls (snd (get_settings_effective_worker_id environ uuid4 later))
     = uuid4_calls p1.
Proof.
  intros Hfirst. apply first_call_settles in Hfirst as Hs. cbv zeta.
  rewrite (settled_after_calls w p1 n Hs), (settled_call w p1 Hs). done.
Qed.

End facts.

Lemma effective_worker_id_stable_witness :
  let first :=
    get_settings_effective_worker_id Scenario.mock_settings Scenario.uuid4
                                     Scenario.fresh_process in
  fst first = Ok "worker-uuid-0"
  /\ fst (get_settings_effective_worker_id Scenario.mock_settings Scenario.uuid4
            (after_calls Scenario.mock_settings Scenario.uuid4 3 (snd first)))
     = Ok "worker-uuid-0".
Proof.
  split; [vm_compute; reflexivity|].
  exact (proj1 (effective_worker_id_stable Scenario.mock_settings Scenario.uuid4
                  Scenario.fresh_process _ "worker-uuid-0" 3
                  ltac:(vm_compute; reflexivity))).
Defined.

End ConfigFacts.

Module EmbeddingsFacts.
Import Embeddings.

(** *** The digest *)

Example round_constants :
  length Sha256.K = 64
  /\ take 4 Sha256.K = [0x428a2f98; 0x71374491; 0xb5c0fbcf; 0xe9b5dba5]%Z
  /\ last Sha256.K = Some 0xc67178f2%Z
  /\ Sha256.ha Sha256.H0 = 0x6a09e667%Z /\ Sha256.hh Sha256.H0 = 0x5be0cd19%Z.
Proof. repeat split. Qed.

Lemma land_ff_range (x : Z) : (0 <= Z.land x 0xff <= 255)%Z.
Proof.
  assert (Z.land x 0xff = x mod 256)%Z as ->
    by (change 0xff%Z with (Z.ones 8); by rewrite Z.land_ones).
  pose proof (Z.mod_pos_bound x 256 ltac:(lia)). lia.
Qed.

Lemma be_bytes_range (n : nat) (x : Z) :
  Forall (fun b => (0 <= b <= 255)%Z) (Sha256.be_bytes n x).
Proof.
  unfold Sha256.be_bytes. apply Forall_map, Forall_forall.
  intros i _. apply land_ff_range.
Qed.

Lemma be_bytes_length (n : nat) (x : Z) : length (Sha256.be_bytes n x) = n.
Proof. unfold Sha256.be_bytes. by rewrite length_map, length_rev, length_seq. Qed.

Lemma digest_length (msg : list Z) : length (Sha256.digest msg) = 32.
Proof. unfold Sha256.digest. cbv zeta. by rewrite !length_app, !be_bytes_length. Qed.

Lemma digest_range (msg : list Z) :
  Forall (fun b => (0 <= b <= 255)%Z) (Sha256.digest msg).
Proof.
  unfold Sha256.digest. cbv zeta.
  repeat (apply Forall_app_2; [apply be_bytes_range|]). apply be_bytes_range.
Qed.

(** The published digests of the empty message, of "abc" and of a
    message of two blocks. *)
Example digest_empty :
  Sha256.digest []
  = [0xe3; 0xb0; 0xc4; 0x42; 0x98; 0xfc; 0x1c; 0x14; 0x9a; 0xfb; 0xf4; 0xc8;
     0x99; 0x6f; 0xb9; 0x24; 0x27; 0xae; 0x41; 0xe4; 0x64; 0x9b; 0x93; 0x4c;
     0xa4; 0x95; 0x99; 0x1b; 0x78; 0x52; 0xb8; 0x55]%Z.
Proof. vm_compute. reflexivity. Qed.

Example digest_abc :
  encode_utf8 (PyStr.codes "abc") = Ok [0x61; 0x62; 0x63]%Z
  /\ Sha256.digest [0x61; 0x62; 0x63]%Z
     = [0xba; 0x78; 0x16; 0xbf; 0x8f; 0x01; 0xcf; 0xea; 0x41; 0x41; 0x40; 0xde;
        0x5d; 0xae; 0x22; 0x23; 0xb0; 0x03; 0x61; 0xa3; 0x96; 0x17; 0x7a; 0x9c;
        0xb4; 0x10; 0xff; 0x61; 0xf2; 0x00; 0x15; 0xad]%Z.
Proof. split; vm_compute; reflexivity. Qed.

Example digest_two_blocks :
  match encode_utf8
          (PyStr.codes "abcdbcdecdefdefgefghfghighijhijkijkljklmklmnlmnomnopnopq")
  with
  | Ok octets => Sha256.digest octets
  | Raise _ => []
  end
  = [0x24; 0x8d; 0x6a; 0x61; 0xd2; 0x06; 0x38; 0xb8; 0xe5; 0xc0; 0x26; 0x93;
     0x0c; 0x3e; 0x60; 0x39; 0xa3; 0x3c; 0xe4; 0x59; 0x64; 0xff; 0x21; 0x67;
     0xf6; 0xec; 0xed; 0xd4; 0x19; 0xdb; 0x06; 0xc1]%Z.
Proof. vm_compute. reflexivity. Qed.

(** *** The encoding *)

(** One, two, three and four octets: U+0041, U+00E9, U+20AC, U+1F600;
    the last code point; and a surrogate, alone and after a letter. *)
Example encode_utf8_examples :
  map encode_utf8 [[0x41]; [0xE9]; [0x20AC]; [0x1F600]; [0x10FFFF];
                   [0xD800]; [0x61; 0xDFFF; 0xD800]]%N
  = [Ok [0x41]; Ok [0xc3; 0xa9]; Ok [0xe2; 0x82; 0xac];
     Ok [0xf0; 0x9f; 0x98; 0x80]; Ok [0xf4; 0x8f; 0xbf; 0xbf];
     Raise (Py.UnicodeEncodeError 0); Raise (Py.UnicodeEncodeError 1)]%Z.
Proof. reflexivity. Qed.

Lemma encode_from_ok (start : nat) (t : text) :
  encodable t -> exists octets, encode_from start t = Ok octets.
Proof.
  revert start. induction t as [|cp r IH]; intros start Ht; simpl; [by eauto|].
  apply Forall_cons in Ht as [-> Hr].
  destruct (IH (S start) Hr) as (octets & ->). by eauto.
Qed.

Lemma encode_from_ok_inv (start : nat) (t : text) (octets : list Z) :
  encode_from start t = Ok octets -> encodable t.
Proof.
  revert start octets. induction t as [|cp r IH]; intros start octets; simpl.
  - intros _. constructor.
  - destruct (is_surrogate cp) eqn:Hcp; [discriminate|].
    destruct (encode_from (S start) r) as [o|] eqn:Hr; [|discriminate].
    intros _. constructor; [done|]. by eapply IH.
Qed.

Lemma encode_from_raise (start : nat) (t : text) (k : nat) (cp : N) :
  t !! k = Some cp -> is_surrogate cp = true ->
  (forall k' cp', k' < k -> t !! k' = Some cp' -> is_surrogate cp' = false) ->
  encode_from start t = Raise (Py.UnicodeEncodeError (start + k)).
Proof.
  revert start k. induction t as [|c r IH]; intros start k; [done|].
  destruct k as [|k]; simpl.
  - intros [= ->] -> _. by rewrite Nat.add_0_r.
  - intros Hk Hcp Hbefore.
    rewrite (Hbefore 0 c) by (done || lia).
    rewrite (IH (S start) k Hk Hcp).
    + by replace (S start + k) with (start + S k) by lia.
    + intros k' cp' Hlt Hk'. apply (Hbefore (S k') cp'); [lia|done].
Qed.

Lemma encode_from_raises (start : nat) (t : text) (e : exn) :
  encode_from start t = Raise e ->
  exists k cp,
    e = Py.UnicodeEncodeError (start + k)
    /\ t !! k = Some cp /\ is_surrogate cp = true
    /\ forall k' cp', k' < k -> t !! k' = Some cp' -> is_surrogate cp' = false.
Proof.
  revert start. induction t as [|c r IH]; intros start; simpl; [discriminate|].
  destruct (is_surrogate c) eqn:Hc.
  - intros [= <-]. exists 0, c. rewrite Nat.add_0_r.
    repeat split; [done..|]. intros; lia.
  - destruct (encode_from (S start) r) as [o|e'] eqn:Hr; [discriminate|].
    intros [= <-]. destruct (IH _ Hr) as (k & cp & -> & Hk & Hcp & Hbefore).
    exists (S k), cp. split; [f_equal; lia|]. split; [done|]. split; [done|].
    intros [|k'] cp' Hlt; simpl; [by intros [= <-]|].
    apply Hbefore. lia.
Qed.

(** *** Dividing an octet by 255 *)

(** The quotient lies between 0 and 1, and is the binary64 next to the
    exact quotient: within [2^-54] of it. *)
Lemma div_255_near (b : Z) :
  (0 <= b <= 255)%Z -> near_quotient b (Float64.div_int b 255).
Proof.
  intros Hb.
  assert (forallb
            (fun n => let x := Float64.div_int (Z.of_nat n) 255 in
                      Qle_bool 0 x && Qle_bool x 1
                      && Qle_bool (Qabs (x - (Z.of_nat n # 255))) (1 # 2 ^ 54))
            (seq 0 256) = true) as Hall by (vm_compute; reflexivity).
  rewrite forallb_forall in Hall.
  specialize (Hall (Z.to_nat b)). rewrite Z2Nat.id in Hall by lia.
  destruct (andb_prop _ _ (Hall ltac:(apply in_seq; lia))) as [[H0 H1]%andb_prop H2].
  apply Qle_bool_iff in H0, H1, H2. done.
Qed.

(** *** Repeating and cutting *)

Lemma lookup_concat_replicate {A} (l : list A) (n j : nat) :
  j < n * length l ->
  concat (replicate n l) !! j = l !! (j mod length l).
Proof.
  revert j. induction n as [|n IH]; intros j Hj; [lia|].
  simpl. destruct (decide (j < length l)) as [Hlt|Hge].
  - rewrite lookup_app_l by done. by rewrite Nat.mod_small.
  - rewrite lookup_app_r by lia. rewrite IH by lia.
    f_equal. assert (length l <> 0) by lia.
    replace j with ((j - length l) + 1 * length l) at 2 by lia.
    by rewrite Nat.Div0.mod_add.
Qed.

Lemma length_concat_replicate {A} (l : list A) (n : nat) :
  length (concat (replicate n l)) = n * length l.
Proof. induction n as [|n IH]; simpl; [done|]. rewrite length_app. lia. Qed.

Lemma repeat_factor_covers (dim : nat) : dim <= (dim + 32 - 1) / 32 * 32.
Proof.
  pose proof (Nat.div_mod (dim + 32 - 1) 32 ltac:(lia)).
  pose proof (Nat.mod_upper_bound (dim + 32 - 1) 32 ltac:(lia)). lia.
Qed.

(** The row of a text that can be encoded: [dim] components, component
    [j] being octet [j mod 32] of the digest divided by 255. *)
Lemma hash_row_ok (dim : nat) (t : text) :
  encodable t ->
  exists octets row,
    encode_utf8 t = Ok octets
    /\ hash_row dim t = Ok row
    /\ length row = dim
    /\ forall j, j < dim ->
         exists b, Sha256.digest octets !! (j mod 32) = Some b
                   /\ row !! j = Some (Float64.div_int b 255)
                   /\ near_quotient b (Float64.div_int b 255).
Proof.
  intros Ht. destruct (encode_from_ok 0 t Ht) as (octets & Henc).
  unfold hash_row, encode_utf8. rewrite Henc. cbv zeta.
  eexists octets, _. split; [done|]. split; [done|].
  assert (dim <= length (concat (replicate ((dim + length (Sha256.digest octets) - 1)
                                            / length (Sha256.digest octets))
                                           (Sha256.digest octets)))) as Hlen.
  { rewrite length_concat_replicate, digest_length. apply repeat_factor_covers. }
  split.
  - rewrite length_map, length_take. lia.
  - intros j Hj.
    rewrite ListFacts.map_fmap, list_lookup_fmap, lookup_take_lt by done.
    rewrite lookup_concat_replicate
      by (rewrite length_concat_replicate in Hlen; lia).
    rewrite digest_length.
    destruct (Sha256.digest octets !! (j mod 32)) as [b|] eqn:Hb.
    + exists b. split; [done|]. split; [done|]. apply div_255_near.
      pose proof (digest_range octets) as Hr. rewrite Forall_forall in Hr.
      apply Hr. eapply list_elem_of_lookup_2, Hb.
    + apply lookup_ge_None in Hb. rewrite digest_length in Hb.
      pose proof (Nat.mod_upper_bound j 32 ltac:(lia)). lia.
Qed.

Lemma hash_row_raises (dim : nat) (t : text) (e : exn) :
  hash_row dim t = Raise e <-> encode_utf8 t = Raise e.
Proof.
  unfold hash_row. destruct (encode_utf8 t); split; congruence.
Qed.

(** *** The loop over the texts *)

Local Abbreviation step dim :=
  (fun (acc : result (list (list Q))) (it : nat * text) =>
     match acc with
     | Raise e => Raise e
     | Ok vectors =>
         match hash_row dim (snd it) with
         | Raise e => Raise e
         | Ok row => Ok (<[fst it := row]> vectors)
         end
     end).

Lemma loop_after_raise (dim : nat) (its : list (nat * text)) (e : exn) :
  fold_left (step dim) its (Raise e) = Raise e.
Proof. induction its as [|it its IH]; simpl; [done|apply IH]. Qed.

Lemma loop_rows (dim : nat) (l : list text) (rows : list (list Q)) (k : nat)
    (vs : list (list Q)) :
  Forall2 (fun t row => hash_row dim t = Ok row) l rows ->
  k + length l <= length vs ->
  fold_left (step dim) (zip (seq k (length l)) l) (Ok vs)
  = Ok (take k vs ++ rows ++ drop (k + length l) vs).
Proof.
  intros Hall. revert k vs.
  induction Hall as [|t row l rows Ht _ IH]; intros k vs Hlen; simpl.
  - rewrite Nat.add_0_r. by rewrite take_drop.
  - simpl in Hlen. rewrite Ht. rewrite IH by (rewrite length_insert; lia).
    rewrite drop_insert_lt by lia.
    rewrite (take_S_r _ k row) by (apply list_lookup_insert_eq; lia).
    rewrite take_insert_ge by lia.
    rewrite <- app_assoc. simpl.
    by replace (k + S (length l)) with (S k + length l) by lia.
Qed.

Lemma loop_raises (dim : nat) (before : list text) (t : text)
    (after : list text) (rows : list (list Q)) (e : exn) (k : nat)
    (vs : list (list Q)) :
  Forall2 (fun t row => hash_row dim t = Ok row) before rows ->
  hash_row dim t = Raise e ->
  k + length (before ++ t :: after) <= length vs ->
  fold_left (step dim)
            (zip (seq k (length (before ++ t :: after))) (before ++ t :: after))
            (Ok vs)
  = Raise e.
Proof.
  intros Hall Ht. revert k vs.
  induction Hall as [|t' row l rows Ht' _ IH]; intros k vs Hlen; simpl.
  - rewrite Ht. apply loop_after_raise.
  - rewrite Ht'. apply IH. rewrite length_insert. simpl in Hlen. lia.
Qed.

Lemma hash_embed_rows (self : LocalEmbeddingAdapter) (texts : list text)
    (rows : list (list Q)) :
  Forall2 (fun t row => hash_row (_dim self) t = Ok row) texts rows ->
  _hash_embed self texts = Ok rows.
Proof.
  intros Hall. unfold _hash_embed, enumerate.
  rewrite (loop_rows _ _ rows) by (done || unfold zeros; rewrite length_replicate; lia).
  simpl. rewrite drop_ge by (unfold zeros; rewrite length_replicate; lia).
  by rewrite app_nil_r.
Qed.

Lemma rows_exist (dim : nat) (texts : list text) :
  Forall encodable texts ->
  exists rows, Forall2 (fun t row => hash_row dim t = Ok row) texts rows.
Proof.
  induction 1 as [|t texts Ht _ (rows & IH)]; [by exists []|].
  destruct (hash_row_ok dim t Ht) as (_ & row & _ & Hrow & _).
  exists (row :: rows). by constructor.
Qed.

(** The first text that cannot be encoded ends the loop. *)
Lemma hash_embed_raises (self : LocalEmbeddingAdapter) (texts : list text)
    (i : nat) (t : text) (e : exn) :
  texts !! i = Some t ->
  encode_utf8 t = Raise e ->
  (forall i' t', i' < i -> texts !! i' = Some t' -> encodable t') ->
  _hash_embed self texts = Raise e.
Proof.
  intros Hi He Hbefore.
  apply list_elem_of_split_length in Hi as (before & after & -> & ->).
  destruct (rows_exist (_dim self) before) as (rows & Hrows).
  { apply Forall_forall. intros t' Hin.
    apply list_elem_of_lookup in Hin as (i' & Hi').
    apply (Hbefore i' t'); [by eapply lookup_lt_Some|].
    by rewrite lookup_app_l by (by eapply lookup_lt_Some). }
  unfold _hash_embed, enumerate.
  apply (loop_raises _ _ _ _ rows); [done|by apply hash_row_raises|].
  unfold zeros. rewrite length_replicate. lia.
Qed.

(** Either every text can be encoded and the loop returns a matrix, or
    it raises [UnicodeEncodeError]. *)
Lemma encode_utf8_cases (t : text) :
  (encodable t /\ exists octets, encode_utf8 t = Ok octets)
  \/ (~ encodable t /\ exists k, encode_utf8 t = Raise (Py.UnicodeEncodeError k)).
Proof.
  unfold encode_utf8. destruct (encode_from 0 t) as [octets|e] eqn:Henc.
  - left. split; [by eapply encode_from_ok_inv|by eauto].
  - right. split.
    + intros Ht. destruct (encode_from_ok 0 t Ht) as (? & ?). congruence.
    + apply encode_from_raises in Henc as (k & _ & -> & _). by eauto.
Qed.

Lemma first_unencodable (texts : list text) :
  Forall encodable texts
  \/ exists i t,
       texts !! i = Some t /\ ~ encodable t
       /\ forall i' t', i' < i -> texts !! i' = Some t' -> encodable t'.
Proof.
  induction texts as [|t texts IH]; [left; constructor|].
  destruct (encode_utf8_cases t) as [[Ht _]|[Ht _]].
  - destruct IH as [Hall|(i & t' & Hi & Hno & Hbefore)].
    + left. by constructor.
    + right. exists (S i), t'. split; [done|]. split; [done|].
      intros [|i'] t'' Hlt; simpl; [by intros [= <-]|].
      apply Hbefore. lia.
  - right. exists 0, t. split; [done|]. split; [done|]. intros; lia.
Qed.

Lemma hash_embed_cases (self : LocalEmbeddingAdapter) (texts : list text) :
  (Forall encodable texts
   /\ exists vectors,
        _hash_embed self texts = Ok vectors
        /\ length vectors = length texts
        /\ Forall (fun row => length row = _dim self) vectors)
  \/ (~ Forall encodable texts
      /\ exists k, _hash_embed self texts = Raise (Py.UnicodeEncodeError k)).
Proof.
  destruct (first_unencodable texts) as [Hall|(i & t & Hi & Hno & Hbefore)].
  - left. split; [done|].
    destruct (rows_exist (_dim self) texts Hall) as (rows & Hrows).
    exists rows. split; [by apply hash_embed_rows|].
    split; [symmetry; by eapply Forall2_length|].
    apply Forall_forall. intros row Hrow.
    apply list_elem_of_lookup in Hrow as (j & Hj).
    destruct (Forall2_lookup_r _ _ _ _ _ Hrows Hj) as (t & Ht & Hok).
    rewrite Forall_forall in Hall.
    destruct (hash_row_ok (_dim self) t) as (_ & row' & _ & Hok' & Hlen & _).
    { apply Hall. by eapply list_elem_of_lookup_2. }
    congruence.
  - right. split.
    + intros Hall. rewrite Forall_forall in Hall. apply Hno, Hall.
      by eapply list_elem_of_lookup_2.
    + destruct (encode_utf8_cases t) as [[? _]|[_ (k & Hk)]]; [done|].
      exists k. by apply (hash_embed_raises self texts i t).
Qed.

(** C9.  For every list of [N] texts none of which holds a surrogate
    code point, the hash fallback returns [N] rows of [_dim] components
    (384 for the adapter the worker builds).  Row [i] is computed from
    text [i] alone: component [j] is octet [j mod 32] of the SHA-256
    digest of the UTF-8 text divided by 255 as a binary64, which lies
    between 0 and 1 and within [2^-54] of the exact quotient; it is the
    row the text gets by itself from any adapter of that dimension.  A
    text with a surrogate has no UTF-8 encoding: the first such text
    makes the fallback raise [UnicodeEncodeError] at its first
    surrogate, and no matrix is returned. *)
Theorem hash_embed_deterministic_rows
    (self : LocalEmbeddingAdapter) (texts : list text) :
  _dim fallback_adapter = 384
  /\ (Forall encodable texts ->
      exists vectors,
        _hash_embed self texts = Ok vectors
        /\ length vectors = length texts
        /\ forall i t, texts !! i = Some t ->
             exists octets row,
               encode_utf8 t = Ok octets
               /\ vectors !! i = Some row
               /\ length row = _dim self
               /\ (forall j, j < _dim self ->
                     exists b, Sha256.digest octets !! (j mod 32) = Some b
                               /\ row !! j = Some (Float64.div_int b 255)
                               /\ near_quotient b (Float64.div_int b 255))
               /\ forall other, _dim other = _dim self ->
                    _hash_embed other [t] = Ok [row])
  /\ (forall i t k cp,
        texts !! i = Some t ->
        (forall i' t', i' < i -> texts !! i' = Some t' -> encodable t') ->
        t !! k = Some cp -> is_surrogate cp = true ->
        (forall k' cp', k' < k -> t !! k' = Some cp' -> is_surrogate cp' = false) ->
        _hash_embed self texts = Raise (Py.UnicodeEncodeError k)).
Proof.
  split; [done|]. split.
  - intros Hall. destruct (rows_exist (_dim self) texts Hall) as (rows & Hrows).
    exists rows. split; [by apply hash_embed_rows|].
    split; [symmetry; by eapply Forall2_length|].
    intros i t Hi.
    destruct (Forall2_lookup_l _ _ _ _ _ Hrows Hi) as (row & Hrow & Ht).
    rewrite Forall_forall in Hall.
    destruct (hash_row_ok (_dim self) t) as (octets & row' & Henc & Ht' & Hlen & Hcomp).
    { apply Hall. by eapply list_elem_of_lookup_2. }
    assert (row' = row) as -> by congruence.
    exists octets, row. repeat (split; [done|]).
    intros other Hdim. apply hash_embed_rows.
    constructor; [by rewrite Hdim|constructor].
  - intros i t k cp Hi Hbefore Hk Hcp Hfirst.
    apply (hash_embed_raises self texts i t); [done| |done].
    by apply (encode_from_raise 0 t k cp).
Qed.

(** A text that is one surrogate code point (what [json.loads] builds
    from the escape of U+D800) gets no row: the fallback raises, so for
    this list of one text there is no matrix of one row. *)
Lemma hash_embed_rejects_lone_surrogate :
  _hash_embed fallback_adapter [[0xD800%N]] = Raise (Py.UnicodeEncodeError 0)
  /\ ~ (exists vectors,
          _hash_embed fallback_adapter [[0xD800%N]] = Ok vectors
          /\ length vectors = 1).
Proof.
  split; [reflexivity|]. intros (vectors & Hrun & _). discriminate Hrun.
Qed.

Lemma hash_embed_deterministic_rows_witness :
  exists vectors row,
    _hash_embed fallback_adapter [PyStr.codes "great product!"] = Ok vectors
    /\ vectors !! 0 = Some row
    /\ length row = 384
    /\ row !! 33 = Some (Float64.div_int 208 255).
Proof.
  destruct (proj1 (proj2 (hash_embed_deterministic_rows fallback_adapter
                            [PyStr.codes "great product!"])))
    as (vectors & Hrun & _ & Hrows).
  { repeat constructor. }
  destruct (Hrows 0 _ eq_refl) as (octets & row & Henc & Hrow & Hdim & Hcomp & _).
  exists vectors, row. split; [exact Hrun|]. split; [exact Hrow|].
  split; [exact Hdim|].
  destruct (Hcomp 33 ltac:(simpl; lia)) as (b & Hb & Hval & _).
  vm_compute in Henc. injection Henc as <-.
  vm_compute in Hb. injection Hb as <-. exact Hval.
Defined.

End EmbeddingsFacts.

Module ProcessorFacts.
Import Processor.

(** *** Cleaning, on examples *)

Example clean_text_examples :
  map _clean_text
      ["Great product!"; "great   product!"; "  Visit https://x.com now  ";
       "https://x.com"; "see http://a.b/c?d=1 and" +:+ PyStr.newline +:+ "HTTPS://E.F";
       "foohttp://bar baz"; "http:// x"]
  = ["great product!"; "great product!"; "visit now"; "";
     "see and https://e.f"; "foo baz"; "http:// x"].
Proof. reflexivity. Qed.

(** *** Cleaning, in general *)



Lemma lower_char_space c : PyStr.isspace c = true -> PyStr.lower_char c = c.
Proof. destruct c as [[] [] [] [] [] [] [] []]; (reflexivity || discriminate). Qed.





Lemma lstrip_head s :
  match PyStr.lstrip s with
  | String c _ => PyStr.isspace c = false
  | EmptyString => True
  end.
Proof.
  induction s as [|c s IH]; simpl; [done|].
  by destruct (PyStr.isspace c) eqn:Hc.
Qed.

Lemma rstrip_idem s : PyStr.rstrip (PyStr.rstrip s) = PyStr.rstrip s.
Proof.
  induction s as [|c s IH]; simpl; [done|].
  destruct (PyStr.rstrip s) as [|d r] eqn:Hr.
  - destruct (PyStr.isspace c) eqn:Hc; simpl; [done|]. by rewrite Hc.
  - simpl in *. by rewrite IH.
Qed.

Lemma lstrip_rstrip s :
  match s with String c _ => PyStr.isspace c = false | EmptyString => True end ->
  PyStr.lstrip (PyStr.rstrip s) = PyStr.rstrip s.
Proof.
  destruct s as [|c r]; simpl; [done|]. intros Hc.
  destruct (PyStr.rstrip r); rewrite ?Hc; simpl; by rewrite Hc.
Qed.

Lemma strip_idem s : PyStr.strip (PyStr.strip s) = PyStr.strip s.
Proof.
  unfold PyStr.strip.
  rewrite (lstrip_rstrip (PyStr.lstrip s)) by apply lstrip_head.
  apply rstrip_idem.
Qed.

Lemma single_spaced_weaken b s :
  single_spaced b s = true -> single_spaced false s = true.
Proof.
  destruct s as [|c r]; simpl; [done|].
  destruct (PyStr.isspace c); [|done]. destruct b; simpl; [|done].
  rewrite andb_false_r. discriminate.
Qed.






(** **** No URL is left *)

Lemma substring_all s : String.substring 0 (String.length s) s = s.
Proof. induction s as [|c s IH]; simpl; [done|]. by rewrite IH. Qed.











(** *** The words of a text *)











(** **** Collapsing leaves the words as they are *)



(** **** Trimming a single-spaced text joins its words *)






(** **** Stripping the URLs cuts the words *)













(** The pieces of the words that the URL pass leaves. *)
Local Abbreviation pieces ws :=
  (filter (fun w => Is_true (PyStr.truthy w)) (map cut_url ws)).


(** **** Lowercasing *)




(** *** Deduplication *)










(** The specification's wording on the examples above. *)
Example cleaned_text_examples :
  split_words ("  see   http://a.b/c and" +:+ PyStr.newline +:+ "more ")
  = ["see"; "http://a.b/c"; "and"; "more"]
  /\ map cut_url ["foohttp://bar"; "http://"; "https://x"; "HTTP://x"; "ftp://x"]
     = ["foo"; "http://"; ""; "HTTP://x"; "ftp://x"]
  /\ map cleaned_text
         ["Great product!"; "great   product!"; "  Visit https://x.com now  ";
          "https://x.com";
          "see http://a.b/c?d=1 and" +:+ PyStr.newline +:+ "HTTPS://E.F";
          "foohttp://bar baz"; "http:// x"]
     = ["great product!"; "great product!"; "visit now"; "";
        "see and https://e.f"; "foo baz"; "http:// x"].
Proof. repeat split. Qed.



Example preprocess_example :
  map Mention.text (preprocess_mentions Scenario.s1_mentions)
  = ["great product!"; "terrible bug"].
Proof. vm_compute. reflexivity. Qed.


End ProcessorFacts.


Module WorldFacts.
Import World.

Section facts.
Context {E I : Type}.
Local Abbreviation W := (World.t E I).
Implicit Types w : W.

Lemma bind_inv {A B} (m : Eff.M W A) (k : A -> Eff.M W B) w r w' :
  Eff.bind m k w = (r, w') ->
  (exists a w1, m w = (Ok a, w1) /\ k a w1 = (r, w'))
  \/ (exists e, m w = (Raise e, w') /\ r = Raise e).
Proof.
  unfold Eff.bind. destruct (m w) as [[a|e] w1]; [by eauto|].
  intros [= <- <-]. eauto.
Qed.

Lemma bind_ok_inv {A B} (m : Eff.M W A) (k : A -> Eff.M W B) w b w' :
  Eff.bind m k w = (Ok b, w') ->
  exists a w1, m w = (Ok a, w1) /\ k a w1 = (Ok b, w').
Proof. intros [?|(e & _ & ?)]%bind_inv; [done|discriminate]. Qed.

Lemma quiet_refl w : quiet w w.
Proof. unfold quiet. repeat split; lia. Qed.

Lemma quiet_trans w1 w2 w3 : quiet w1 w2 -> quiet w2 w3 -> quiet w1 w3.
Proof.
  unfold quiet. intros (-> & -> & -> & ?) (-> & -> & -> & ?).
  repeat split; lia.
Qed.

Lemma seconds_mono w w' :
  (now_ns w <= now_ns w')%N -> (seconds w <= seconds w')%Q.
Proof. intros H. unfold seconds, Qle. simpl. lia. Qed.

Lemma quiet_seconds w w' : quiet w w' -> (seconds w <= seconds w')%Q.
Proof. intros (_ & _ & _ & H). by apply seconds_mono. Qed.

Lemma quiet_elapsed w w' : quiet w w' -> (0 <= elapsed_ms w w')%Q.
Proof. intros H%quiet_seconds. unfold elapsed_ms. lra. Qed.

Lemma Quiet_ret {A} (a : A) : Quiet (Eff.ret (S := W) a).
Proof. intros w r w' [= <- <-]. apply quiet_refl. Qed.

Lemma Quiet_raise {A} e : Quiet (Eff.raise (S := W) (A := A) e).
Proof. intros w r w' [= <- <-]. apply quiet_refl. Qed.

Lemma Quiet_lift_result {A} (x : result A) : Quiet (Eff.lift_result (S := W) x).
Proof. intros w r w' [= <- <-]. apply quiet_refl. Qed.

Lemma Quiet_bind {A B} (m : Eff.M W A) (k : A -> Eff.M W B) :
  Quiet m -> (forall a, Quiet (k a)) -> Quiet (Eff.bind m k).
Proof.
  intros Hm Hk w r w' [(a & w1 & H1 & H2)|(e & H1 & _)]%bind_inv.
  - eapply quiet_trans; [by eapply Hm|by eapply Hk].
  - by eapply Hm.
Qed.

Lemma Quiet_try_except {A} (m : Eff.M W A) (h : exn -> Eff.M W A) :
  Quiet m -> (forall e, Quiet (h e)) -> Quiet (Eff.try_except m h).
Proof.
  intros Hm Hh w r w'. unfold Eff.try_except.
  destruct (m w) as [[a|e] w1] eqn:H1.
  - intros [= <- <-]. by eapply Hm.
  - intros H2. eapply quiet_trans; [by eapply Hm|by eapply Hh].
Qed.

Lemma perf_counter_inv drift w t w' :
  perf_counter drift w = (Ok t, w') -> t = seconds w' /\ quiet w w'.
Proof.
  unfold perf_counter. intros [= <- <-]. split; [done|].
  unfold quiet. simpl. repeat split; lia.
Qed.

Lemma Quiet_perf_counter drift : Quiet (perf_counter (E := E) (I := I) drift).
Proof.
  intros w r w'. unfold perf_counter. intros [= <- <-].
  unfold quiet. simpl. repeat split; lia.
Qed.

Lemma Quiet_call {A} (f : E -> result A * N * E) : Quiet (call (I := I) f).
Proof.
  intros w r w'. unfold call. destruct (f (ext w)) as [[x d] e].
  intros [= <- <-]. unfold quiet. simpl. repeat split; lia.
Qed.

Lemma call_ok_inv {A} (f : E -> result A * N * E) w a w' :
  call (I := I) f w = (Ok a, w') ->
  exists d e', f (ext w) = (Ok a, d, e') /\ (elapsed_ms w w' == ms_of_ns d)%Q.
Proof.
  unfold call. destruct (f (ext w)) as [[x d] e] eqn:Hf.
  intros [= -> <-]. exists d, e. split; [done|].
  unfold elapsed_ms, ms_of_ns, seconds, Qeq. simpl.
  rewrite N2Z.inj_add. lia.
Qed.

Lemma alloc_inv r w ref w' :
  alloc (E := E) (I := I) r w = (Ok ref, w') ->
  objects w' = <[ref := r]> (objects w) /\ objects w !! ref = None
  /\ redis w' = redis w /\ rpush_attempts w' = rpush_attempts w
  /\ now_ns w' = now_ns w.
Proof.
  unfold alloc. intros [= <- <-]. simpl. repeat split.
  apply not_elem_of_dom. intros Hin.
  apply elem_of_elements, max_list_elem_of_le in Hin. lia.
Qed.

Lemma Quiet_record_metric m : Quiet (record_metric (E := E) (I := I) m).
Proof. intros w r w' [= <- <-]. unfold quiet. simpl. repeat split; lia. Qed.

Lemma Quiet_Calm {A} (m : Eff.M W A) : Quiet m -> Calm m.
Proof. intros Hm w r w' H. by apply Hm in H as (? & _). Qed.

Lemma Calm_bind {A B} (m : Eff.M W A) (k : A -> Eff.M W B) :
  Calm m -> (forall a, Calm (k a)) -> Calm (Eff.bind m k).
Proof.
  intros Hm Hk w r w' [(a & w1 & H1 & H2)|(e & H1 & _)]%bind_inv.
  - apply Hm in H1. apply Hk in H2. congruence.
  - by eapply Hm.
Qed.

Lemma Calm_alloc r : Calm (alloc (E := E) (I := I) r).
Proof. by intros w x w' [= <- <-]. Qed.

Lemma Quiet_sleep d : Quiet (sleep (E := E) (I := I) d).
Proof.
  intros w r w' [= <- <-]. unfold quiet, advance. simpl. repeat split; lia.
Qed.

End facts.

End WorldFacts.

Module PipelineFacts.
Import World WorldFacts Processor.

Section facts.
Context {E I : Type}.
Local Abbreviation W := (World.t E I).
Implicit Types w : W.

Variable settings : Config.Settings.
Variable worker_id : string.
Variable drift : nat -> N.
Variable embed :
  list string -> string -> string -> E -> result (list (list Q)) * N * E.
Variable cluster :
  list (list Q) -> string -> string -> E -> result ClusteringOutput * N * E.
Variable summarize :
  string -> string -> list string -> E -> result LlmAdapter.response * N * E.
Variable sentiment :
  string -> string -> list string -> E -> result (list (string * Q)) * N * E.
Variable detect : string -> Z -> nat -> E -> result bool * N * E.

Local Abbreviation process_chunk :=
  (Processor.process_chunk (I := I) settings worker_id drift embed cluster
                           summarize sentiment detect).
Local Abbreviation analyze_loop :=
  (Processor.analyze_loop (I := I) settings drift summarize sentiment detect).

(** *** Nothing in the pipeline touches the store or an existing object *)

Lemma Quiet_preprocess chunk metrics :
  Quiet (_preprocess (I := I) (E := E) worker_id drift chunk metrics).
Proof.
  unfold _preprocess.
  repeat (apply Quiet_bind; [|intros ?]);
    try apply Quiet_perf_counter; try apply Quiet_record_metric; apply Quiet_ret.
Qed.

Lemma Quiet_generate_embeddings chunk mentions :
  Quiet (_generate_embeddings (I := I) drift embed chunk mentions).
Proof.
  unfold _generate_embeddings.
  repeat (apply Quiet_bind; [|intros ?]);
    try apply Quiet_perf_counter; try apply Quiet_call; apply Quiet_ret.
Qed.

Lemma Quiet_analyze_loop brand chunk_id mentions groupings acc llm spike :
  Quiet (analyze_loop brand chunk_id mentions groupings acc llm spike).
Proof.
  revert acc llm spike. induction groupings as [|g gs IH]; intros acc llm spike.
  - apply Quiet_ret.
  - simpl.
    repeat (apply Quiet_bind; [|intros ?]);
      try apply Quiet_perf_counter; try apply Quiet_call;
      try apply Quiet_lift_result; apply IH.
Qed.

Lemma Quiet_analyze_clusters chunk mentions output metrics :
  Quiet (_analyze_clusters (I := I) settings drift summarize sentiment detect
                           chunk mentions output metrics).
Proof.
  unfold _analyze_clusters. apply Quiet_bind; [apply Quiet_analyze_loop|].
  intros [[cl llm] spike]. apply Quiet_ret.
Qed.

(** *** Durations on the path that returns *)

Lemma preprocess_ok chunk metrics w mentions metrics' w' :
  _preprocess worker_id drift chunk metrics w = (Ok (mentions, metrics'), w') ->
  mentions = preprocess_mentions (Chunk.mentions chunk)
  /\ exists d, metrics' = ChunkMetrics.set_preprocessing_time_ms d metrics
               /\ (0 <= d <= elapsed_ms w w')%Q.
Proof.
  unfold _preprocess, Processor.perf_counter.
  intros (start & w1 & H1 & H)%bind_ok_inv.
  apply bind_ok_inv in H as (finish & w2 & H2 & H).
  apply bind_ok_inv in H as ([] & w3 & H3 & H).
  injection H as <- <- <-.
  apply perf_counter_inv in H1 as [-> Hq1]. apply perf_counter_inv in H2 as [-> Hq2].
  apply Quiet_record_metric in H3 as Hq3.
  split; [done|]. eexists. split; [done|].
  apply quiet_seconds in Hq1, Hq2, Hq3. unfold elapsed_ms. lra.
Qed.

Lemma generate_embeddings_ok chunk mentions w embeddings d w' :
  _generate_embeddings drift embed chunk mentions w = (Ok (embeddings, d), w') ->
  (0 <= d <= elapsed_ms w w')%Q.
Proof.
  unfold _generate_embeddings, Processor.perf_counter.
  intros (start & w1 & H1 & H)%bind_ok_inv.
  apply bind_ok_inv in H as (emb & w2 & H2 & H).
  apply bind_ok_inv in H as (finish & w3 & H3 & H).
  injection H as <- <- <-.
  apply perf_counter_inv in H1 as [-> Hq1]. apply perf_counter_inv in H3 as [-> Hq3].
  apply Quiet_call in H2 as Hq2.
  apply quiet_seconds in Hq1, Hq2, Hq3. unfold elapsed_ms. lra.
Qed.

Lemma analyze_loop_ok brand chunk_id mentions groupings acc llm spike w
    clusters llm' spike' w' :
  analyze_loop brand chunk_id mentions groupings acc llm spike w
  = (Ok (clusters, llm', spike'), w') ->
  (llm <= llm' /\ llm' - llm <= elapsed_ms w w'
   /\ spike <= spike' /\ spike' - spike <= elapsed_ms w w')%Q.
Proof.
  revert acc llm spike w.
  induction groupings as [|g gs IH]; intros acc llm spike w; simpl.
  - intros [= <- <- <- <-]. unfold elapsed_ms. lra.
  - unfold Processor.perf_counter.
    intros (ms & w1 & H1 & H)%bind_ok_inv.
    apply bind_ok_inv in H as (t1 & w2 & H2 & H).
    apply bind_ok_inv in H as (summary & w3 & H3 & H).
    apply bind_ok_inv in H as (sent & w4 & H4 & H).
    apply bind_ok_inv in H as (t2 & w5 & H5 & H).
    apply bind_ok_inv in H as (t3 & w6 & H6 & H).
    apply bind_ok_inv in H as (spiked & w7 & H7 & H).
    apply bind_ok_inv in H as (t4 & w8 & H8 & H).
    apply bind_ok_inv in H as (res & w9 & H9 & H).
    apply IH in H as (Ha & Hb & Hc & Hd).
    apply Quiet_lift_result, quiet_seconds in H1.
    apply perf_counter_inv in H2 as [-> ?%quiet_seconds].
    apply Quiet_call, quiet_seconds in H3.
    apply Quiet_call, quiet_seconds in H4.
    apply perf_counter_inv in H5 as [-> ?%quiet_seconds].
    apply perf_counter_inv in H6 as [-> ?%quiet_seconds].
    apply Quiet_call, quiet_seconds in H7.
    apply perf_counter_inv in H8 as [-> ?%quiet_seconds].
    apply Quiet_lift_result, quiet_seconds in H9.
    unfold elapsed_ms in *. lra.
Qed.

Lemma analyze_clusters_ok chunk mentions output metrics w clusters metrics' w' :
  _analyze_clusters settings drift summarize sentiment detect chunk mentions
                    output metrics w = (Ok (clusters, metrics'), w') ->
  exists llm spike,
    metrics' = ChunkMetrics.set_spike_detection_time_ms spike
                 (ChunkMetrics.set_llm_time_ms llm metrics)
    /\ (0 <= llm <= elapsed_ms w w' /\ 0 <= spike <= elapsed_ms w w')%Q.
Proof.
  unfold _analyze_clusters.
  intros ([[cl llm] spike] & w1 & H1 & H)%bind_ok_inv.
  injection H as <- <- <-.
  apply analyze_loop_ok in H1. exists llm, spike. split; [done|]. lra.
Qed.

(** [process_chunk], when it returns: one new object, the store as it
    was, and the metrics of the object in terms of the wall time between
    the first and the last reading of the clock. *)
Lemma process_chunk_ok chunk fetch w ref w' :
  process_chunk chunk fetch w = (Ok ref, w') ->
  exists r,
    objects w' = <[ref := r]> (objects w) /\ objects w !! ref = None
    /\ redis w' = redis w /\ rpush_attempts w' = rpush_attempts w
    /\ (now_ns w <= now_ns w')%N
    /\ ChunkResult.chunk_id r = Chunk.chunk_id chunk
    /\ ChunkResult.brand r = Chunk.brand chunk
    /\ let m := ChunkResult.metrics r in
       let wall := elapsed_ms (snd (World.perf_counter drift w)) w' in
       ChunkMetrics.io_time_ms m = fetch
       /\ ChunkMetrics.total_task_time_ms m = (wall + fetch)%Q
       /\ (0 <= wall)%Q
       /\ stage_times_within wall m
       /\ (reports_at_most_elapsed cluster ->
           (ChunkMetrics.clustering_time_ms m <= wall)%Q).
Proof.
  unfold Processor.process_chunk, Processor.perf_counter.
  intros (t0 & w0 & H0 & H)%bind_ok_inv.
  replace (snd (World.perf_counter drift w)) with w0 by (by rewrite H0).
  apply perf_counter_inv in H0 as [-> Hq0].
  apply bind_ok_inv in H as ([ms m1] & w1 & H1 & H).
  apply Quiet_preprocess in H1 as Hq1.
  apply preprocess_ok in H1 as (-> & d1 & -> & Hd1).
  destruct (preprocess_mentions (Chunk.mentions chunk)) as [|mention rest].
  - apply bind_ok_inv in H as (t1 & w2 & H2 & H).
    apply perf_counter_inv in H2 as [-> Hq2].
    apply alloc_inv in H as (Hobj & Hfresh & Hredis & Hatt & Hnow).
    pose proof (quiet_trans _ _ _ Hq0 (quiet_trans _ _ _ Hq1 Hq2)) as Hq.
    destruct Hq as (Hr & Ha & Ho & Hn), Hq0 as (_ & _ & Ho0 & _).
    eexists. split; [rewrite Hobj, Ho; reflexivity|].
    split; [by rewrite <- Ho|]. split; [congruence|]. split; [congruence|].
    split; [lia|]. split; [done|]. split; [done|]. simpl.
    assert (seconds w' = seconds w2) as Hs by (unfold seconds; by rewrite Hnow).
    split; [done|]. split; [unfold elapsed_ms; by rewrite Hs|].
    apply quiet_seconds in Hq1, Hq2. unfold elapsed_ms in *. rewrite Hs.
    unfold stage_times_within. simpl. repeat split; lra.
  - apply bind_ok_inv in H as ([emb d2] & w2 & H2 & H).
    apply Quiet_generate_embeddings in H2 as Hq2.
    apply generate_embeddings_ok in H2 as Hd2.
    apply bind_ok_inv in H as (output & w3 & H3 & H).
    unfold _perform_clustering in H3.
    apply Quiet_call in H3 as Hq3.
    apply call_ok_inv in H3 as (d3 & e3 & Hcl & Hd3).
    apply bind_ok_inv in H as ([cl m4] & w4 & H4 & H).
    apply Quiet_analyze_clusters in H4 as Hq4.
    apply analyze_clusters_ok in H4 as (llm & spike & -> & Hllm & Hspike).
    apply bind_ok_inv in H as (t5 & w5 & H5 & H).
    apply perf_counter_inv in H5 as [-> Hq5].
    apply alloc_inv in H as (Hobj & Hfresh & Hredis & Hatt & Hnow).
    pose proof (quiet_trans _ _ _ Hq0 (quiet_trans _ _ _ Hq1 (quiet_trans _ _ _ Hq2
                  (quiet_trans _ _ _ Hq3 (quiet_trans _ _ _ Hq4 Hq5))))) as Hq.
    destruct Hq as (Hr & Ha & Ho & Hn), Hq0 as (_ & _ & Ho0 & _).
    eexists. split; [rewrite Hobj, Ho; reflexivity|].
    split; [by rewrite <- Ho|]. split; [congruence|]. split; [congruence|].
    split; [lia|]. split; [done|]. split; [done|]. simpl.
    assert (seconds w' = seconds w5) as Hs by (unfold seconds; by rewrite Hnow).
    split; [done|]. split; [unfold elapsed_ms; by rewrite Hs|].
    apply quiet_seconds in Hq1, Hq2, Hq3, Hq4, Hq5.
    unfold elapsed_ms in *. rewrite Hs.
    unfold stage_times_within. simpl. repeat split; try lra.
    intros Hhonest. apply Hhonest in Hcl. lra.
Qed.

(** [process_chunk] leaves the store alone, also when it raises. *)
Lemma Calm_process_chunk chunk fetch : Calm (process_chunk chunk fetch).
Proof.
  unfold Processor.process_chunk.
  apply Calm_bind; [apply Quiet_Calm, Quiet_perf_counter|intros t0].
  apply Calm_bind; [apply Quiet_Calm, Quiet_preprocess|intros [ms m1]].
  destruct ms as [|mention rest].
  - apply Calm_bind; [apply Quiet_Calm, Quiet_perf_counter|intros t1].
    apply Calm_alloc.
  - apply Calm_bind; [apply Quiet_Calm, Quiet_generate_embeddings|intros [emb d]].
    apply Calm_bind; [apply Quiet_Calm, Quiet_call|intros output].
    apply Calm_bind; [apply Quiet_Calm, Quiet_analyze_clusters|intros [cl m4]].
    apply Calm_bind; [apply Quiet_Calm, Quiet_perf_counter|intros t5].
    apply Calm_alloc.
Qed.

End facts.

End PipelineFacts.


Module StorageFacts.
Import World WorldFacts Storage.

Section facts.
Context {E : Type}.
Local Abbreviation W := (World.t E stored).
Implicit Types w : W.

Variable settings : Config.Settings.
Variable worker_id : string.
Variable drift : nat -> N.
Variable isoformat_now : N -> string.
Variable rpush_fails : nat -> bool.

Lemma client_rpush_inv key value w r w' :
  client_rpush rpush_fails key value w = (r, w') ->
  objects w' = objects w /\ now_ns w' = now_ns w
  /\ match r with
     | Ok _ => rpush_fails (rpush_attempts w) = false
               /\ appended key value (redis w) (redis w')
     | Raise _ => redis w' = redis w
     end.
Proof.
  unfold client_rpush. destruct (rpush_fails (rpush_attempts w));
    intros [= <- <-]; simpl; done.
Qed.

(** An append with retries leaves the objects alone; when it returns the
    value has been appended once, when it raises the store is as before. *)
Lemma with_retry_inv key value retries base_delay attempt w r w' :
  with_retry (client_rpush rpush_fails key value) retries base_delay attempt w
  = (r, w') ->
  objects w' = objects w /\ (now_ns w <= now_ns w')%N
  /\ match r with
     | Ok _ => appended key value (redis w) (redis w')
     | Raise _ => redis w' = redis w
     end.
Proof.
  revert attempt w. induction retries as [|n IH]; intros attempt w; simpl.
  - intros (Ho & Hn & Hr)%client_rpush_inv. split; [done|]. split; [lia|].
    destruct r; [apply Hr|done].
  - unfold Eff.try_except.
    destruct (client_rpush rpush_fails key value w) as [[[]|e] w1] eqn:H1.
    + intros [= <- <-].
      apply client_rpush_inv in H1 as (Ho & Hn & _ & Hr). split; [done|].
      split; [lia|done].
    + apply client_rpush_inv in H1 as (Ho1 & Hn1 & Hr1).
      unfold Eff.bind, sleep. intros (Ho & Hn & Hr)%IH.
      unfold advance in *. simpl in *. rewrite Hr1 in Hr.
      split; [congruence|]. split; [lia|done].
Qed.

(** With a store that accepts every attempt, the append returns. *)
Lemma with_retry_returns key value retries base_delay attempt w :
  (forall n, rpush_fails n = false) ->
  exists w',
    with_retry (client_rpush rpush_fails key value) retries base_delay attempt w
    = (Ok tt, w').
Proof.
  intros Hno. destruct retries as [|n]; simpl.
  - unfold client_rpush. rewrite Hno. eauto.
  - unfold Eff.try_except, client_rpush. rewrite Hno. eauto.
Qed.

Lemma timed_inv {A} (body : Eff.M W A) w r w' :
  timed drift body w = (r, w') ->
  exists w1 w2,
    quiet w w1 /\ quiet w2 w'
    /\ match r with
       | Ok d => (exists x, body w1 = (Ok x, w2)) /\ d = elapsed_ms w1 w'
       | Raise e => body w1 = (Raise e, w2)
       end.
Proof.
  unfold timed.
  intros [(start & w1 & H1 & H)|(e & H1 & _)]%bind_inv; [|discriminate].
  apply perf_counter_inv in H1 as [-> Hq1]. exists w1.
  apply bind_inv in H as [(u & w2 & H2 & H)|(e & H2 & ->)].
  - unfold Eff.try_except in H2.
    destruct (body w1) as [[x|e] w2'] eqn:Hb.
    + injection H2 as <- <-.
      apply bind_inv in H as [(finish & w3 & H3 & H)|(e & H3 & _)]; [|discriminate].
      injection H as <- <-.
      apply perf_counter_inv in H3 as [-> Hq3].
      exists w2'. split; [done|]. split; [done|]. split; [eauto|reflexivity].
    + apply bind_inv in H2 as [(t & w3 & _ & H2)|(e' & H2 & _)]; discriminate.
  - unfold Eff.try_except in H2.
    destruct (body w1) as [[x|e'] w2] eqn:Hb; [discriminate|].
    apply bind_inv in H2 as [(t & w3 & H3 & H2)|(e'' & H3 & _)]; [|discriminate].
    injection H2 as <- <-.
    apply perf_counter_inv in H3 as [_ Hq3]. exists w2. done.
Qed.

(** [push_result]: the objects are not touched; when it returns, the
    serialisation of the object as it is at the call has been appended to
    the result queue, and nothing else; when it raises, nothing has. *)
Lemma push_result_inv brand ref obj w r w' :
  objects w !! ref = Some obj ->
  push_result settings worker_id drift isoformat_now rpush_fails brand ref w
  = (r, w') ->
  objects w' = objects w /\ (now_ns w <= now_ns w')%N
  /\ match r with
     | Ok push =>
         (0 <= push)%Q
         /\ appended (result_key settings brand)
              (ResultJson (_format_for_orchestrator
                             (isoformat_now (now_ns w)) obj))
              (redis w) (redis w')
     | Raise _ => redis w' = redis w
     end.
Proof.
  intros Hobj. unfold push_result, Eff.bind at 1, deref. rewrite Hobj.
  unfold Eff.bind at 1, Eff.get.
  intros [(d & w3 & H1 & H)|(e & H1 & ->)]%bind_inv.
  - apply timed_inv in H1 as (w1 & w2 & Hq1 & Hq2 & (x & Hb) & ->).
    apply with_retry_inv in Hb as (Ho & Hn & Hr).
    apply bind_inv in H as [([] & w4 & H4 & H)|(e & H4 & _)]; [|discriminate].
    injection H as <- <-.
    apply Quiet_record_metric in H4 as Hq4.
    destruct Hq1 as (Hr1 & _ & Ho1 & Hn1), Hq2 as (Hr2 & _ & Ho2 & Hn2),
             Hq4 as (Hr4 & _ & Ho4 & Hn4).
    split; [congruence|]. split; [lia|]. split.
    + unfold elapsed_ms. assert (seconds w1 <= seconds w3)%Q
        by (apply seconds_mono; lia). lra.
    + rewrite Hr4, Hr2, <- Hr1. done.
  - apply timed_inv in H1 as (w1 & w2 & Hq1 & Hq2 & Hb).
    apply with_retry_inv in Hb as (Ho & Hn & Hr).
    destruct Hq1 as (Hr1 & _ & Ho1 & Hn1), Hq2 as (Hr2 & _ & Ho2 & Hn2).
    split; [congruence|]. split; [lia|congruence].
Qed.

(** [record_failure]: likewise on the failure queue. *)
Lemma record_failure_inv brand failure reason_label w r w' :
  record_failure settings worker_id drift rpush_fails brand failure reason_label w
  = (r, w') ->
  objects w' = objects w /\ (now_ns w <= now_ns w')%N
  /\ match r with
     | Ok _ => appended (failure_key settings brand) (FailureJson failure)
                        (redis w) (redis w')
     | Raise _ => redis w' = redis w
     end.
Proof.
  unfold record_failure.
  intros [(d & w3 & H1 & H)|(e & H1 & ->)]%bind_inv.
  - apply timed_inv in H1 as (w1 & w2 & Hq1 & Hq2 & (x & Hb) & ->).
    apply with_retry_inv in Hb as (Ho & Hn & Hr).
    apply bind_inv in H as [([] & w4 & H4 & H)|(e & H4 & _)]; [|discriminate].
    apply bind_inv in H as [([] & w5 & H5 & H)|(e & H5 & _)]; [|discriminate].
    injection H as <- <-.
    apply Quiet_record_metric in H4 as Hq4. apply Quiet_record_metric in H5 as Hq5.
    destruct Hq1 as (Hr1 & _ & Ho1 & Hn1), Hq2 as (Hr2 & _ & Ho2 & Hn2),
             Hq4 as (Hr4 & _ & Ho4 & Hn4), Hq5 as (Hr5 & _ & Ho5 & Hn5).
    split; [congruence|]. split; [lia|].
    rewrite Hr5, Hr4, Hr2, <- Hr1. done.
  - apply timed_inv in H1 as (w1 & w2 & Hq1 & Hq2 & Hb).
    apply with_retry_inv in Hb as (Ho & Hn & Hr).
    destruct Hq1 as (Hr1 & _ & Ho1 & Hn1), Hq2 as (Hr2 & _ & Ho2 & Hn2).
    split; [congruence|]. split; [lia|congruence].
Qed.

(** With a store that accepts every attempt, [record_failure] returns. *)
Lemma record_failure_returns brand failure reason_label w :
  (forall n, rpush_fails n = false) ->
  exists d w',
    record_failure settings worker_id drift rpush_fails brand failure
                   reason_label w = (Ok d, w').
Proof.
  intros Hno. unfold record_failure, timed, redis_record_failure.
  unfold Eff.bind at 1 2. unfold perf_counter at 1.
  unfold Eff.bind at 1. unfold Eff.try_except at 1.
  edestruct (with_retry_returns (failure_key settings brand) (FailureJson failure)
               (Z.to_nat (Config.max_retries settings))
               (Config.retry_backoff_base settings) 0) as (w1 & ->); [done|].
  simpl. eauto.
Qed.

End facts.

End StorageFacts.


Module AppFacts.
Import World WorldFacts Storage App.

Section facts.
Context {E : Type}.
Local Abbreviation W := (World.t E stored).
Implicit Types w : W.

Variable settings : Config.Settings.
Variable worker_id : string.
Variable drift : nat -> N.
Variable isoformat_now : N -> string.
Variable rpush_fails : nat -> bool.
Variable embed :
  list string -> string -> string -> E -> result (list (list Q)) * N * E.
Variable cluster :
  list (list Q) -> string -> string -> E
  -> result Processor.ClusteringOutput * N * E.
Variable summarize :
  string -> string -> list string -> E -> result LlmAdapter.response * N * E.
Variable sentiment :
  string -> string -> list string -> E -> result (list (string * Q)) * N * E.
Variable detect : string -> Z -> nat -> E -> result bool * N * E.
Variable safe_json_loads : string -> result json.
Variable Chunk_model_validate : json -> result Chunk.t.

Local Abbreviation process_chunk :=
  (App.process_chunk settings worker_id drift embed cluster summarize
                     sentiment detect).
Local Abbreviation process_and_push :=
  (App.process_and_push settings worker_id drift isoformat_now rpush_fails
                        embed cluster summarize sentiment detect).
Local Abbreviation _handle_payload :=
  (App._handle_payload settings worker_id drift isoformat_now rpush_fails
                       embed cluster summarize sentiment detect
                       safe_json_loads Chunk_model_validate).
Local Abbreviation _record_failure :=
  (App._record_failure (E := E) settings worker_id drift rpush_fails).

(** The body of the last [try]: when it returns, [process_chunk] built
    one object, its serialisation was appended to the result queue, and
    the object then had the push time added; when it raises, the store
    is as before. *)
Lemma process_and_push_inv chunk brand fetch w r w' :
  process_and_push chunk brand fetch w = (r, w') ->
  match r with
  | Ok _ =>
      exists ref w1 obj push,
        process_chunk chunk fetch w = (Ok ref, w1)
        /\ objects w1 = <[ref := obj]> (objects w) /\ objects w !! ref = None
        /\ (0 <= push)%Q
        /\ objects w' = <[ref := add_push_time push obj]> (objects w)
        /\ appended (result_key settings brand)
             (ResultJson (_format_for_orchestrator
                            (isoformat_now (now_ns w1)) obj))
             (redis w) (redis w')
  | Raise _ => redis w' = redis w
  end.
Proof.
  unfold App.process_and_push.
  intros [(ref & w1 & H1 & H)|(e & H1 & ->)]%bind_inv.
  2: { unfold App.process_chunk in H1.
       exact (PipelineFacts.Calm_process_chunk _ _ _ _ _ _ _ _ _ _ _ _ _ H1). }
  unfold App.process_chunk in H1.
  pose proof (PipelineFacts.process_chunk_ok _ _ _ _ _ _ _ _ _ _ _ _ _ H1)
    as (obj & Hobj & Hfresh & Hredis & _).
  assert (objects w1 !! ref = Some obj) as Hlook
    by (rewrite Hobj; apply lookup_insert_eq).
  apply bind_inv in H as [(push & w2 & H2 & H)|(e & H2 & ->)].
  2: { pose proof (StorageFacts.push_result_inv _ _ _ _ _ _ _ _ _ _ _ Hlook H2)
         as (_ & _ & Hr). simpl in Hr. congruence. }
  pose proof (StorageFacts.push_result_inv _ _ _ _ _ _ _ _ _ _ _ Hlook H2)
    as (Ho2 & _ & Hpush & Happ).
  unfold Eff.bind, mutate, deref, record_metric in H. simpl in H.
  rewrite Ho2, Hobj, alter_insert_eq, lookup_insert_eq in H.
  injection H as <- <-. simpl.
  exists ref, w1, obj, push. rewrite Hredis in Happ. done.
Qed.




(** *** Dead-letter routing *)

Lemma record_failure_appends brand reason_key message payload chunk_id w :
  (forall n, rpush_fails n = false) ->
  exists w',
    _record_failure brand reason_key message payload (Py.JStr chunk_id) w
    = (Ok tt, w')
    /\ appended (failure_key settings brand)
         (FailureJson {| FailureRecord.worker_id := worker_id;
                         FailureRecord.brand := brand;
                         FailureRecord.chunk_id := chunk_id;
                         FailureRecord.reason := message;
                         FailureRecord.payload := payload |})
         (redis w) (redis w').
Proof.
  intros Hno. unfold App._record_failure, FailureRecord_init.
  unfold Eff.bind at 1, Eff.lift_result.
  destruct (StorageFacts.record_failure_returns settings worker_id drift
              rpush_fails brand
              {| FailureRecord.worker_id := worker_id;
                 FailureRecord.brand := brand;
                 FailureRecord.chunk_id := chunk_id;
                 FailureRecord.reason := message;
                 FailureRecord.payload := payload |} reason_key w Hno)
    as (d & w' & Hrf).
  unfold Eff.bind. rewrite Hrf. exists w'. split; [done|].
  by pose proof (StorageFacts.record_failure_inv _ _ _ _ _ _ _ _ _ _ Hrf)
    as (_ & _ & ?).
Qed.

(** C7.  A payload that decodes to a JSON object, fails the schema, and
    carries a [chunkId] that is not a string makes [_handle_payload]
    raise while it builds the failure record: nothing is appended to the
    failure queue, nor to any other key, and the exception leaves
    [_handle_payload]. *)
Theorem handle_payload_drops_invalid_chunk_id
    (queue_key payload : string) (fetch_time_ms : Q)
    (fields : list (string * json)) (chunk_id : json) (e : exn) (w : W) :
  safe_json_loads payload = Ok (Py.JObj fields) ->
  Chunk_model_validate (Py.JObj fields) = Raise e ->
  Py.dict_get "chunkId" fields = Some chunk_id ->
  (forall s, chunk_id <> Py.JStr s) ->
  _handle_payload queue_key payload fetch_time_ms w
  = (Raise (Py.ValidationError "chunk_id: Input should be a valid string"), w).
Proof.
  intros Hl Hv Hid Hstr. unfold App._handle_payload. cbv zeta.
  rewrite Hl, Hv, Hid. simpl.
  unfold App._record_failure, FailureRecord_init.
  destruct chunk_id; try done. by destruct (Hstr s).
Qed.

(** What does hold: with a store that accepts every append, a decoder
    that raises nothing but [ValueError], and payloads whose [chunkId],
    if any, is a string, every payload ends in exactly one append: to the
    result queue when the processing returned, to the failure queue
    otherwise. *)
Lemma handle_payload_one_append (queue_key payload : string) (fetch_time_ms : Q)
    (w : W) :
  (forall n, rpush_fails n = false) ->
  (forall e, safe_json_loads payload = Raise e -> exists msg, e = Py.ValueError msg) ->
  (forall fields e chunk_id,
      safe_json_loads payload = Ok (Py.JObj fields) ->
      Chunk_model_validate (Py.JObj fields) = Raise e ->
      Py.dict_get "chunkId" fields = Some chunk_id ->
      exists s, chunk_id = Py.JStr s) ->
  exists w' key item,
    _handle_payload queue_key payload fetch_time_ms w = (Ok tt, w')
    /\ appended key item (redis w) (redis w')
    /\ ((exists brand p, key = result_key settings brand /\ item = ResultJson p
           /\ exists raw chunk,
                safe_json_loads payload = Ok raw
                /\ Chunk_model_validate raw = Ok chunk
                /\ fst (process_and_push chunk brand fetch_time_ms w) = Ok tt)
        \/ (exists brand f, key = failure_key settings brand
              /\ item = FailureJson f /\ FailureRecord.payload f = payload)).
Proof.
  intros Hno Hval Hid. unfold App._handle_payload. cbv zeta.
  destruct (safe_json_loads payload) as [raw|e] eqn:Hl.
  2: { destruct (Hval e eq_refl) as (msg & ->).
       edestruct record_failure_appends as (w' & Hrf & Happ); [done|].
       exists w'. do 2 eexists. split; [exact Hrf|]. split; [exact Happ|].
       right. by do 2 eexists. }
  destruct (Chunk_model_validate raw) as [chunk|e] eqn:Hv.
  2: { assert (exists s, match raw with
                         | Py.JObj d => default (Py.JStr "unknown")
                                                (Py.dict_get "chunkId" d)
                         | _ => Py.JStr "unknown"
                         end = Py.JStr s) as (s & ->).
       { destruct raw; eauto.
         destruct (Py.dict_get "chunkId" fields) as [v|] eqn:Hd; simpl; eauto. }
       edestruct record_failure_appends as (w' & Hrf & Happ); [done|].
       exists w'. do 2 eexists. split; [exact Hrf|]. split; [exact Happ|].
       right. by do 2 eexists. }
  unfold Eff.try_except.
  destruct (process_and_push chunk _ fetch_time_ms w) as [[[]|e] w1] eqn:Hp.
  - pose proof (process_and_push_inv _ _ _ _ _ _ Hp)
      as (ref & w0 & obj & push & _ & _ & _ & _ & _ & Happ).
    exists w1. do 2 eexists. split; [done|]. split; [exact Happ|].
    left. do 2 eexists. split; [done|]. split; [done|].
    exists raw, chunk. by rewrite Hp.
  - pose proof (process_and_push_inv _ _ _ _ _ _ Hp) as Hr. simpl in Hr.
    edestruct record_failure_appends as (w' & Hrf & Happ); [done|].
    exists w'. do 2 eexists. split; [exact Hrf|].
    split; [rewrite <- Hr; exact Happ|]. right. by do 2 eexists.
Qed.

End facts.

(** *** The runs of the stand-in worker *)

(** Scenario S2 in this model: the failure record of an undecodable
    payload from [q:acme:chunks] is filed under [f:chunks]. *)
Example invalid_json_lands_on_suffix_queue :
  let run := Scenario.handle Scenario.s1_chunk "q:acme:chunks" "{not json" in
  fst run = Ok tt
  /\ map_to_list (redis (snd run))
     = [("f:chunks",
         [FailureJson {| FailureRecord.worker_id := "w1";
                         FailureRecord.brand := "chunks";
                         FailureRecord.chunk_id := "unknown";
                         FailureRecord.reason := "Invalid JSON";
                         FailureRecord.payload := "{not json" |}])].
Proof. vm_compute. split; reflexivity. Qed.





Lemma handle_payload_drops_invalid_chunk_id_witness :
  Scenario.handle Scenario.s1_chunk "q:acme:chunks" Scenario.null_id_text
  = (Raise (Py.ValidationError "chunk_id: Input should be a valid string"),
     Scenario.start).
Proof.
  refine (handle_payload_drops_invalid_chunk_id Scenario.mock_settings "w1"
            Scenario.drift Scenario.isoformat_now Scenario.never_fails
            Scenario.embed Scenario.cluster Scenario.summarize
            Scenario.sentiment Scenario.detect
            (Scenario.loads Scenario.s1_chunk)
            (Scenario.validate Scenario.s1_chunk)
            "q:acme:chunks" Scenario.null_id_text 2 Scenario.null_id_fields
            Py.JNull (Py.ValidationError "2 validation errors for Chunk")
            Scenario.start _ _ _ _).
  - reflexivity.
  - reflexivity.
  - reflexivity.
  - intros s. discriminate.
Defined.

End AppFacts.
(** ** storage.py: the orchestrator payload *)

Module StringFacts.

Lemma truthy_spec (s : string) : PyStr.truthy s = true <-> s <> "".
Proof. by destruct s. Qed.

Lemma truthy_false (s : string) : PyStr.truthy s = false <-> s = "".
Proof. by destruct s. Qed.

Lemma append_nil_r (s : string) : s +:+ "" = s.
Proof.
  induction s as [|c s IH]; [done|].
  change (String c (s +:+ "") = String c s). by rewrite IH.
Qed.

Lemma length_append (a b : string) :
  String.length (a +:+ b) = String.length a + String.length b.
Proof.
  induction a as [|c a IH]; [done|].
  change (S (String.length (a +:+ b)) = S (String.length a) + String.length b).
  by rewrite IH.
Qed.

Lemma append_inj_l (a x y : string) : a +:+ x = a +:+ y -> x = y.
Proof.
  induction a as [|c a IH]; [done|].
  change (String c (a +:+ x) = String c (a +:+ y) -> x = y).
  intros [= H]. by apply IH.
Qed.

Lemma append_inj_r (x y s : string) : x +:+ s = y +:+ s -> x = y.
Proof.
  revert y. induction x as [|c x IH]; intros [|d y] H; [done| | |].
  - apply (f_equal String.length) in H.
    rewrite !length_append in H. simpl in H. lia.
  - apply (f_equal String.length) in H.
    rewrite !length_append in H. simpl in H. lia.
  - change (String c (x +:+ s) = String d (y +:+ s)) in H.
    injection H as -> H. f_equal. by apply IH.
Qed.

Lemma prefix_append (p s : string) : String.prefix p (p +:+ s) = true.
Proof.
  induction p as [|c p IH]; [by destruct s|].
  change (String.prefix (String c p) (String c (p +:+ s)) = true).
  simpl. destruct (ascii_dec c c); [done|congruence].
Qed.

Lemma contains_append (needle a b : string) :
  PyStr.contains needle (a +:+ needle +:+ b) = true.
Proof.
  induction a as [|c a IH].
  - change ("" +:+ needle +:+ b) with (needle +:+ b).
    destruct needle as [|n needle]; [by destruct b|].
    change (String n needle +:+ b) with (String n (needle +:+ b)).
    simpl. destruct (ascii_dec n n); [|congruence].
    by rewrite prefix_append.
  - change (String c a +:+ needle +:+ b) with (String c (a +:+ needle +:+ b)).
    simpl. rewrite IH. by rewrite orb_true_r.
Qed.

Lemma rstrip_nonspace_end (s : string) (c : ascii) :
  PyStr.isspace c = false ->
  PyStr.rstrip (s +:+ String c "") = s +:+ String c "".
Proof.
  intros Hc. induction s as [|d s IH].
  - simpl. by rewrite Hc.
  - change (String d s +:+ String c "") with (String d (s +:+ String c "")).
    simpl. rewrite IH. by destruct s.
Qed.

Lemma endswith_char_append (s : string) (c : ascii) :
  Storage.endswith_char c (s +:+ String c "") = true.
Proof.
  induction s as [|d s IH]; simpl.
  - apply Ascii.eqb_refl.
  - change (String d s +:+ String c "") with (String d (s +:+ String c "")).
    simpl. rewrite IH. by destruct s.
Qed.

End StringFacts.

Module StorageFormatFacts.
Import Storage StringFacts.

Lemma normalize_with_fallback summary examples l :
  l <> "" -> _normalize_summary_text summary examples (Some l) <> "".
Proof.
  intros Hl. unfold _normalize_summary_text. cbv zeta.
  match goal with
  | |- (if negb (PyStr.truthy ?c) && _ then _ else _) <> _ =>
      destruct (PyStr.truthy c) eqn:Hc
  end; simpl.
  - by apply truthy_spec.
  - pose proof (proj2 (truthy_spec l) Hl) as Ht. by rewrite Ht.
Qed.

(** Where a label, a topic or a summary line comes from. *)
Lemma normalize_sources summary examples fallback_label :
  let text := _normalize_summary_text summary examples fallback_label in
  text = ""
  \/ text = PyStr.strip (default "" summary)
  \/ (exists e rest, examples = e :: rest /\ text = PyStr.strip e)
  \/ fallback_label = Some text.
Proof.
  cbv zeta. unfold _normalize_summary_text.
  set (c := PyStr.strip (default "" summary)).
  destruct (startswith "{" c && _ && _ && _);
    destruct examples as [|e rest]; destruct fallback_label as [l|]; simpl;
    repeat match goal with
           | |- context [if ?b then _ else _] => destruct b eqn:?; simpl
           end;
    eauto 10.
Qed.

Lemma existsb_spike_build (clusters : list ClusterResult.t) :
  existsb spike (_build_clusters clusters)
  = existsb ClusterResult.spike clusters.
Proof.
  induction clusters as [|c l IH]; [done|].
  change (ClusterResult.spike c || existsb spike (_build_clusters l)
          = ClusterResult.spike c || existsb ClusterResult.spike l).
  by rewrite IH.
Qed.

(** X1.  The [clusters] of the orchestrator payload mirror the clusters
    of the result one by one and in order; every entry has a label that
    is not empty (the stripped summary, the stripped first example, or
    [Cluster <id>]); [meta.mentionCount] is the sum of the cluster
    counts and [spikeDetected] says whether some cluster is a spike. *)
Theorem orchestrator_payload_mirrors_clusters
    (now_iso : string) (result : ChunkResult.t) :
  let payload := _format_for_orchestrator now_iso result in
  let source := ChunkResult.clusters result in
  length (clusters payload) = length source
  /\ (forall i cluster, source !! i = Some cluster ->
        exists entry,
          clusters payload !! i = Some entry
          /\ id entry = pretty (ClusterResult.cluster_id cluster)
          /\ mentions entry = ClusterResult.examples cluster
          /\ mentionCount entry = ClusterResult.count cluster
          /\ spike entry = ClusterResult.spike cluster
          /\ label entry <> ""
          /\ (label entry = PyStr.strip (default "" (ClusterResult.summary cluster))
              \/ (exists e rest, ClusterResult.examples cluster = e :: rest
                                 /\ label entry = PyStr.strip e)
              \/ label entry
                 = "Cluster " +:+ pretty (ClusterResult.cluster_id cluster)))
  /\ meta_mentionCount payload = list_sum (map ClusterResult.count source)
  /\ (spikeDetected payload = true
      <-> exists cluster, cluster ∈ source /\ ClusterResult.spike cluster = true).
Proof.
  cbv zeta. unfold _format_for_orchestrator.
  cbn [clusters meta_mentionCount spikeDetected].
  split; [unfold _build_clusters; by rewrite length_map|].
  split; [|split].
  - intros i cluster Hi. unfold _build_clusters.
    rewrite ListFacts.map_fmap, list_lookup_fmap, Hi.
    eexists. split; [reflexivity|].
    cbn [id mentions mentionCount spike label]. do 4 (split; [done|]).
    split; [by apply normalize_with_fallback|].
    pose proof (normalize_sources (ClusterResult.summary cluster)
                  (ClusterResult.examples cluster)
                  (Some ("Cluster " +:+ pretty (ClusterResult.cluster_id cluster))))
      as [H|[H|[H|H]]]; cbv zeta in H.
    + by apply normalize_with_fallback in H.
    + by left.
    + right. by left.
    + right. right. by injection H.
  - unfold _build_clusters. rewrite map_map. done.
  - rewrite existsb_spike_build, existsb_exists.
    split; intros (c & Hin & Hs); exists c; split; try done;
      by apply list_elem_of_In.
Qed.

Lemma dumps_sentiment_shape (positive negative neutral : string) :
  let text := LlmAdapter.dumps_sentiment positive negative neutral in
  PyStr.strip text = text
  /\ startswith "{" text = true /\ endswith_char "}" text = true
  /\ PyStr.contains "positive" text = true
  /\ PyStr.contains "negative" text = true.
Proof.
  cbv zeta. unfold LlmAdapter.dumps_sentiment.
  set (dq := PyStr.dquote).
  set (body := dq +:+ "positive" +:+ dq +:+ ": " +:+ positive +:+ ", " +:+ dq
               +:+ "negative" +:+ dq +:+ ": " +:+ negative +:+ ", " +:+ dq
               +:+ "neutral" +:+ dq +:+ ": " +:+ neutral).
  assert ("{" +:+ dq +:+ "positive" +:+ dq +:+ ": " +:+ positive +:+ ", " +:+ dq
          +:+ "negative" +:+ dq +:+ ": " +:+ negative +:+ ", " +:+ dq
          +:+ "neutral" +:+ dq +:+ ": " +:+ neutral +:+ "}"
          = ("{" +:+ body) +:+ String "}" "") as Hend.
  { unfold body. by rewrite !PyStrFacts.app_assoc. }
  split; [|split; [|split; [|split]]].
  - unfold PyStr.strip.
    change (PyStr.lstrip ("{" +:+ ?x)) with ("{" +:+ x).
    rewrite Hend. by apply rstrip_nonspace_end.
  - done.
  - rewrite Hend. apply endswith_char_append.
  - apply (contains_append "positive" ("{" +:+ dq)).
  - replace ("{" +:+ dq +:+ "positive" +:+ dq +:+ ": " +:+ positive +:+ ", " +:+ dq
             +:+ "negative" +:+ dq +:+ ": " +:+ negative +:+ ", " +:+ dq
             +:+ "neutral" +:+ dq +:+ ": " +:+ neutral +:+ "}")
      with (("{" +:+ dq +:+ "positive" +:+ dq +:+ ": " +:+ positive +:+ ", " +:+ dq)
            +:+ "negative"
            +:+ (dq +:+ ": " +:+ negative +:+ ", " +:+ dq
                 +:+ "neutral" +:+ dq +:+ ": " +:+ neutral +:+ "}"))
      by (by rewrite !PyStrFacts.app_assoc).
    apply contains_append.
Qed.

(** X2.  A summary that is the JSON text of a sentiment object, which
    is what the mock model and [json.dumps] of a sentiment dict produce,
    is treated like a missing summary: label, topic and summary line
    are taken from the first example or the fallback label instead. *)
Theorem sentiment_json_summary_is_dropped
    (positive negative neutral : string) (examples : list string)
    (fallback_label : option string) :
  _normalize_summary_text
    (Some (LlmAdapter.dumps_sentiment positive negative neutral))
    examples fallback_label
  = _normalize_summary_text None examples fallback_label.
Proof.
  pose proof (dumps_sentiment_shape positive negative neutral)
    as (Hs & H1 & H2 & H3 & H4).
  cbv zeta in Hs, H1, H2, H3, H4.
  unfold _normalize_summary_text. simpl default.
  rewrite Hs, H1, H2, H3, H4. reflexivity.
Qed.

End StorageFormatFacts.

Module StorageTextFacts.
Import Storage StringFacts.

Lemma length_concat_singletons {A B} (f : A -> list B) (l : list A) :
  (forall x, length (f x) <= 1) -> length (concat (map f l)) <= length l.
Proof.
  intros Hf. induction l as [|x l IH]; simpl; [done|].
  rewrite length_app. pose proof (Hf x). lia.
Qed.

(** X4.  [_extract_topics] yields at most ten topics and at most one
    per cluster; no topic is empty and none has leading or trailing
    whitespace. *)
Theorem extract_topics_bounded (clusters : list ClusterResult.t) :
  let topics := _extract_topics clusters in
  length topics <= 10
  /\ length topics <= length clusters
  /\ Forall (fun topic => topic <> "" /\ PyStr.strip topic = topic) topics.
Proof.
  cbv zeta. unfold _extract_topics. cbv zeta.
  set (found := concat (map _ clusters)).
  split; [rewrite length_take; lia|]. split.
  - rewrite length_take, length_map.
    pose proof (length_filter (fun t => Is_true (PyStr.truthy (PyStr.strip t)))
                  found).
    assert (length found <= length clusters); [|lia].
    apply length_concat_singletons. intros c.
    destruct (PyStr.truthy _); [done|]. rewrite length_take. lia.
  - apply Forall_take. rewrite ListFacts.map_fmap. apply Forall_fmap.
    apply Forall_forall. intros t [Ht _]%list_elem_of_filter. simpl. split.
    + apply truthy_spec. by apply Is_true_true.
    + apply ProcessorFacts.strip_idem.
Qed.

Lemma join_nonempty (sep : string) (lines : list string) :
  Forall (fun l => l <> "") lines -> PyStr.join sep lines = "" -> lines = [].
Proof.
  destruct lines as [|p [|q r]]; [done| |].
  - intros [Hp _]%Forall_cons. simpl. done.
  - intros [Hp _]%Forall_cons.
    change (PyStr.join sep (p :: q :: r))
      with (p +:+ sep +:+ PyStr.join sep (q :: r)).
    destruct p as [|c p]; [done|]. discriminate.
Qed.

(** X5.  [_combine_summaries] is the empty string exactly when no
    cluster has a usable summary or example; with one such cluster it
    is that cluster's text. *)
Theorem combine_summaries_empty_iff (clusters : list ClusterResult.t) :
  let line cluster :=
    _normalize_summary_text (ClusterResult.summary cluster)
                            (ClusterResult.examples cluster) None in
  (_combine_summaries clusters = ""
   <-> forall cluster, cluster ∈ clusters -> line cluster = "")
  /\ (forall cluster, _combine_summaries [cluster] = line cluster).
Proof.
  cbv zeta. unfold _combine_summaries. cbv zeta. split.
  - set (line := fun cluster : ClusterResult.t => _normalize_summary_text _ _ None).
    split.
    + intros Hjoin cluster Hin.
      apply join_nonempty in Hjoin.
      * destruct (line cluster) as [|c s] eqn:Hl; [done|].
        assert (line cluster ∈ filter (fun l => Is_true (PyStr.truthy l))
                                      (map line clusters)) as Hmem.
        { apply list_elem_of_filter. split; [by rewrite Hl|].
          rewrite ListFacts.map_fmap. by apply list_elem_of_fmap_2. }
        rewrite Hjoin in Hmem. by apply elem_of_nil in Hmem.
      * apply Forall_forall. intros l [Hl _]%list_elem_of_filter.
        apply truthy_spec. by apply Is_true_true.
    + intros Hall.
      assert (filter (fun l => Is_true (PyStr.truthy l)) (map line clusters) = [])
        as ->; [|done].
      induction clusters as [|c l IH]; [done|].
      change (map line (c :: l)) with (line c :: map line l).
      rewrite filter_cons.
      assert (line c = "") as -> by (apply Hall; left).
      destruct (decide (Is_true (PyStr.truthy ""))) as [[]|_].
      apply IH. intros x Hx. apply Hall. by right.
  - intros cluster.
    set (text := _normalize_summary_text _ _ None).
    change (map _ [cluster]) with [text]. rewrite filter_cons.
    destruct text as [|c s]; done.
Qed.

(** X6.  The result key and the failure key determine the brand: two
    brands never share a result queue or a failure queue, and the same
    holds for the chunk queue keys the consumer scans for. *)
Theorem queue_keys_injective (settings : Config.Settings)
    (queue_prefix brand1 brand2 : string) :
  (result_key settings brand1 = result_key settings brand2 <-> brand1 = brand2)
  /\ (failure_key settings brand1 = failure_key settings brand2
      <-> brand1 = brand2)
  /\ (QueueConsumer.brand_queue_key queue_prefix brand1
      = QueueConsumer.brand_queue_key queue_prefix brand2 <-> brand1 = brand2).
Proof.
  unfold result_key, failure_key, QueueConsumer.brand_queue_key.
  repeat split; try (intros ->; reflexivity).
  - intros H%append_inj_l%append_inj_l. by apply append_inj_r in H.
  - by intros H%append_inj_l%append_inj_l.
  - intros H%append_inj_l%append_inj_l. by apply append_inj_r in H.
Qed.

End StorageTextFacts.

(** ** llm_adapter.py: providers, fallback and the mock model *)

Module LlmAdapterMoreFacts.
Import LlmAdapter StringFacts.

Local Ltac settle_wiring :=
  split; [reflexivity|]; split; [assumption|]; split; [assumption|];
  split; [split; intros; congruence|];
  split; [split; intros; congruence|];
  split; [split; intros; congruence|];
  split; [congruence|];
  split; [intros [?|?]; congruence|];
  intros ? ? [?|?]; repeat split; congruence.

(** X7.  Settings that passed the constructor always give an adapter:
    [get_llm_adapter] does not raise, the mock provider has no
    fallback, every other provider has one that differs from its
    primary, and a Gemini or OpenAI model is only wired in when its key
    is configured. *)
Theorem validated_settings_give_adapter
    (environ s : Config.Settings) (worker_id : string) :
  Config.Settings_init environ = Ok s ->
  exists adapter,
    get_llm_adapter s worker_id = Ok adapter
    /\ _worker_id adapter = worker_id
    /\ (16 <= _max_tokens adapter)%Z /\ (1 <= _timeout adapter)%Z
    /\ (_fallback adapter = None <-> Config.llm_provider s = Config.LlmMock)
    /\ (_primary adapter = MockLLM <-> Config.llm_provider s = Config.LlmMock)
    /\ (_primary adapter = GeminiProxy
        <-> Config.llm_provider s = Config.LlmGemini)
    /\ _fallback adapter <> Some (_primary adapter)
    /\ (_primary adapter = GeminiProxy \/ _fallback adapter = Some GeminiProxy ->
        Config.configured (Config.gemini_api_key s) = true)
    /\ (forall model key,
          _primary adapter = ChatOpenAI model key
          \/ _fallback adapter = Some (ChatOpenAI model key) ->
          model = Config.openai_model s /\ key = Config.openai_api_key s
          /\ Config.configured key = true).
Proof.
  unfold Config.Settings_init.
  destruct (Config.field_bounds environ) eqn:Hb; [|discriminate]. simpl.
  unfold Config._validate_llm_configuration.
  destruct (Config.is_gemini (Config.llm_provider environ)
            && negb (Config.configured (Config.gemini_api_key environ)))
    eqn:Hg; [discriminate|].
  destruct (Config.is_openai (Config.llm_provider environ)
            && negb (Config.configured (Config.openai_api_key environ)))
    eqn:Ho; [discriminate|].
  destruct (negb _ && negb _); [discriminate|].
  intros [= <-].
  assert ((16 <= Config.llm_summary_max_tokens environ)%Z
          /\ (1 <= Config.llm_timeout_sec environ)%Z) as [Htokens Htimeout].
  { unfold Config.field_bounds in Hb.
    repeat (apply andb_prop in Hb as [Hb ?]). split; by apply Z.leb_le. }
  clear Hb.
  unfold get_llm_adapter, _build_chat_models. simpl.
  destruct (Config.llm_provider environ) eqn:Hp; simpl in Hg, Ho.
  - eexists. split; [reflexivity|]. simpl. settle_wiring.
  - rewrite Ho. simpl. apply negb_false_iff in Ho.
    destruct (Config.configured (Config.gemini_api_key environ)) eqn:Hk;
      (eexists; split; [reflexivity|]); simpl; settle_wiring.
  - rewrite Hg. simpl. apply negb_false_iff in Hg.
    destruct (Config.configured (Config.openai_api_key environ)) eqn:Hk;
      (eexists; split; [reflexivity|]); simpl; settle_wiring.
Qed.

Lemma validated_settings_give_adapter_witness :
  Config.Settings_init Scenario.gemini_settings = Ok Scenario.gemini_settings
  /\ exists adapter,
       get_llm_adapter Scenario.gemini_settings "w1" = Ok adapter
       /\ _primary adapter = GeminiProxy
       /\ _fallback adapter = Some MockLLM.
Proof.
  split; [reflexivity|].
  destruct (validated_settings_give_adapter Scenario.gemini_settings
              Scenario.gemini_settings "w1" eq_refl)
    as (adapter & Hget & _).
  exists adapter. split; [exact Hget|].
  injection Hget as <-. split; reflexivity.
Defined.

Section facts.
Variable repr_quotient : nat -> nat -> string.
Variable remote : provider -> string -> string -> result response.

(** X8.  [_invoke] and the mock model, for an adapter with a positive
    timeout: when its primary is the mock it answers with the mock's
    text; when its fallback is the mock it never raises, and answers
    with the mock's text whenever its primary raised.  With a timeout
    that is not positive every call that goes through
    [asyncio.wait_for] is cancelled before it starts, so an adapter
    without the Gemini proxy raises [TimeoutError], mock or not.
    Without a fallback the exception of the primary is what [_invoke]
    raises. *)
Theorem invoke_falls_back_to_mock
    (self : LangChainLLMAdapter) (prompt operation : string) :
  let mock_text := RStr (MockLLM_ainvoke repr_quotient (InStr prompt)) in
  let answer := _invoke repr_quotient remote self prompt operation in
  let primary :=
    ainvoke repr_quotient remote (_timeout self) (_primary self)
            prompt operation in
  ((0 < _timeout self)%Z ->
   (_primary self = MockLLM -> answer = Ok mock_text)
   /\ (_fallback self = Some MockLLM ->
       (exists r, answer = Ok r)
       /\ forall e, primary = Raise e -> answer = Ok mock_text))
  /\ ((_timeout self <= 0)%Z ->
      _primary self <> GeminiProxy -> _fallback self <> Some GeminiProxy ->
      answer = Raise Py.TimeoutError)
  /\ (_fallback self = None ->
      forall e, primary = Raise e -> answer = Raise e).
Proof.
  cbv zeta. unfold _invoke. split; [|split].
  - intros Hpos.
    assert ((_timeout self <=? 0)%Z = false) as Hcmp by (apply Z.leb_gt; lia).
    split.
    + intros ->. cbn [ainvoke]. by rewrite Hcmp.
    + intros ->. split.
      * destruct (ainvoke _ _ _ _ _ _) as [[]|]; cbn [ainvoke]; rewrite ?Hcmp;
          eauto.
      * intros e ->. cbn [ainvoke]. by rewrite Hcmp.
  - intros Hneg Hp Hf.
    assert ((_timeout self <=? 0)%Z = true) as Hcmp by (apply Z.leb_le; lia).
    destruct (_primary self) as [| |model key]; [|done|]; cbn [ainvoke];
      rewrite Hcmp;
      (destruct (_fallback self) as [[| |model' key']|]; [|done| |done]);
      cbn [ainvoke]; by rewrite Hcmp.
  - intros -> e ->. done.
Qed.

End facts.

Lemma invoke_falls_back_to_mock_witness :
  let failing (p : provider) (prompt operation : string) : result response :=
    Raise (Py.ProviderError "503") in
  (0 < _timeout Scenario.openai_adapter)%Z
  /\ _invoke Scenario.no_repr failing Scenario.openai_adapter "Tell me" "summary"
     = Ok (RStr (MockLLM_ainvoke Scenario.no_repr (InStr "Tell me"))).
Proof.
  cbv zeta. split; [reflexivity|].
  exact (proj2 (proj2 (proj1 (invoke_falls_back_to_mock Scenario.no_repr
                                (fun _ _ _ => Raise (Py.ProviderError "503"))
                                Scenario.openai_adapter "Tell me" "summary")
                             eq_refl) eq_refl)
               (Py.ProviderError "503") eq_refl).
Defined.

End LlmAdapterMoreFacts.

Module MockLLMFacts.
Import LlmAdapter StringFacts.

(** *** Searching and cutting *)

Lemma substring_append (p r : string) :
  String.substring (String.length p)
                   (String.length (p +:+ r) - String.length p) (p +:+ r) = r.
Proof.
  induction p as [|c p IH].
  - change ("" +:+ r) with r. change (String.length "") with 0.
    rewrite Nat.sub_0_r. apply ProcessorFacts.substring_all.
  - change (String c p +:+ r) with (String c (p +:+ r)). simpl. exact IH.
Qed.

Lemma after_first_here (sep rest : string) :
  PyStr.after_first sep (sep +:+ rest) = Some rest.
Proof.
  destruct sep as [|c sep].
  - change ("" +:+ rest) with rest.
    destruct rest as [|d rest]; simpl; [done|].
    by rewrite ProcessorFacts.substring_all.
  - pose proof (prefix_append (String c sep) rest) as Hp.
    pose proof (substring_append (String c sep) rest) as Hs.
    change (String c sep +:+ rest) with (String c (sep +:+ rest)) in *.
    unfold PyStr.after_first. fold PyStr.after_first.
    rewrite Hp. by rewrite Hs.
Qed.

Lemma after_first_skip (sep : string) (c : ascii) (r : string) :
  String.prefix sep (String c r) = false ->
  PyStr.after_first sep (String c r) = PyStr.after_first sep r.
Proof. intros H. cbn [PyStr.after_first]. by rewrite H. Qed.

(** *** Blank lines *)

Lemma lstrip_blank_cons (c : ascii) (s : string) :
  PyStr.lstrip (String c s) = "" -> PyStr.isspace c = true /\ PyStr.lstrip s = "".
Proof. simpl. destruct (PyStr.isspace c); [done|discriminate]. Qed.

Lemma strip_blank (s : string) : PyStr.strip s = "" -> PyStr.lstrip s = "".
Proof.
  unfold PyStr.strip. pose proof (ProcessorFacts.lstrip_head s) as Hh.
  destruct (PyStr.lstrip s) as [|c r]; [done|].
  simpl. destruct (PyStr.rstrip r); [|discriminate].
  destruct (PyStr.isspace c) eqn:Hc; [|discriminate].
  congruence.
Qed.

Lemma split_blank (sep : ascii) (s : string) :
  PyStr.isspace sep = true ->
  Forall (fun l => PyStr.lstrip l = "") (PyStr.split sep s) ->
  PyStr.lstrip s = "".
Proof.
  intros Hsep. induction s as [|c r IH]; [done|]. simpl.
  destruct (Ascii.eqb c sep) eqn:Hc.
  - apply Ascii.eqb_eq in Hc as ->. rewrite Hsep.
    intros [_ Hr]%Forall_cons. by apply IH.
  - destruct (PyStr.split sep r) as [|p ps] eqn:Hsplit.
    + intros [[Hsp _]%lstrip_blank_cons _]%Forall_cons. rewrite Hsp.
      apply IH. constructor.
    + intros [[Hsp Hp]%lstrip_blank_cons Hps]%Forall_cons. rewrite Hsp.
      apply IH. by constructor.
Qed.

(** *** The lexicon count *)

Lemma tally_from (lines : list string) (p n u : nat) :
  let step acc line :=
    let '(positive, negative, neutral) := acc in
    let lower := PyStr.lower line in
    let pos_hits := hits positive_words lower in
    let neg_hits := hits negative_words lower in
    if neg_hits <? pos_hits then (S positive, negative, neutral)
    else if pos_hits <? neg_hits then (positive, S negative, neutral)
    else (positive, negative, S neutral) in
  exists p' n' u',
    fold_left step lines (p, n, u) = (p', n', u')
    /\ p' + n' + u' = p + n + u + length lines.
Proof.
  cbv zeta. revert p n u. induction lines as [|l lines IH]; intros p n u.
  - exists p, n, u. simpl. split; [done|lia].
  - simpl.
    destruct (_ <? _);
      [|destruct (_ <? _)];
      (edestruct IH as (p' & n' & u' & -> & Hsum));
      exists p', n', u'; (split; [done|lia]).
Qed.

Lemma tally_counts (lines : list string) :
  exists positive negative neutral,
    tally lines = (positive, negative, neutral)
    /\ positive + negative + neutral = length lines.
Proof. exact (tally_from lines 0 0 0). Qed.

(** *** The sentiment prompt *)

Lemma sentiment_prompt_keyword (joined_texts : string) :
  PyStr.contains "Analyse the sentiment" (SENTIMENT_PROMPT joined_texts) = true.
Proof.
  exact (contains_append "Analyse the sentiment"
           "You are a sentiment analysis assistant. " _).
Qed.

Lemma sentiment_prompt_body (joined_texts : string) :
  PyStr.after_first ("Texts:" +:+ PyStr.newline) (SENTIMENT_PROMPT joined_texts)
  = Some (joined_texts +:+ PyStr.newline).
Proof.
  unfold SENTIMENT_PROMPT.
  change ("Texts:" +:+ PyStr.newline) with (String "T" (String "e" (String "x"
            (String "t" (String "s" (String ":" PyStr.newline)))))).
  change PyStr.newline with (String "010"%char "").
  cbv [String.append].
  repeat (rewrite after_first_skip by reflexivity).
  exact (after_first_here ("Texts:" +:+ PyStr.newline)
                          (joined_texts +:+ PyStr.newline)).
Qed.

(** X9.  On the prompt [sentiment] renders, the mock model always takes
    its lexicon branch, whatever the texts are: each non-blank line of
    the texts counts once as positive, negative or neutral, and the
    three numbers it reports are these counts over their sum (over 1
    when every line is blank, so that it then reports three zeros). *)
Theorem mock_sentiment_counts_lines
    (repr_quotient : nat -> nat -> string) (texts : list string) :
  let body := PyStr.join PyStr.newline texts +:+ PyStr.newline in
  let lines :=
    filter (fun l => Is_true (PyStr.truthy l))
           (map PyStr.strip (PyStr.split (PyStr.chr 10) body)) in
  let total := Nat.max 1 (length lines) in
  exists positive negative neutral,
    tally lines = (positive, negative, neutral)
    /\ positive + negative + neutral = length lines
    /\ MockLLM_ainvoke repr_quotient
         (InStr (SENTIMENT_PROMPT (PyStr.join PyStr.newline texts)))
       = dumps_sentiment (repr_quotient positive total)
                         (repr_quotient negative total)
                         (repr_quotient neutral total).
Proof.
  cbv zeta. set (joined := PyStr.join PyStr.newline texts).
  unfold MockLLM_ainvoke.
  rewrite sentiment_prompt_keyword, sentiment_prompt_body.
  cbn [default from_option id].
  set (body := joined +:+ PyStr.newline).
  set (lines := filter _ (map PyStr.strip (PyStr.split (PyStr.chr 10) body))).
  assert (match lines with
          | [] => if PyStr.truthy (PyStr.strip body)
                  then [PyStr.strip body] else []
          | _ :: _ => lines
          end = lines) as ->.
  { destruct lines as [|l rest] eqn:Hlines; [|done].
    assert (PyStr.lstrip body = "") as Hblank.
    { apply (split_blank (PyStr.chr 10)); [done|].
      apply Forall_forall. intros part Hpart. apply strip_blank.
      destruct (PyStr.strip part) as [|c s] eqn:Hs; [done|].
      assert (PyStr.strip part ∈ lines) as Hin.
      { apply list_elem_of_filter. split; [by rewrite Hs|].
        rewrite ListFacts.map_fmap. by apply list_elem_of_fmap_2. }
      rewrite Hlines in Hin. by apply elem_of_nil in Hin. }
    unfold PyStr.strip. by rewrite Hblank. }
  destruct (tally_counts lines) as (p & n & u & Ht & Hsum).
  exists p, n, u. rewrite Ht. split; [done|]. split; [done|].
  rewrite Hsum. destruct (length lines) as [|k]; done.
Qed.

(** *** The other branches *)

Lemma length_upto (n : nat) (s : string) :
  String.length (PyStr.upto n s) <= n.
Proof.
  unfold PyStr.upto. revert s. induction n as [|n IH]; intros [|c s]; simpl;
    try lia. specialize (IH s). lia.
Qed.

Lemma contains_char_cons (c d : ascii) (s : string) :
  PyStr.contains (String c "") (String d s)
  = Ascii.eqb c d || PyStr.contains (String c "") s.
Proof.
  simpl. destruct (ascii_dec c d) as [->|Hne].
  - rewrite Ascii.eqb_refl. by destruct s.
  - by rewrite (proj2 (Ascii.eqb_neq c d) Hne).
Qed.

Lemma upto_keeps_out (c : ascii) (n : nat) (s : string) :
  PyStr.contains (String c "") s = false ->
  PyStr.contains (String c "") (PyStr.upto n s) = false.
Proof.
  unfold PyStr.upto. revert s. induction n as [|n IH]; intros [|d s]; try done.
  change (String.substring 0 (S n) (String d s))
    with (String d (String.substring 0 n s)).
  rewrite !contains_char_cons.
  intros [Hd Hs]%orb_false_elim. rewrite Hd. by apply IH.
Qed.

Lemma first_line_no_newline (sep : ascii) (s : string) :
  PyStr.contains (String sep "") (hd "" (PyStr.split sep s)) = false.
Proof.
  induction s as [|c r IH]; [done|]. simpl PyStr.split.
  destruct (Ascii.eqb c sep) eqn:Hc; [done|].
  destruct (PyStr.split sep r) as [|p ps]; simpl hd.
  - rewrite contains_char_cons. rewrite Ascii.eqb_sym, Hc. done.
  - simpl hd in IH. rewrite contains_char_cons, IH.
    by rewrite Ascii.eqb_sym, Hc.
Qed.

(** X26.  What the mock model answers to a prompt that does not ask
    for a sentiment analysis.  If the prompt says "summary" somewhere,
    in any case, the answer is the first line of the prompt cut to 160
    characters (or a fixed notice when that line is empty): one line,
    not empty, at most 160 characters.  If it does not, the answer is
    the JSON text of the fixed sentiment 0.33 / 0.33 / 0.34. *)
Theorem mock_answers_without_sentiment_request
    (repr_quotient : nat -> nat -> string) (text : string) :
  PyStr.contains "Analyse the sentiment" text = false ->
  let answer := MockLLM_ainvoke repr_quotient (InStr text) in
  let first_line := PyStr.upto 160 (hd "" (PyStr.split (PyStr.chr 10) text)) in
  (PyStr.contains "summary" (PyStr.lower text) = false ->
   answer = dumps_sentiment "0.33" "0.33" "0.34")
  /\ (PyStr.contains "summary" (PyStr.lower text) = true ->
      answer = (if PyStr.truthy first_line then first_line
                else "no summary available")
      /\ answer <> ""
      /\ String.length answer <= 160
      /\ PyStr.contains PyStr.newline answer = false).
Proof.
  intros Hno. cbv zeta. unfold MockLLM_ainvoke. rewrite Hno. split.
  - by intros ->.
  - intros Hsum. rewrite Hsum.
    assert (PyStr.truthy text = true) as ->.
    { destruct text; [discriminate|done]. }
    set (line := PyStr.upto 160 (hd "" (PyStr.split (PyStr.chr 10) text))).
    split; [done|].
    destruct (PyStr.truthy line) eqn:Hline.
    + split; [by apply truthy_spec|]. split; [apply length_upto|].
      apply upto_keeps_out, first_line_no_newline.
    + split; [done|]. split; [simpl; lia|done].
Qed.

Lemma mock_answers_without_sentiment_request_witness :
  PyStr.contains "Analyse the sentiment" "A summary of it" = false
  /\ MockLLM_ainvoke Scenario.no_repr (InStr "A summary of it")
     = "A summary of it"
  /\ MockLLM_ainvoke Scenario.no_repr (InStr "Great product!")
     = dumps_sentiment "0.33" "0.33" "0.34".
Proof.
  split; [reflexivity|]. split.
  - exact (proj1 (proj2 (mock_answers_without_sentiment_request
                           Scenario.no_repr "A summary of it" eq_refl)
                        eq_refl)).
  - exact (proj1 (mock_answers_without_sentiment_request
                    Scenario.no_repr "Great product!" eq_refl) eq_refl).
Defined.

End MockLLMFacts.

(** ** llm_executor.py: the shared clients and the semaphore *)

Module LlmExecutorMoreFacts.
Import LlmExecutor.

Section facts.
Variable settings : Config.Settings.
Variable client : chain_t -> list (string * string) -> result string * Q.

(** X10.  [_ensure_clients] initialises once: after a call that
    returned, a further call returns the same four objects and changes
    nothing (no second log line, the permits as they are).  A first
    call on the module as imported sets the permits to
    [llm_max_concurrency] and the delay to
    [max(0.0, llm_min_delay_sec)]: the configured delay when that is
    not negative, zero otherwise; it logs once. *)
Theorem ensure_clients_initialises_once (st st1 : state) (tup : list obj) :
  _ensure_clients settings st = (Ok tup, st1) ->
  _ensure_clients settings st1 = (Ok tup, st1)
  /\ (exists chat emb permits,
        tup = [OChat chat; OEmbeddings emb; OSemaphore; OFloat (_min_delay st1)]
        /\ _chat_model st1 = Some chat /\ _embeddings_model st1 = Some emb
        /\ _semaphore st1 = Some permits)
  /\ (st = initial ->
      _semaphore st1 = Some (Config.llm_max_concurrency settings)
      /\ _min_delay st1 = Qmax 0 (Config.llm_min_delay_sec settings)
      /\ ((0 <= Config.llm_min_delay_sec settings)%Q ->
          (_min_delay st1 == Config.llm_min_delay_sec settings)%Q)
      /\ ((Config.llm_min_delay_sec settings <= 0)%Q ->
          (_min_delay st1 == 0)%Q)
      /\ events st1 = [EvLog "Initialized shared Gemini clients"]).
Proof.
  unfold _ensure_clients.
  destruct (_chat_model st) as [chat|] eqn:Hc,
           (_embeddings_model st) as [emb|] eqn:He,
           (_semaphore st) as [sem|] eqn:Hs;
    try (destruct (negb _); [discriminate|]);
    intros [= <- <-]; simpl; rewrite ?Hc, ?He, ?Hs;
    (split; [reflexivity|]); (split; [by eauto 10|]);
    intros ->; try discriminate.
  simpl. split; [done|]. split; [done|].
  split; [intros Hpos; by apply Q.max_r|].
  split; [intros Hneg; by apply Q.max_l|done].
Qed.

(** X11.  [_run_chain] gives back the permit it took: when it is done,
    with a value or with an exception, the semaphore holds as many
    permits as after the initialisation; it stays suspended exactly
    when no permit is left, and then the client is not called; a value
    is returned only when the client answered within the timeout. *)
Theorem run_chain_returns_permit
    (chain : chain_t) (variables : list (string * string)) (timeout : Z)
    (brand chunk_id operation : string) (st st' : state)
    (out : outcome string) :
  _run_chain settings client chain variables timeout brand chunk_id operation st
  = (out, st') ->
  let ready := snd (_ensure_clients settings st) in
  _semaphore st' = _semaphore ready
  /\ (out = Suspended <->
      exists tup permits,
        fst (_ensure_clients settings st) = Ok tup
        /\ _semaphore ready = Some permits /\ (permits <= 0)%Z)
  /\ (out = Suspended -> st' = ready)
  /\ (forall text, out = Done (Ok text) ->
        exists seconds,
          client chain variables = (Ok text, seconds)
          /\ (seconds <= inject_Z timeout)%Q).
Proof.
  unfold _run_chain. cbv zeta.
  destruct (_ensure_clients settings st) as [[tup|e] st1] eqn:Hens; simpl snd.
  2: { intros [= <- <-]. split; [done|]. split.
       - split; [done|]. by intros (? & ? & [=] & _).
       - by split. }
  assert (exists a b c q, tup = [a; b; c; OFloat q]) as (a & b & c & q & ->).
  { revert Hens. unfold _ensure_clients.
    destruct (_chat_model st), (_embeddings_model st), (_semaphore st);
      try (destruct (negb _); [discriminate|]); intros [= <- <-]; eauto. }
  simpl unpack4. cbv iota beta.
  destruct (_semaphore st1) as [permits|] eqn:Hsem.
  2: { intros [= <- <-]. rewrite Hsem. split; [done|]. split.
       - split; [done|]. by intros (? & ? & _ & [=] & _).
       - by split. }
  destruct (Z.leb_spec permits 0) as [Hle|Hgt].
  { intros [= <- <-]. rewrite Hsem. split; [done|]. split.
    - split; [|done]. intros _. exists [a; b; c; OFloat q], permits. done.
    - by split. }
  destruct (client chain variables) as [r seconds] eqn:Hclient.
  destruct ((timeout <=? 0)%Z || negb (Qle_bool seconds (inject_Z timeout)))
    eqn:Htime; cbv iota.
  2: { apply orb_false_elim in Htime as [_ Htime%negb_false_iff].
    apply Qle_bool_iff in Htime.
    destruct r as [text|e].
    + destruct (Qle_bool q 0); intros [= <- <-]; simpl;
        (split; [done|]); (split; [split; [done|];
           intros (? & p & _ & [= <-] & ?); lia|]);
        (split; [done|]); intros ? [= <-]; eauto.
    + intros [= <- <-]. simpl. split; [done|].
      split; [split; [done|]; intros (? & p & _ & [= <-] & ?); lia|].
      by split. }
  intros [= <- <-]. simpl. split; [done|].
  split; [split; [done|]; intros (? & p & _ & [= <-] & ?); lia|].
  by split.
Qed.

End facts.

Lemma ensure_clients_initialises_once_witness :
  exists tup st1,
    _ensure_clients Scenario.gemini_settings initial = (Ok tup, st1)
    /\ _ensure_clients Scenario.gemini_settings st1 = (Ok tup, st1)
    /\ _semaphore st1 = Some 4%Z
    /\ (_min_delay st1 == 2)%Q.
Proof.
  eexists _, _. split; [reflexivity|].
  pose proof (ensure_clients_initialises_once Scenario.gemini_settings
                initial _ _ eq_refl) as (Hagain & _ & Hfirst).
  split; [exact Hagain|].
  destruct (Hfirst eq_refl) as (Hpermits & _ & Hdelay & _).
  split; [exact Hpermits|]. apply Hdelay. discriminate.
Defined.

Lemma run_chain_returns_permit_witness :
  let run := _run_chain Scenario.gemini_settings Scenario.echo_client
               {| chain_prompt := DEFAULT_PROMPT; chain_model := OSemaphore |}
               [("input", "hello")] 30 "acme" "c1" "summary" initial in
  fst run = Done (Ok "ok") /\ _semaphore (snd run) = Some 4%Z.
Proof.
  cbv zeta. split; [reflexivity|].
  exact (proj1 (run_chain_returns_permit Scenario.gemini_settings
                  Scenario.echo_client _ _ _ _ _ _ initial _ _
                  (surjective_pairing _))).
Defined.

End LlmExecutorMoreFacts.

(** ** processor.py: the stages of [process_chunk] *)

Module PipelineMoreFacts.
Import World WorldFacts Processor.

(** *** Indexing *)

Lemma py_index_ok {A} (l : list A) (idx : Z) (a : A) :
  py_index l idx = Ok a ->
  let n := Z.of_nat (length l) in
  (- n <= idx < n)%Z
  /\ l !! Z.to_nat (if (idx <? 0)%Z then idx + n else idx)%Z = Some a.
Proof.
  unfold py_index. cbv zeta.
  set (n := Z.of_nat (length l)).
  set (i := (if (idx <? 0)%Z then (idx + n)%Z else idx)).
  destruct (Z.leb_spec 0 i), (Z.ltb_spec i n); simpl; try discriminate.
  destruct (l !! Z.to_nat i) eqn:Hl; [|discriminate]. intros [= <-].
  split; [|done]. subst i. destruct (Z.ltb_spec idx 0); lia.
Qed.

Lemma py_index_out_of_range {A} (l : list A) (idx : Z) :
  (idx < - Z.of_nat (length l) \/ Z.of_nat (length l) <= idx)%Z ->
  py_index l idx = Raise (Py.IndexError "list index out of range").
Proof.
  intros Hout. unfold py_index. cbv zeta.
  set (n := Z.of_nat (length l)) in *.
  set (i := (if (idx <? 0)%Z then (idx + n)%Z else idx)).
  destruct (Z.leb_spec 0 i), (Z.ltb_spec i n); simpl; try done.
  subst i. destruct (Z.ltb_spec idx 0); lia.
Qed.

Lemma py_index_raises {A} (l : list A) (idx : Z) (e : exn) :
  py_index l idx = Raise e -> e = Py.IndexError "list index out of range".
Proof.
  unfold py_index. cbv zeta.
  destruct (_ && _); [destruct (l !! _)|]; congruence.
Qed.

Lemma gather_length {A} (l : list A) (idxs : list Z) (picked : list A) :
  gather l idxs = Ok picked -> length picked = length idxs.
Proof.
  revert picked. induction idxs as [|i r IH]; intros picked; simpl.
  - by intros [= <-].
  - destruct (py_index l i); [|discriminate].
    destruct (gather l r); [|discriminate].
    intros [= <-]. simpl. f_equal. by apply IH.
Qed.

Lemma gather_out_of_range {A} (l : list A) (idxs : list Z) :
  (exists idx, idx ∈ idxs
               /\ (idx < - Z.of_nat (length l) \/ Z.of_nat (length l) <= idx)%Z) ->
  gather l idxs = Raise (Py.IndexError "list index out of range").
Proof.
  induction idxs as [|i r IH]; intros (idx & Hin & Hout).
  - by apply elem_of_nil in Hin.
  - simpl. destruct (py_index l i) as [a|e] eqn:Hi.
    + apply elem_of_cons in Hin as [->|Hin].
      * rewrite py_index_out_of_range in Hi by done. discriminate.
      * rewrite IH by eauto. done.
    + by apply py_index_raises in Hi as ->.
Qed.

Section facts.
Context {E I : Type}.
Local Abbreviation W := (World.t E I).
Implicit Types w : W.

Variable settings : Config.Settings.
Variable worker_id : string.
Variable drift : nat -> N.
Variable embed :
  list string -> string -> string -> E -> result (list (list Q)) * N * E.
Variable cluster :
  list (list Q) -> string -> string -> E -> result ClusteringOutput * N * E.
Variable summarize :
  string -> string -> list string -> E -> result LlmAdapter.response * N * E.
Variable sentiment :
  string -> string -> list string -> E -> result (list (string * Q)) * N * E.
Variable detect : string -> Z -> nat -> E -> result bool * N * E.

Local Abbreviation process_chunk :=
  (Processor.process_chunk (I := I) settings worker_id drift embed cluster
                           summarize sentiment detect).
Local Abbreviation analyze_loop :=
  (Processor.analyze_loop (I := I) settings drift summarize sentiment detect).
Local Abbreviation _analyze_clusters :=
  (Processor._analyze_clusters (I := I) settings drift summarize sentiment detect).

(** X12.  A chunk none of whose mentions survives the cleaning is
    answered without any collaborator.  Whatever [process_chunk] does
    with it, the state of the collaborators is as before (whichever
    embedder, clusterer, model and spike detector the processor holds,
    so none of them has been called) and the store is untouched; when
    it returns, the result has no cluster, the chunk's id and brand, no
    embedding, clustering, model or spike time, and the fetch time as
    I/O time. *)
Theorem process_chunk_without_mentions (chunk : Chunk.t) (fetch_time_ms : Q)
    w (out : result nat) w' :
  preprocess_mentions (Chunk.mentions chunk) = [] ->
  process_chunk chunk fetch_time_ms w = (out, w') ->
  ext w' = ext w /\ redis w' = redis w
  /\ rpush_attempts w' = rpush_attempts w
  /\ forall ref, out = Ok ref ->
       exists r,
         objects w' = <[ref := r]> (objects w)
         /\ ChunkResult.clusters r = []
         /\ ChunkResult.chunk_id r = Chunk.chunk_id chunk
         /\ ChunkResult.brand r = Chunk.brand chunk
         /\ ChunkMetrics.embedding_time_ms (ChunkResult.metrics r) = 0%Q
         /\ ChunkMetrics.clustering_time_ms (ChunkResult.metrics r) = 0%Q
         /\ ChunkMetrics.llm_time_ms (ChunkResult.metrics r) = 0%Q
         /\ ChunkMetrics.spike_detection_time_ms (ChunkResult.metrics r) = 0%Q
         /\ ChunkMetrics.io_time_ms (ChunkResult.metrics r) = fetch_time_ms.
Proof.
  intros Hnone. unfold Processor.process_chunk, Processor._preprocess.
  rewrite Hnone.
  unfold Eff.bind, Processor.perf_counter, perf_counter, record_metric,
    Eff.ret, alloc. simpl.
  intros [= <- <-]. simpl. do 3 (split; [done|]).
  intros ref [= <-]. eexists. split; [reflexivity|]. done.
Qed.

(** *** The loop over the groupings *)

Lemma analyze_loop_shape brand chunk_id mentions groupings acc llm spike w
    results llm' spike' w' :
  analyze_loop brand chunk_id mentions groupings acc llm spike w
  = (Ok (results, llm', spike'), w') ->
  exists added,
    results = acc ++ added
    /\ Forall2
         (fun grouping result =>
            exists picked,
              gather mentions (indices grouping) = Ok picked
              /\ ClusterResult.cluster_id result = cluster_id grouping
              /\ ClusterResult.count result = length (indices grouping)
              /\ ClusterResult.examples result
                 = map Mention.text
                       (take (Z.to_nat (Config.preprocessing_examples settings))
                             picked)
              /\ ClusterResult.topics result = None)
         groupings added.
Proof.
  revert acc llm spike w.
  induction groupings as [|g gs IH]; intros acc llm spike w; simpl.
  - intros [= <- <- <- <-]. exists []. by rewrite app_nil_r.
  - unfold Processor.perf_counter.
    intros (picked & w1 & H1 & H)%bind_ok_inv.
    apply bind_ok_inv in H as (t1 & w2 & H2 & H).
    apply bind_ok_inv in H as (summary & w3 & H3 & H).
    apply bind_ok_inv in H as (sent & w4 & H4 & H).
    apply bind_ok_inv in H as (t2 & w5 & H5 & H).
    apply bind_ok_inv in H as (t3 & w6 & H6 & H).
    apply bind_ok_inv in H as (spiked & w7 & H7 & H).
    apply bind_ok_inv in H as (t4 & w8 & H8 & H).
    apply bind_ok_inv in H as (res & w9 & H9 & H).
    apply IH in H as (added & -> & Hall).
    exists (res :: added). split; [by rewrite <- app_assoc|].
    constructor; [|done].
    unfold Eff.lift_result in H1, H9.
    injection H1 as H1 _. injection H9 as H9 _.
    exists picked. split; [done|].
    unfold ClusterResult_init in H9. cbv zeta in H9.
    destruct summary; try discriminate; injection H9 as <-; simpl;
      by rewrite (gather_length _ _ _ H1).
Qed.

(** X13.  When [_analyze_clusters] returns, it has built one
    [ClusterResult] per grouping of the clusterer, in the same order:
    each carries the grouping's cluster id, counts the grouping's
    indices, and lists as examples the texts of the first
    [preprocessing_examples] mentions the indices select, so never more
    examples than that setting nor than its count. *)
Theorem analyze_clusters_shape (chunk : Chunk.t) (mentions : list Mention.t)
    (output : ClusteringOutput) (metrics : ChunkMetrics.t) w
    (results : list ClusterResult.t) (metrics' : ChunkMetrics.t) w' :
  _analyze_clusters chunk mentions output metrics w
  = (Ok (results, metrics'), w') ->
  let limit := Z.to_nat (Config.preprocessing_examples settings) in
  length results = length (clusters output)
  /\ list_sum (map ClusterResult.count results)
     = list_sum (map (fun g => length (indices g)) (clusters output))
  /\ Forall2
       (fun grouping result =>
          ClusterResult.cluster_id result = cluster_id grouping
          /\ ClusterResult.count result = length (indices grouping)
          /\ length (ClusterResult.examples result)
             = Nat.min limit (ClusterResult.count result)
          /\ exists picked,
               gather mentions (indices grouping) = Ok picked
               /\ ClusterResult.examples result
                  = map Mention.text (take limit picked))
       (clusters output) results.
Proof.
  unfold Processor._analyze_clusters.
  intros ([[cl llm] spike] & w1 & H1 & H)%bind_ok_inv.
  injection H as <- _ _.
  apply analyze_loop_shape in H1 as (added & -> & Hall). simpl.
  cbv zeta. split; [symmetry; by eapply Forall2_length|].
  split.
  - induction Hall as [|g r gs rs (picked & _ & _ & Hc & _) _ IH]; [done|].
    simpl. by rewrite Hc, IH.
  - eapply Forall2_impl; [exact Hall|].
    intros g r (picked & Hg & Hid & Hc & Hex & _).
    split; [done|]. split; [done|]. split; [|by eauto].
    rewrite Hex, length_map, length_take, Hc.
    by rewrite (gather_length _ _ _ Hg).
Qed.

(** X14.  An index of the first grouping that lies outside the list of
    mentions (at or beyond its length, or below minus its length) makes
    [_analyze_clusters] raise [IndexError] at once: no summary, no
    sentiment and no spike detection is requested, and no clock reading
    is taken. *)
Theorem analyze_clusters_index_error (chunk : Chunk.t)
    (mentions : list Mention.t) (grouping : Grouping) (rest : list Grouping)
    (duration : Q) (metrics : ChunkMetrics.t) (idx : Z) w :
  idx ∈ indices grouping ->
  (idx < - Z.of_nat (length mentions) \/ Z.of_nat (length mentions) <= idx)%Z ->
  _analyze_clusters chunk mentions
    {| clusters := grouping :: rest; duration_ms := duration |} metrics w
  = (Raise (Py.IndexError "list index out of range"), w).
Proof.
  intros Hin Hout. unfold Processor._analyze_clusters. simpl.
  unfold Eff.bind at 1. unfold Eff.bind at 1. unfold Eff.lift_result.
  rewrite gather_out_of_range by eauto. done.
Qed.

End facts.

Lemma process_chunk_without_mentions_witness :
  let run :=
    Processor.process_chunk Scenario.mock_settings "w1" Scenario.drift
      Scenario.embed Scenario.cluster Scenario.summarize Scenario.sentiment
      Scenario.detect Scenario.s4_chunk 2 Scenario.start in
  preprocess_mentions (Chunk.mentions Scenario.s4_chunk) = []
  /\ fst run = Ok 1
  /\ redis (snd run) = redis Scenario.start
  /\ exists r,
       objects (snd run) = <[1 := r]> (objects Scenario.start)
       /\ ChunkResult.clusters r = [].
Proof.
  cbv zeta. split; [reflexivity|]. split; [reflexivity|].
  destruct (process_chunk_without_mentions Scenario.mock_settings "w1"
              Scenario.drift Scenario.embed Scenario.cluster Scenario.summarize
              Scenario.sentiment Scenario.detect Scenario.s4_chunk 2
              Scenario.start _ _ eq_refl (surjective_pairing _))
    as (_ & Hredis & _ & Hout).
  split; [exact Hredis|].
  destruct (Hout 1 eq_refl) as (r & Hobj & Hcl & _).
  exists r. split; [exact Hobj|exact Hcl].
Defined.

Lemma analyze_clusters_shape_witness :
  exists results metrics' w',
    Processor._analyze_clusters Scenario.mock_settings Scenario.drift
      Scenario.summarize Scenario.sentiment Scenario.detect Scenario.s1_chunk
      (preprocess_mentions (Chunk.mentions Scenario.s1_chunk))
      {| clusters := [{| cluster_id := 0; indices := [0%Z] |}];
         duration_ms := 3 |}
      (ChunkMetrics.init 2) Scenario.start
    = (Ok (results, metrics'), w')
    /\ length results = 1.
Proof.
  destruct (Processor._analyze_clusters Scenario.mock_settings Scenario.drift
              Scenario.summarize Scenario.sentiment Scenario.detect
              Scenario.s1_chunk
              (preprocess_mentions (Chunk.mentions Scenario.s1_chunk))
              {| clusters := [{| cluster_id := 0; indices := [0%Z] |}];
                 duration_ms := 3 |}
              (ChunkMetrics.init 2) Scenario.start)
    as [[[results metrics']|e] w'] eqn:Hrun.
  - exists results, metrics', w'. split; [reflexivity|].
    exact (proj1 (analyze_clusters_shape _ _ _ _ _ _ _ _ _ _ _ _ _ Hrun)).
  - vm_compute in Hrun. discriminate.
Defined.

Lemma analyze_clusters_index_error_witness :
  fst (Processor._analyze_clusters Scenario.mock_settings Scenario.drift
         Scenario.summarize Scenario.sentiment Scenario.detect Scenario.s1_chunk
         (preprocess_mentions (Chunk.mentions Scenario.s1_chunk))
         {| clusters := [{| cluster_id := 0; indices := [0%Z; 1%Z] |}];
            duration_ms := 3 |}
         (ChunkMetrics.init 2) Scenario.start)
  = Raise (Py.IndexError "list index out of range").
Proof.
  exact (f_equal fst
           (analyze_clusters_index_error Scenario.mock_settings Scenario.drift
              Scenario.summarize Scenario.sentiment Scenario.detect
              Scenario.s1_chunk
              (preprocess_mentions (Chunk.mentions Scenario.s1_chunk))
              {| cluster_id := 0; indices := [0%Z; 1%Z] |} [] 3
              (ChunkMetrics.init 2) 1%Z Scenario.start
              ltac:(right; left) ltac:(right; vm_compute; discriminate))).
Defined.

End PipelineMoreFacts.

Module CleanTextFacts.
Import Processor.



End CleanTextFacts.

(** ** config.py and queue_consumer.py *)

Module ConfigMoreFacts.
Import Config.

Section facts.
Variable environ : Settings.
Variable uuid4 : nat -> string.

Lemma settings_init_worker_id s :
  Settings_init environ = Ok s ->
  worker_id s = worker_id environ /\ _generated_worker_id s = None.
Proof.
  unfold Settings_init. destruct (negb _); [discriminate|].
  unfold _validate_llm_configuration.
  repeat (destruct (_ && _); [discriminate|]). by intros [= <-].
Qed.

(** X16.  The first evaluation of [get_settings().effective_worker_id]
    in a process returns a non-empty string: the configured [worker_id]
    as it is, without drawing a UUID, when that is a non-empty string;
    otherwise (unset, or set to the empty string) [worker-] followed by
    one freshly drawn UUID. *)
Theorem first_effective_worker_id (p p1 : Process) (w : string) :
  get_settings_cache p = None ->
  get_settings_effective_worker_id environ uuid4 p = (Ok w, p1) ->
  w <> ""
  /\ (configured (worker_id environ) = true ->
      worker_id environ = Some w /\ uuid4_calls p1 = uuid4_calls p)
  /\ (configured (worker_id environ) = false ->
      w = "worker-" +:+ uuid4 (uuid4_calls p)
      /\ uuid4_calls p1 = S (uuid4_calls p)).
Proof.
  intros Hcache. unfold get_settings_effective_worker_id, get_settings.
  rewrite Hcache.
  destruct (Settings_init environ) as [s|e] eqn:Hinit; [|discriminate].
  apply settings_init_worker_id in Hinit as [Hw Hg].
  unfold effective_worker_id. simpl. rewrite lookup_insert_eq, Hw, Hg.
  destruct (configured (worker_id environ)) eqn:Hc.
  - intros [= <- <-]. simpl.
    destruct (worker_id environ) as [[|c id]|]; try discriminate.
    repeat split; done.
  - intros [= <- <-]. simpl. repeat split; done.
Qed.

End facts.

Lemma first_effective_worker_id_witness :
  let blank := set_generated_worker_id None Scenario.mock_settings in
  get_settings_cache Scenario.fresh_process = None
  /\ fst (get_settings_effective_worker_id blank Scenario.uuid4
            Scenario.fresh_process) = Ok "worker-uuid-0"
  /\ "worker-uuid-0" <> "".
Proof.
  cbv zeta. split; [reflexivity|]. split; [reflexivity|].
  exact (proj1 (first_effective_worker_id
                  (set_generated_worker_id None Scenario.mock_settings)
                  Scenario.uuid4 Scenario.fresh_process _ "worker-uuid-0"
                  eq_refl (surjective_pairing _))).
Defined.

End ConfigMoreFacts.

Module QueueConsumerMoreFacts.
Import QueueConsumer.

(** X17.  [extract_brand_from_queue] returns the third colon-separated
    segment of the key, whatever follows it, and ["unknown"] when the
    key has fewer than three segments. *)
Theorem extract_brand_third_segment (a b c rest : string) :
  PyStr.contains ":" a = false ->
  PyStr.contains ":" b = false ->
  PyStr.contains ":" c = false ->
  extract_brand_from_queue a = "unknown"
  /\ extract_brand_from_queue (a +:+ ":" +:+ b) = "unknown"
  /\ extract_brand_from_queue (a +:+ ":" +:+ b +:+ ":" +:+ c) = c
  /\ extract_brand_from_queue (a +:+ ":" +:+ b +:+ ":" +:+ c +:+ ":" +:+ rest) = c.
Proof.
  intros Ha Hb Hc. unfold extract_brand_from_queue.
  split; [by rewrite QueueConsumerFacts.split_no_sep|].
  split; [|split].
  - change (a +:+ ":" +:+ b) with (a +:+ String ":" b).
    rewrite QueueConsumerFacts.split_cons_no_sep by done.
    by rewrite QueueConsumerFacts.split_no_sep.
  - change (a +:+ ":" +:+ b +:+ ":" +:+ c)
      with (a +:+ String ":" (b +:+ String ":" c)).
    do 2 (rewrite QueueConsumerFacts.split_cons_no_sep by done).
    by rewrite QueueConsumerFacts.split_no_sep.
  - change (a +:+ ":" +:+ b +:+ ":" +:+ c +:+ ":" +:+ rest)
      with (a +:+ String ":" (b +:+ String ":" (c +:+ String ":" rest))).
    do 3 (rewrite QueueConsumerFacts.split_cons_no_sep by done).
    reflexivity.
Qed.

Lemma extract_brand_third_segment_witness :
  extract_brand_from_queue "queue:brand:acme:chunks" = "acme"
  /\ extract_brand_from_queue "q:acme" = "unknown".
Proof.
  pose proof (extract_brand_third_segment "queue" "brand" "acme" "chunks"
                eq_refl eq_refl eq_refl) as (_ & _ & _ & H).
  pose proof (extract_brand_third_segment "q" "acme" "" ""
                eq_refl eq_refl eq_refl) as (_ & H2 & _).
  split; [exact H|exact H2].
Defined.

End QueueConsumerMoreFacts.

(** ** redis_client.py: scanning, popping and the heartbeat *)

From Stdlib Require OrderedTypeEx.

Module RedisClientFacts.
Import World WorldFacts RedisClient.

(** *** The order of the keys *)









Section facts.
Context {E I : Type}.
Local Abbreviation W := (World.t E I).
Implicit Types w : W.

Variable settings : Config.Settings.
Variable client_scan : N -> string -> E -> result (N * list string) * N * E.
Variable client_blpop :
  list string -> Z -> E -> result (option (string * string)) * N * E.
Variable client_set : string -> string -> Z -> E -> result unit * N * E.

Local Abbreviation scan_loop := (RedisClient.scan_loop (I := I) settings client_scan).
Local Abbreviation scan_brand_queues :=
  (RedisClient.scan_brand_queues (I := I) settings client_scan).

(** *** The scan *)

Lemma scan_loop_inv fuel cursor results w r w' :
  scan_loop fuel cursor results w = (r, w') ->
  quiet w w'
  /\ (forall msg, r <> Raise (Py.RedisError msg))
  /\ (forall out, r = Ok (Some out) -> exists more, out = results ++ more).
Proof.
  revert cursor results w.
  induction fuel as [|fuel IH]; intros cursor results w; simpl.
  - intros [= <- <-]. split; [apply quiet_refl|]. by split.
  - destruct (call (client_scan cursor _) w) as [[[c chunk]|e] w1] eqn:Hcall.
    + apply Quiet_call in Hcall as Hq.
      destruct (c =? 0)%N.
      * intros [= <- <-]. split; [done|]. split; [done|].
        intros out [= <-]. eauto.
      * intros (Hq2 & Hne & Hout)%IH. split; [by eapply quiet_trans|].
        split; [done|]. intros out (more & ->)%Hout.
        exists (chunk ++ more). by rewrite app_assoc.
    + apply Quiet_call in Hcall as Hq.
      destruct e; intros [= <- <-]; (split; [done|]); split; try done;
        intros out [= <-]; exists []; by rewrite app_nil_r.
Qed.


Lemma scan_brand_queues_inv fuel w r w' :
  scan_brand_queues fuel w = (r, w') ->
  quiet w w' /\ (forall msg, r <> Raise (Py.RedisError msg)).
Proof.
  unfold RedisClient.scan_brand_queues.
  intros [(results & w1 & Hloop & Hret)|(e & Hloop & ->)]%bind_inv.
  - injection Hret as <- <-.
    pose proof (scan_loop_inv _ _ _ _ _ _ Hloop) as (Hq & _ & _). by split.
  - pose proof (scan_loop_inv _ _ _ _ _ _ Hloop) as (Hq & Hne & _). done.
Qed.


(** *** Popping and the heartbeat *)

Lemma sleep_seconds (seconds : Z) w :
  (0 <= seconds)%Z ->
  sleep (E := E) (I := I) (inject_Z seconds) w
  = (Ok tt, advance (Z.to_N (seconds * 1000000000)) w).
Proof.
  intros _. unfold sleep. do 2 f_equal.
  unfold Qfloor, Qmult, inject_Z. simpl. by rewrite Z.div_1_r.
Qed.

Lemma blpop_inv (keys : list string) (timeout : Z) w r w' :
  blpop client_blpop keys timeout w = (r, w') ->
  quiet w w' /\ (forall msg, r <> Raise (Py.RedisError msg)).
Proof.
  unfold blpop. destruct keys as [|k ks].
  - intros H. split.
    + revert H. apply Quiet_bind; [apply Quiet_sleep|]. intros ?. apply Quiet_ret.
    + unfold Eff.bind, sleep in H. by injection H as <- _.
  - unfold except_redis_error.
    destruct (call (client_blpop (k :: ks) timeout) w) as [[answer|e] w1] eqn:Hc.
    + intros [= <- <-]. split; [by eapply Quiet_call|done].
    + apply Quiet_call in Hc as Hq.
      assert (Quiet (do _ <- sleep (E := E) (I := I) (inject_Z timeout) ;
                     Eff.ret (@None (string * string)))) as Hqs.
      { apply Quiet_bind; [apply Quiet_sleep|]. intros ?. apply Quiet_ret. }
      destruct e; try (intros [= <- <-]; by split);
        intros H; (split; [eapply quiet_trans; [exact Hq|by eapply Hqs]|]);
        unfold Eff.bind, sleep in H; by injection H as <- _.
Qed.

(** X19.  [blpop] never lets a [RedisError] out and never touches the
    result or failure queues.  Without keys it does not call the server
    and returns [None] after sleeping for the timeout; when the server
    call fails with a [RedisError] it likewise returns [None] after
    sleeping for the timeout, so a caller that polls in a loop is
    slowed down rather than spinning. *)
Theorem blpop_swallows_redis_error (keys : list string) (timeout : Z) w r w' :
  (0 <= timeout)%Z ->
  blpop client_blpop keys timeout w = (r, w') ->
  quiet w w'
  /\ (forall msg, r <> Raise (Py.RedisError msg))
  /\ (keys = [] ->
      r = Ok None /\ ext w' = ext w
      /\ now_ns w' = (now_ns w + Z.to_N (timeout * 1000000000))%N)
  /\ (forall msg d e',
        keys <> [] ->
        client_blpop keys timeout (ext w) = (Raise (Py.RedisError msg), d, e') ->
        r = Ok None
        /\ now_ns w' = (now_ns w + d + Z.to_N (timeout * 1000000000))%N)
  /\ (forall answer d e',
        keys <> [] ->
        client_blpop keys timeout (ext w) = (Ok answer, d, e') ->
        r = Ok answer /\ now_ns w' = (now_ns w + d)%N).
Proof.
  intros Htimeout. unfold blpop.
  destruct keys as [|k ks].
  - unfold Eff.bind. rewrite sleep_seconds by done. intros [= <- <-].
    split; [unfold quiet, advance; simpl; repeat split; lia|].
    split; [done|]. split; [done|]. split; by intros.
  - unfold except_redis_error, call.
    destruct (client_blpop (k :: ks) timeout (ext w)) as [[answer d] e1] eqn:Hc.
    destruct answer as [answer|e].
    + intros [= <- <-].
      split; [unfold quiet; simpl; repeat split; lia|].
      split; [done|]. split; [done|].
      split; [by intros ? ? ? _ [=]|]. by intros ? ? ? _ [= <- <- <-].
    + assert (forall w1 : W,
                 (do _ <- sleep (inject_Z timeout) ; Eff.ret None) w1
                 = (Ok (@None (string * string)),
                    advance (Z.to_N (timeout * 1000000000)) w1)) as Hsleep.
      { intros w1. unfold Eff.bind. by rewrite sleep_seconds. }
      destruct e; try rewrite Hsleep; intros [= <- <-];
        (split; [unfold quiet, advance; simpl; repeat split; lia|]);
        (split; [done|]); (split; [done|]);
        (split; [|by intros ? ? ? _ [=]]);
        intros ? ? ? _ [=]; subst; done.
Qed.

(** X20.  [set_heartbeat] writes the key [workers:heartbeat:<id>] with
    an expiry longer than the interval it is called with (at least five
    seconds longer, and twice the interval from five seconds on), and a
    [RedisError] of that write is swallowed. *)
Theorem heartbeat_outlives_interval (worker_id : string) (interval : Z) w r w' :
  set_heartbeat client_set worker_id interval w = (r, w') ->
  (interval + 5 <= heartbeat_ttl interval)%Z
  /\ (interval * 2 <= heartbeat_ttl interval)%Z
  /\ (forall msg, r <> Raise (Py.RedisError msg))
  /\ quiet w w'
  /\ exists answer d e',
       client_set ("workers:heartbeat:" +:+ worker_id) "alive"
                  (Z.max (interval * 2) (interval + 5)) (ext w)
       = (answer, d, e')
       /\ ext w' = e'
       /\ (forall msg, answer = Raise (Py.RedisError msg) -> r = Ok tt).
Proof.
  unfold set_heartbeat, except_redis_error, call, heartbeat_ttl, heartbeat_key.
  destruct (client_set _ _ _ (ext w)) as [[answer d] e1] eqn:Hc.
  intros Hr. split; [lia|]. split; [lia|].
  assert (quiet w w' /\ ext w' = e1
          /\ (forall msg, r <> Raise (Py.RedisError msg))
          /\ (forall msg, answer = Raise (Py.RedisError msg) -> r = Ok tt))
    as (Hq & He & Hne & Hsw).
  { destruct answer as [[]|e]; [|destruct e]; injection Hr as <- <-;
      (split; [unfold quiet; simpl; repeat split; lia|]);
      (split; [done|]); split; try done; by intros ? [=]. }
  split; [done|]. split; [done|]. exists answer, d, e1. done.
Qed.

End facts.


Lemma blpop_swallows_redis_error_witness :
  let run := RedisClient.blpop Fixture.blpop_fails ["q:a:chunks"] 5
                               Fixture.idle in
  fst run = Ok None /\ now_ns (snd run) = 5000000000%N.
Proof.
  cbv zeta.
  destruct (blpop_swallows_redis_error Fixture.blpop_fails ["q:a:chunks"] 5
              Fixture.idle _ _ ltac:(done) (surjective_pairing _))
    as (_ & _ & _ & Hfail & _).
  exact (Hfail "connection lost" 0%N tt ltac:(done) eq_refl).
Defined.

Lemma heartbeat_outlives_interval_witness :
  fst (RedisClient.set_heartbeat Fixture.set_fails "w1" 10 Fixture.idle) = Ok tt
  /\ (15 <= heartbeat_ttl 10)%Z.
Proof.
  split; [reflexivity|].
  exact (proj1 (heartbeat_outlives_interval Fixture.set_fails "w1" 10
                  Fixture.idle _ _ (surjective_pairing _))).
Defined.

End RedisClientFacts.

(** ** queue_consumer.py: waiting and fetching *)

Module ConsumerFacts.
Import World WorldFacts Consumer.

(** X21.  The waiting bookkeeping of the consumer stays consistent under
    [_update_waiting] as the clock moves on: the gauge is set to the
    time since the wait began, which is never negative; a wait that has
    begun keeps its starting time; a "Waiting for new tasks" line is
    written only when at least [metrics_wait_log_interval_sec] seconds
    have passed since the previous one, so the lines are at least that
    far apart. *)
Theorem update_waiting_keeps_consistent
    (interval : Z) (now now' : Q) (queues : option (list string))
    (self : fields) :
  consistent interval now self ->
  (now <= now')%Q ->
  let updated := update_waiting_at interval now' queues self in
  let since := default now' (_waiting_since self) in
  consistent interval now' (fst updated)
  /\ _waiting_since (fst updated) = Some since
  /\ (snd updated == now' - since)%Q
  /\ (0 <= snd updated)%Q
  /\ (waiting_log (fst updated) = waiting_log self
      /\ _last_wait_log (fst updated) = _last_wait_log self
      \/ (inject_Z interval <= now' - _last_wait_log self)%Q
         /\ _last_wait_log (fst updated) = now'
         /\ exists names,
              waiting_log (fst updated)
              = (now', names, snd updated) :: waiting_log self).
Proof.
  intros (Hsince & Hlast & Hlog) Hnow. cbv zeta.
  unfold update_waiting_at. cbv zeta.
  set (since := match _waiting_since self with None => now' | Some t => t end).
  assert (since = default now' (_waiting_since self)) as Hdef
    by (subst since; by destruct (_waiting_since self)).
  assert (since <= now')%Q as Hle.
  { subst since. destruct (_waiting_since self); lra. }
  destruct (Qle_bool (inject_Z interval) (now' - _last_wait_log self))
    eqn:Hdue; simpl.
  - apply Qle_bool_iff in Hdue.
    split.
    { unfold consistent. simpl. split; [done|]. split; [lra|]. split; [done|].
      destruct (waiting_log self) as [|[[t names] waited] older]; [done|].
      destruct Hlog as [-> Hspaced]. simpl. split; [lra|done]. }
    split; [by rewrite Hdef|]. split; [by rewrite Hdef|]. split; [lra|].
    right. split; [done|]. split; [done|]. by eexists.
  - split.
    { unfold consistent. simpl. split; [done|]. split; [lra|]. done. }
    split; [by rewrite Hdef|]. split; [by rewrite Hdef|]. split; [lra|].
    by left.
Qed.

Lemma update_waiting_keeps_consistent_witness :
  let first := update_waiting_at 30 100 None init in
  consistent 30 0 init
  /\ consistent 30 100 (fst first)
  /\ waiting_log (fst first) = [(100%Q, "<none>", (100 - 100)%Q)].
Proof.
  cbv zeta.
  assert (consistent 30 0 init) as Hinit.
  { unfold consistent, init. simpl. repeat split; lra. }
  split; [exact Hinit|]. split; [|reflexivity].
  exact (proj1 (update_waiting_keeps_consistent 30 0 100 None init Hinit
                  ltac:(lra))).
Defined.

Section facts.
Context {E I : Type}.
Local Abbreviation W := (World.t E I).
Implicit Types w : W.

Variable settings : Config.Settings.
Variable worker_id : string.
Variable drift : nat -> N.
Variable client_scan : N -> string -> E -> result (N * list string) * N * E.
Variable client_blpop :
  list string -> Z -> E -> result (option (string * string)) * N * E.

Local Abbreviation fetch :=
  (Consumer.fetch (I := I) settings worker_id drift client_scan client_blpop).
Local Abbreviation _update_waiting :=
  (Consumer._update_waiting (E := E) (I := I) settings worker_id drift).
Local Abbreviation _clear_waiting :=
  (Consumer._clear_waiting (E := E) (I := I) worker_id).

Lemma update_waiting_inv queues self w r w' :
  _update_waiting queues self w = (r, w') ->
  quiet w w' /\ ext w' = ext w
  /\ exists self' since, r = Ok self' /\ _waiting_since self' = Some since.
Proof.
  unfold Consumer._update_waiting, Eff.bind, perf_counter, record_metric, Eff.ret.
  intros [= <- <-]. split; [unfold quiet; simpl; repeat split; lia|].
  split; [done|].
  unfold update_waiting_at. cbv zeta.
  destruct (Qle_bool _ _); simpl; eauto.
Qed.

Lemma clear_waiting_inv self w r w' :
  _clear_waiting self w = (r, w') ->
  quiet w w'
  /\ r = Ok {| _waiting_since := None; _last_wait_log := _last_wait_log self;
               waiting_log := waiting_log self |}.
Proof.
  unfold Consumer._clear_waiting, Eff.bind, record_metric, Eff.ret.
  intros [= <- <-]. split; [unfold quiet; simpl; repeat split; lia|done].
Qed.

Lemma timing_inv {A} (body : Eff.M W A) w r w' :
  (forall w0 x w1, body w0 = (x, w1) ->
     quiet w0 w1 /\ forall msg, x <> Raise (Py.RedisError msg)) ->
  Consumer.timing drift body w = (r, w') ->
  quiet w w'
  /\ (forall msg, r <> Raise (Py.RedisError msg))
  /\ (forall value elapsed, r = Ok (value, elapsed) -> (0 <= elapsed)%Q).
Proof.
  intros Hbody. unfold Consumer.timing.
  intros [(start & w1 & H1 & H)|(e & H1 & _)]%bind_inv; [|discriminate].
  apply perf_counter_inv in H1 as [-> Hq1].
  unfold Eff.try_except in H.
  apply bind_inv in H as [(value & w2 & H2 & H)|(e & H2 & ->)].
  - destruct (body w1) as [[x|e] w2'] eqn:Hb.
    2: { apply bind_inv in H2 as [(t & w3 & _ & H2)|(e' & H2 & _)];
           discriminate. }
    injection H2 as <- <-. apply Hbody in Hb as [Hq2 _].
    apply bind_inv in H as [(finish & w3 & H3 & H)|(e & H3 & _)]; [|discriminate].
    apply perf_counter_inv in H3 as [-> Hq3]. injection H as <- <-.
    assert (quiet w1 w3) as Hq13 by by eapply quiet_trans.
    split; [by eapply quiet_trans|]. split; [done|].
    intros ? ? [= <- <-]. apply quiet_seconds in Hq13. lra.
  - destruct (body w1) as [[x|e'] w2] eqn:Hb; [discriminate|].
    apply Hbody in Hb as [Hq2 Hne].
    apply bind_inv in H2 as [(t & w3 & H3 & H2)|(e'' & H3 & _)]; [|discriminate].
    injection H2 as <- <-.
    apply perf_counter_inv in H3 as [_ Hq3].
    split; [eapply quiet_trans; [exact Hq1|by eapply quiet_trans]|].
    split; [|done]. intros msg [= ->]. by apply (Hne msg).
Qed.

(** X22.  [fetch] never lets a [RedisError] out and never touches the
    result or failure queues.  When it hands out a payload, the fetch
    time is not negative and the consumer is no longer marked as
    waiting, its log untouched; when it hands out nothing, the consumer
    is marked as waiting.  When the scan finds no queue at all, [blpop]
    is not called and the call returns nothing after sleeping for the
    whole [blpop_timeout_sec]. *)
Theorem fetch_outcomes (fuel : nat) (self : fields) w r w' :
  (0 <= Config.blpop_timeout_sec settings)%Z ->
  fetch fuel self w = (r, w') ->
  quiet w w'
  /\ (forall msg, r <> Raise (Py.RedisError msg))
  /\ (forall key payload fetch_time_ms self',
        r = Ok (Some (Some (key, payload, fetch_time_ms), self')) ->
        (0 <= fetch_time_ms)%Q
        /\ _waiting_since self' = None
        /\ _last_wait_log self' = _last_wait_log self
        /\ waiting_log self' = waiting_log self)
  /\ (forall self', r = Ok (Some (None, self')) ->
        exists since, _waiting_since self' = Some since)
  /\ (forall w1,
        RedisClient.scan_brand_queues settings client_scan fuel w
        = (Ok (Some []), w1) ->
        ext w' = ext w1
        /\ (now_ns w1
             + Z.to_N (Config.blpop_timeout_sec settings * 1000000000)
             <= now_ns w')%N
        /\ exists self', r = Ok (Some (None, self'))).
Proof.
  intros Htimeout. unfold Consumer.fetch. cbv zeta.
  intros [(scanned & w1 & Hscan & H)|(e & Hscan & ->)]%bind_inv.
  2: { pose proof (RedisClientFacts.scan_brand_queues_inv _ _ _ _ _ _ Hscan)
         as (Hq & Hne).
       split; [done|]. split; [intros msg [= ->]; by apply (Hne msg)|]. split; [done|]. split; [done|].
       intros w2 Hw2. rewrite Hw2 in Hscan. discriminate. }
  pose proof (RedisClientFacts.scan_brand_queues_inv _ _ _ _ _ _ Hscan)
    as (Hq1 & _).
  destruct scanned as [[|k ks]|].
  - (* no queue *)
    unfold Eff.bind at 1 in H.
    rewrite RedisClientFacts.sleep_seconds in H by done.
    apply bind_inv in H as [(self' & w2 & Hup & Hret)|(e & Hup & ->)].
    2: { apply update_waiting_inv in Hup as (_ & _ & ? & ? & [=] & _). }
    injection Hret as <- <-.
    apply update_waiting_inv in Hup
      as (Hq2 & Hext & self2 & since & [= <-] & Hs).
    split.
    { eapply quiet_trans; [exact Hq1|]. eapply quiet_trans; [|exact Hq2].
      unfold quiet, advance; simpl; repeat split; lia. }
    split; [done|]. split; [done|].
    split; [intros ? [= <-]; eauto|].
    intros w3 Hw3. rewrite Hw3 in Hscan. injection Hscan as <-.
    split; [by rewrite Hext|]. split; [|by eauto].
    destruct Hq2 as (_ & _ & _ & Hn). exact Hn.
  - (* some queues *)
    apply bind_inv in H as [([popped elapsed] & w2 & H1 & H)|(e & H1 & ->)].
    2: { apply timing_inv in H1 as (Hq2 & Hne & _);
           [|intros w0 x w3 Hb;
             exact (RedisClientFacts.blpop_inv _ _ _ _ _ _ Hb)].
         split; [by eapply quiet_trans|].
         split; [intros msg [= ->]; by apply (Hne msg)|].
         split; [done|]. split; [done|].
         intros w4 Hw4. rewrite Hw4 in Hscan. discriminate. }
    apply timing_inv in H1 as (Hq2 & _ & Hpos);
      [|intros w0 x w3 Hb; exact (RedisClientFacts.blpop_inv _ _ _ _ _ _ Hb)].
    specialize (Hpos _ _ eq_refl).
    assert (quiet w w2) as Hq02 by by eapply quiet_trans.
    cbn [fst snd] in H.
    destruct popped as [[key payload]|].
    + apply bind_inv in H as [(self' & w5 & Hcl & H)|(e & Hcl & ->)].
      2: { by apply clear_waiting_inv in Hcl as (_ & [=]). }
      apply clear_waiting_inv in Hcl as (Hq5 & [= ->]).
      unfold Eff.bind, record_metric, Eff.ret in H. injection H as <- <-.
      split.
      { eapply quiet_trans; [exact Hq02|]. eapply quiet_trans; [exact Hq5|].
        unfold quiet; simpl; repeat split; lia. }
      split; [done|]. split.
      { by intros ? ? ? ? [= <- <- <- <-]. }
      split; [done|].
      intros w6 Hw6. rewrite Hw6 in Hscan. discriminate.
    + apply bind_inv in H as [(self' & w5 & Hup & H)|(e & Hup & ->)].
      2: { apply update_waiting_inv in Hup as (_ & _ & ? & ? & [=] & _). }
      apply update_waiting_inv in Hup
        as (Hq5 & _ & self2 & since & [= <-] & Hs).
      unfold Eff.bind, record_metric, Eff.ret in H. injection H as <- <-.
      split.
      { eapply quiet_trans; [exact Hq02|]. eapply quiet_trans; [exact Hq5|].
        unfold quiet; simpl; repeat split; lia. }
      split; [done|]. split; [done|].
      split; [intros ? [= <-]; eauto|].
      intros w6 Hw6. rewrite Hw6 in Hscan. discriminate.
  - (* the scan did not finish *)
    injection H as <- <-.
    split; [done|]. split; [done|]. split; [done|]. split; [done|].
    intros w2 Hw2. rewrite Hw2 in Hscan. discriminate.
Qed.

End facts.

Lemma fetch_outcomes_witness :
  let run := Consumer.fetch Scenario.mock_settings "w1" Fixture.still
               Fixture.two_pages Fixture.pops_first 5 init Fixture.idle in
  (exists fetch_time_ms self',
     fst run = Ok (Some (Some ("q:a:chunks", "{chunk}", fetch_time_ms), self'))
     /\ (fetch_time_ms == 2)%Q)
  /\ quiet Fixture.idle (snd run).
Proof.
  cbv zeta. split.
  - eexists _, _. split; [vm_compute; reflexivity|]. vm_compute. reflexivity.
  - exact (proj1 (fetch_outcomes Scenario.mock_settings "w1" Fixture.still
                    Fixture.two_pages Fixture.pops_first 5 init Fixture.idle _ _
                    ltac:(done) (surjective_pairing _))).
Defined.

End ConsumerFacts.

(** ** embeddings.py: the adapters behind [get_embedding_adapter] *)

Module EmbeddingAdaptersFacts.
Import World WorldFacts EmbeddingAdapters.

Section facts.
Context {E I : Type}.
Local Abbreviation W := (World.t E I).
Implicit Types w : W.

Variable sentence_transformers : bool.
Variable model_encode :
  string -> list Embeddings.text -> E -> result (list (list Q)) * N * E.
Variable drift : nat -> N.

(** X23.  Without a usable model (a provider other than [local], or
    [sentence_transformers] missing) the instrumented adapter contacts
    nobody and leaves the store alone.  A remote provider never raises:
    it yields the all-zero matrix with one row of 384 components per
    text, whatever the texts are.  The local provider yields the
    SHA-256 rows of [_hash_embed] when no text holds a surrogate code
    point, and raises [UnicodeEncodeError] when one does.  A matrix
    comes with one sample of the embedding time, which is not negative;
    an exception with none. *)
Theorem embed_without_model (settings : Config.Settings) (worker_id : string)
    (texts : list Embeddings.text) (brand chunk_id : string) w :
  Config.is_local (Config.embeddings_provider settings) = false
  \/ sentence_transformers = false ->
  let run :=
    embed model_encode drift worker_id
          (get_embedding_adapter sentence_transformers settings)
          texts brand chunk_id w in
  let sampled w' :=
    exists duration,
      (0 <= duration)%Q
      /\ metrics w'
         = Observe "worker_embedding_time_seconds" [worker_id; brand] duration
           :: metrics w in
  ext (snd run) = ext w /\ quiet w (snd run)
  /\ (Config.is_local (Config.embeddings_provider settings) = false ->
      fst run = Ok (replicate (length texts) (replicate 384 0%Q))
      /\ sampled (snd run))
  /\ (Config.is_local (Config.embeddings_provider settings) = true ->
      Forall Embeddings.encodable texts ->
      exists vectors,
        fst run = Ok vectors
        /\ Embeddings._hash_embed Embeddings.fallback_adapter texts = Ok vectors
        /\ length vectors = length texts
        /\ Forall (fun row => length row = 384) vectors
        /\ sampled (snd run))
  /\ (Config.is_local (Config.embeddings_provider settings) = true ->
      ~ Forall Embeddings.encodable texts ->
      exists k,
        fst run = Raise (Py.UnicodeEncodeError k)
        /\ metrics (snd run) = metrics w).
Proof.
  intros Hcase. cbv zeta.
  unfold embed, get_embedding_adapter, delegate_embed.
  destruct (Config.is_local (Config.embeddings_provider settings)) eqn:Hlocal.
  - destruct Hcase as [?| ->]; [done|].
    change (LocalEmbeddingAdapter_init false) with Embeddings.fallback_adapter.
    cbn [Embeddings._use_fallback Embeddings.fallback_adapter].
    unfold Eff.bind, perf_counter, record_metric, Eff.ret, Eff.lift_result.
    destruct (EmbeddingsFacts.hash_embed_cases Embeddings.fallback_adapter texts)
      as [(Hall & vectors & Hrun & Hlen & Hrows)|(Hno & k & Hrun)];
      rewrite Hrun; simpl.
    + split; [done|]. split; [unfold quiet; simpl; repeat split; lia|].
      split; [done|]. split; [|done].
      intros _ _. exists vectors. repeat (split; [done|]).
      eexists. split; [|reflexivity].
      unfold seconds, advance. simpl. unfold Qle, Qminus, Qplus, Qopp. simpl. nia.
    + split; [done|]. split; [unfold quiet; simpl; repeat split; lia|].
      split; [done|]. split; [done|]. intros _ _. by exists k.
  - unfold Eff.bind, perf_counter, record_metric, Eff.ret. simpl.
    split; [done|]. split; [unfold quiet; simpl; repeat split; lia|].
    split; [|done]. intros _. split; [done|].
    eexists. split; [|reflexivity].
    unfold seconds, advance. simpl. unfold Qle, Qminus, Qplus, Qopp. simpl. nia.
Qed.

End facts.

Lemma embed_without_model_witness :
  Config.is_local (Config.embeddings_provider Scenario.mock_settings) = true
  /\ (exists vectors,
        fst (embed (fun _ _ e => (Ok [], 0%N, e)) Fixture.still "w1"
               (get_embedding_adapter false Scenario.mock_settings)
               [PyStr.codes "great product!"] "acme" "c1" Fixture.idle)
        = Ok vectors
        /\ length vectors = 1)
  /\ fst (embed (fun _ _ e => (Ok [], 0%N, e)) Fixture.still "w1"
            (get_embedding_adapter false Scenario.mock_settings)
            [[0xD800%N]] "acme" "c1" Fixture.idle)
     = Raise (Py.UnicodeEncodeError 0).
Proof.
  split; [reflexivity|]. split.
  - destruct (embed_without_model false (fun _ _ e => (Ok [], 0%N, e))
                Fixture.still Scenario.mock_settings "w1"
                [PyStr.codes "great product!"] "acme" "c1" Fixture.idle
                (or_intror eq_refl))
      as (_ & _ & _ & Hok & _).
    destruct (Hok eq_refl ltac:(repeat constructor))
      as (vectors & Hrun & _ & Hlen & _).
    exists vectors. split; [exact Hrun|exact Hlen].
  - reflexivity.
Defined.

End EmbeddingAdaptersFacts.

(** ** app.py: every payload is counted once *)

Module TelemetryFacts.
Import World WorldFacts Telemetry.

Section facts.
Context {E I : Type}.
Local Abbreviation W := (World.t E I).
Implicit Types w : W.

Lemma Steady_ret {A} name (a : A) : Steady name (Eff.ret (S := W) a).
Proof. by intros w r w' [= <- <-]. Qed.

Lemma Steady_raise {A} name (e : exn) :
  Steady name (Eff.raise (S := W) (A := A) e).
Proof. by intros w r w' [= <- <-]. Qed.

Lemma Steady_lift_result {A} name (x : result A) :
  Steady name (Eff.lift_result (S := W) x).
Proof. by intros w r w' [= <- <-]. Qed.

Lemma Steady_get name : Steady name (Eff.get (S := W)).
Proof. by intros w r w' [= <- <-]. Qed.

Lemma Steady_bind {A B} name (m : Eff.M W A) (k : A -> Eff.M W B) :
  Steady name m -> (forall a, Steady name (k a)) -> Steady name (Eff.bind m k).
Proof.
  intros Hm Hk w r w' [(a & w1 & H1 & H2)|(e & H1 & _)]%bind_inv.
  - apply Hm in H1. apply Hk in H2. congruence.
  - by eapply Hm.
Qed.

Lemma Steady_try_except {A} name (m : Eff.M W A) (h : exn -> Eff.M W A) :
  Steady name m -> (forall e, Steady name (h e)) ->
  Steady name (Eff.try_except m h).
Proof.
  intros Hm Hh w r w'. unfold Eff.try_except.
  destruct (m w) as [[a|e] w1] eqn:H1.
  - intros [= <- <-]. by eapply Hm.
  - intros H2. apply Hm in H1. apply Hh in H2. congruence.
Qed.

Lemma Steady_perf_counter name drift :
  Steady name (perf_counter (E := E) (I := I) drift).
Proof. by intros w r w' [= <- <-]. Qed.

Lemma Steady_call {A} name (f : E -> result A * N * E) :
  Steady name (call (I := I) f).
Proof.
  intros w r w'. unfold call. destruct (f (ext w)) as [[x d] e].
  by intros [= <- <-].
Qed.

Lemma Steady_sleep name d : Steady name (sleep (E := E) (I := I) d).
Proof. by intros w r w' [= <- <-]. Qed.

Lemma Steady_alloc name x : Steady name (alloc (E := E) (I := I) x).
Proof. by intros w r w' [= <- <-]. Qed.

Lemma Steady_deref name ref : Steady name (deref (E := E) (I := I) ref).
Proof.
  intros w r w'. unfold deref. destruct (objects w !! ref); by intros [= <- <-].
Qed.

Lemma Steady_mutate name ref f : Steady name (mutate (E := E) (I := I) ref f).
Proof. by intros w r w' [= <- <-]. Qed.

Lemma Steady_observe name n labels value :
  Steady name (record_metric (E := E) (I := I) (Observe n labels value)).
Proof. by intros w r w' [= <- <-]. Qed.

Lemma Steady_inc_other name n labels :
  String.eqb n name = false ->
  Steady name (record_metric (E := E) (I := I) (Inc n labels)).
Proof.
  intros Hne w r w' [= <- <-]. unfold increments. simpl. by rewrite Hne.
Qed.

Lemma inc_counts name labels w r w' :
  record_metric (E := E) (I := I) (Inc name labels) w = (r, w') ->
  r = Ok tt /\ increments name (metrics w') = S (increments name (metrics w)).
Proof.
  intros [= <- <-]. unfold increments. simpl. by rewrite String.eqb_refl.
Qed.

End facts.

(** *** The pipeline counts nothing *)

Section pipeline.
Context {E I : Type}.
Local Abbreviation W := (World.t E I).

Variable settings : Config.Settings.
Variable worker_id : string.
Variable drift : nat -> N.
Variable embed :
  list string -> string -> string -> E -> result (list (list Q)) * N * E.
Variable cluster :
  list (list Q) -> string -> string -> E
  -> result Processor.ClusteringOutput * N * E.
Variable summarize :
  string -> string -> list string -> E -> result LlmAdapter.response * N * E.
Variable sentiment :
  string -> string -> list string -> E -> result (list (string * Q)) * N * E.
Variable detect : string -> Z -> nat -> E -> result bool * N * E.

Lemma Steady_analyze_loop name brand chunk_id mentions groupings acc llm spike :
  Steady name
    (Processor.analyze_loop (I := I) settings drift summarize sentiment detect
       brand chunk_id mentions groupings acc llm spike).
Proof.
  revert acc llm spike. induction groupings as [|g gs IH]; intros acc llm spike.
  - apply Steady_ret.
  - simpl.
    repeat (apply Steady_bind; [|intros ?]);
      try apply Steady_perf_counter; try apply Steady_call;
      try apply Steady_lift_result; apply IH.
Qed.

Lemma Steady_process_chunk name chunk fetch :
  Steady name
    (Processor.process_chunk (I := I) settings worker_id drift embed cluster
                             summarize sentiment detect chunk fetch).
Proof.
  unfold Processor.process_chunk, Processor._preprocess,
    Processor._generate_embeddings, Processor._perform_clustering,
    Processor._analyze_clusters, Processor.perf_counter.
  apply Steady_bind; [apply Steady_perf_counter|intros t0].
  apply Steady_bind.
  { repeat (apply Steady_bind; [|intros ?]);
      try apply Steady_perf_counter; try apply Steady_observe.
    apply Steady_ret. }
  intros [ms m1]. destruct ms as [|mention rest].
  - apply Steady_bind; [apply Steady_perf_counter|intros t1].
    apply Steady_alloc.
  - apply Steady_bind.
    { repeat (apply Steady_bind; [|intros ?]);
        try apply Steady_perf_counter; try apply Steady_call.
      apply Steady_ret. }
    intros [emb d].
    apply Steady_bind; [apply Steady_call|intros output].
    apply Steady_bind.
    { apply Steady_bind; [apply Steady_analyze_loop|].
      intros [[cl llm] spike]. apply Steady_ret. }
    intros [cl m4].
    apply Steady_bind; [apply Steady_perf_counter|intros t5].
    apply Steady_alloc.
Qed.

End pipeline.

(** *** The store *)

Section store.
Context {E : Type}.
Local Abbreviation W := (World.t E Storage.stored).
Implicit Types w : W.

Variable settings : Config.Settings.
Variable worker_id : string.
Variable drift : nat -> N.
Variable isoformat_now : N -> string.
Variable rpush_fails : nat -> bool.

Lemma Steady_client_rpush name key value :
  Steady name (Storage.client_rpush (E := E) rpush_fails key value).
Proof. intros w r w'. unfold Storage.client_rpush. by intros [= <- <-]. Qed.

Lemma Steady_with_retry {A} name (op : Eff.M W A) retries base_delay attempt :
  Steady name op -> Steady name (Storage.with_retry op retries base_delay attempt).
Proof.
  intros Hop. revert attempt. induction retries as [|n IH]; intros attempt; simpl.
  - done.
  - apply Steady_try_except; [done|]. intros e.
    apply Steady_bind; [apply Steady_sleep|]. intros _. apply IH.
Qed.

Lemma Steady_timed {A} name (body : Eff.M W A) :
  Steady name body -> Steady name (Storage.timed drift body).
Proof.
  intros Hb. unfold Storage.timed.
  apply Steady_bind; [apply Steady_perf_counter|intros t0].
  apply Steady_bind.
  { apply Steady_try_except; [done|]. intros e.
    apply Steady_bind; [apply Steady_perf_counter|]. intros _.
    apply Steady_raise. }
  intros _. apply Steady_bind; [apply Steady_perf_counter|intros t1].
  apply Steady_ret.
Qed.

Lemma Steady_push_result name brand ref :
  Steady name (Storage.push_result (E := E) settings worker_id drift
                                   isoformat_now rpush_fails brand ref).
Proof.
  unfold Storage.push_result, Storage.redis_rpush.
  apply Steady_bind; [apply Steady_deref|intros obj].
  apply Steady_bind; [apply Steady_get|intros w0].
  apply Steady_bind.
  { apply Steady_timed, Steady_with_retry, Steady_client_rpush. }
  intros d. apply Steady_bind; [apply Steady_observe|intros _].
  apply Steady_ret.
Qed.

Lemma record_failure_counts name brand failure reason_label w r w' :
  Storage.record_failure settings worker_id drift rpush_fails brand failure
                         reason_label w = (r, w') ->
  increments name (metrics w')
  = match r with
    | Ok _ => (if String.eqb "worker_chunks_failed_total" name then 1 else 0)
              + increments name (metrics w)
    | Raise _ => increments name (metrics w)
    end.
Proof.
  unfold Storage.record_failure, Storage.redis_record_failure.
  intros [(d & w1 & H1 & H)|(e & H1 & ->)]%bind_inv.
  - apply (Steady_timed name) in H1;
      [|apply Steady_with_retry, Steady_client_rpush].
    unfold Eff.bind, record_metric, Eff.ret in H. injection H as <- <-.
    unfold increments in *. cbn [metrics List.filter is_inc].
    destruct (String.eqb "worker_chunks_failed_total" name);
      cbn [length]; rewrite H1; reflexivity.
  - apply (Steady_timed name) in H1;
      [done|apply Steady_with_retry, Steady_client_rpush].
Qed.

End store.

End TelemetryFacts.

Module AppCountFacts.
Import World WorldFacts Telemetry TelemetryFacts Storage App.

Section facts.
Context {E : Type}.
Local Abbreviation W := (World.t E stored).
Implicit Types w : W.

Variable settings : Config.Settings.
Variable worker_id : string.
Variable drift : nat -> N.
Variable isoformat_now : N -> string.
Variable rpush_fails : nat -> bool.
Variable embed :
  list string -> string -> string -> E -> result (list (list Q)) * N * E.
Variable cluster :
  list (list Q) -> string -> string -> E
  -> result Processor.ClusteringOutput * N * E.
Variable summarize :
  string -> string -> list string -> E -> result LlmAdapter.response * N * E.
Variable sentiment :
  string -> string -> list string -> E -> result (list (string * Q)) * N * E.
Variable detect : string -> Z -> nat -> E -> result bool * N * E.
Variable safe_json_loads : string -> result json.
Variable Chunk_model_validate : json -> result Chunk.t.

Local Abbreviation process_and_push :=
  (App.process_and_push settings worker_id drift isoformat_now rpush_fails
                        embed cluster summarize sentiment detect).
Local Abbreviation _handle_payload :=
  (App._handle_payload settings worker_id drift isoformat_now rpush_fails
                       embed cluster summarize sentiment detect
                       safe_json_loads Chunk_model_validate).
Local Abbreviation _record_failure :=
  (App._record_failure (E := E) settings worker_id drift rpush_fails).

Lemma process_and_push_counts name chunk brand fetch w r w' :
  process_and_push chunk brand fetch w = (r, w') ->
  increments name (metrics w')
  = match r with
    | Ok _ => (if String.eqb "worker_chunks_processed_total" name then 1 else 0)
              + increments name (metrics w)
    | Raise _ => increments name (metrics w)
    end.
Proof.
  unfold App.process_and_push, App.process_chunk.
  intros [(ref & w1 & H1 & H)|(e & H1 & ->)]%bind_inv.
  2: { by apply (Steady_process_chunk _ _ _ _ _ _ _ _ name) in H1. }
  apply (Steady_process_chunk _ _ _ _ _ _ _ _ name) in H1.
  apply bind_inv in H as [(push & w2 & H2 & H)|(e & H2 & ->)].
  2: { apply (Steady_push_result _ _ _ _ _ name) in H2. congruence. }
  apply (Steady_push_result _ _ _ _ _ name) in H2.
  apply bind_inv in H as [([] & w3 & H3 & H)|(e & H3 & ->)].
  2: { apply (Steady_mutate name) in H3. congruence. }
  apply (Steady_mutate name) in H3.
  apply bind_inv in H as [(obj & w4 & H4 & H)|(e & H4 & ->)].
  2: { apply (Steady_deref name) in H4. congruence. }
  apply (Steady_deref name) in H4.
  apply bind_inv in H as [([] & w5 & H5 & H)|(e & H5 & ->)].
  2: { apply (Steady_observe name) in H5. congruence. }
  apply (Steady_observe name) in H5.
  injection H as <- <-. unfold increments in *.
  cbn [metrics List.filter is_inc].
  destruct (String.eqb "worker_chunks_processed_total" name);
    cbn [length]; lia.
Qed.

Lemma record_failure_done brand reason_key message payload chunk_id w w' :
  _record_failure brand reason_key message payload chunk_id w = (Ok tt, w') ->
  exists chunk_text,
    chunk_id = Py.JStr chunk_text
    /\ appended (failure_key settings brand)
         (FailureJson {| FailureRecord.worker_id := worker_id;
                         FailureRecord.brand := brand;
                         FailureRecord.chunk_id := chunk_text;
                         FailureRecord.reason := message;
                         FailureRecord.payload := payload |})
         (redis w) (redis w')
    /\ forall name,
         increments name (metrics w')
         = (if String.eqb "worker_chunks_failed_total" name then 1 else 0)
           + increments name (metrics w).
Proof.
  unfold App._record_failure, FailureRecord_init.
  intros (failure & w1 & H1 & H)%bind_ok_inv.
  unfold Eff.lift_result in H1.
  destruct chunk_id; try discriminate. injection H1 as <- <-.
  apply bind_ok_inv in H as (d & w2 & H2 & H). injection H as <-.
  exists s. split; [done|]. split.
  - by pose proof (StorageFacts.record_failure_inv _ _ _ _ _ _ _ _ _ _ H2)
      as (_ & _ & ?).
  - intros name.
    exact (record_failure_counts _ _ _ _ name _ _ _ _ _ _ H2).
Qed.

(** X24.  Whenever [_handle_payload] returns, the payload has been
    counted exactly once and filed exactly once: either the processed
    counter went up by one, the failure counter stayed, and one payload
    was appended to a result queue; or the failure counter went up by
    one, the processed counter stayed, and one record carrying the
    payload text, the worker id and the brand of its queue was appended
    to a failure queue. *)
Theorem handle_payload_counts_once
    (queue_key payload : string) (fetch_time_ms : Q) w w' :
  _handle_payload queue_key payload fetch_time_ms w = (Ok tt, w') ->
  let processed := increments "worker_chunks_processed_total" in
  let failed := increments "worker_chunks_failed_total" in
  (processed (metrics w') = S (processed (metrics w))
   /\ failed (metrics w') = failed (metrics w)
   /\ exists brand item,
        appended (result_key settings brand) (ResultJson item)
                 (redis w) (redis w'))
  \/ (processed (metrics w') = processed (metrics w)
      /\ failed (metrics w') = S (failed (metrics w))
      /\ exists brand record,
           appended (failure_key settings brand) (FailureJson record)
                    (redis w) (redis w')
           /\ FailureRecord.payload record = payload
           /\ FailureRecord.worker_id record = worker_id
           /\ FailureRecord.brand record = brand).
Proof.
  cbv zeta. unfold App._handle_payload. cbv zeta.
  assert (forall brand reason_key message chunk_id w0,
             redis w0 = redis w ->
             (forall name, increments name (metrics w0)
                           = increments name (metrics w)) ->
             _record_failure brand reason_key message payload chunk_id w0
             = (Ok tt, w') ->
             increments "worker_chunks_processed_total" (metrics w')
             = increments "worker_chunks_processed_total" (metrics w)
             /\ increments "worker_chunks_failed_total" (metrics w')
                = S (increments "worker_chunks_failed_total" (metrics w))
             /\ exists brand record,
                  appended (failure_key settings brand) (FailureJson record)
                           (redis w) (redis w')
                  /\ FailureRecord.payload record = payload
                  /\ FailureRecord.worker_id record = worker_id
                  /\ FailureRecord.brand record = brand) as Hfailed.
  { intros brand reason_key message chunk_id w0 Hredis Hcount Hrf.
    apply record_failure_done in Hrf as (chunk_text & _ & Happ & Hinc).
    rewrite Hredis in Happ.
    split; [by rewrite Hinc, Hcount|]. split; [by rewrite Hinc, Hcount|].
    do 2 eexists. split; [exact Happ|]. done. }
  destruct (safe_json_loads payload) as [raw|e].
  2: { destruct e; try discriminate. intros Hrf. right.
       by eapply Hfailed. }
  destruct (Chunk_model_validate raw) as [chunk|e].
  2: { intros Hrf. right. by eapply Hfailed. }
  unfold Eff.try_except.
  destruct (App.process_and_push _ _ _ _ _ _ _ _ _ _ chunk _ fetch_time_ms w)
    as [[[]|e] w1] eqn:Hp.
  - intros [= <-]. left.
    pose proof (process_and_push_counts
                  "worker_chunks_processed_total" _ _ _ _ _ _ Hp) as Hc1.
    pose proof (process_and_push_counts
                  "worker_chunks_failed_total" _ _ _ _ _ _ Hp) as Hc2.
    pose proof (AppFacts.process_and_push_inv _ _ _ _ _ _ _ _ _ _ _ _ _ _ _ _ Hp)
      as (ref & w0 & obj & push & _ & _ & _ & _ & _ & Happ).
    split; [exact Hc1|]. split; [exact Hc2|]. eauto.
  - intros Hrf. right.
    pose proof (AppFacts.process_and_push_inv _ _ _ _ _ _ _ _ _ _ _ _ _ _ _ _ Hp)
      as Hredis.
    eapply Hfailed; [exact Hredis| |exact Hrf].
    intros name. exact (process_and_push_counts name _ _ _ _ _ _ Hp).
Qed.

(** X25.  Where a failed payload goes when the store accepts the
    append.  Text that does not decode is recorded under the brand read
    from the queue key, with chunk id ["unknown"] and reason
    ["Invalid JSON"].  A chunk whose processing or push raises is
    recorded under its own brand (the brand of the queue key when its
    brand is empty) with its chunk id and reason ["Processing failed"],
    and nothing reaches the result queue.  In both cases the record
    holds the payload text as it was fetched and [_handle_payload]
    returns normally. *)
Theorem handle_payload_failure_routes
    (queue_key payload : string) (fetch_time_ms : Q) w :
  (forall n, rpush_fails n = false) ->
  let hint := QueueConsumer.extract_brand_from_queue queue_key in
  let record brand chunk_id reason :=
    FailureJson {| FailureRecord.worker_id := worker_id;
                   FailureRecord.brand := brand;
                   FailureRecord.chunk_id := chunk_id;
                   FailureRecord.reason := reason;
                   FailureRecord.payload := payload |} in
  (forall msg,
     safe_json_loads payload = Raise (Py.ValueError msg) ->
     exists w',
       _handle_payload queue_key payload fetch_time_ms w = (Ok tt, w')
       /\ appended (failure_key settings hint)
                   (record hint "unknown" "Invalid JSON") (redis w) (redis w'))
  /\ (forall raw chunk e w1,
        safe_json_loads payload = Ok raw ->
        Chunk_model_validate raw = Ok chunk ->
        let brand := PyStr.or_else (Chunk.brand chunk) hint in
        process_and_push chunk brand fetch_time_ms w = (Raise e, w1) ->
        exists w',
          _handle_payload queue_key payload fetch_time_ms w = (Ok tt, w')
          /\ appended (failure_key settings brand)
                      (record brand (Chunk.chunk_id chunk) "Processing failed")
                      (redis w) (redis w')).
Proof.
  intros Hno. cbv zeta. split.
  - intros msg Hload. unfold App._handle_payload. cbv zeta. rewrite Hload.
    edestruct (AppFacts.record_failure_appends settings worker_id drift
                 rpush_fails
                 (QueueConsumer.extract_brand_from_queue queue_key)
                 "json_decode" "Invalid JSON" payload "unknown" w Hno)
      as (w' & Hrf & Happ).
    exists w'. split; [exact Hrf|exact Happ].
  - intros raw chunk e w1 Hload Hvalid Hp.
    unfold App._handle_payload. cbv zeta. rewrite Hload, Hvalid.
    unfold Eff.try_except. rewrite Hp.
    pose proof (AppFacts.process_and_push_inv _ _ _ _ _ _ _ _ _ _ _ _ _ _ _ _ Hp)
      as Hredis. simpl in Hredis.
    edestruct (AppFacts.record_failure_appends settings worker_id drift
                 rpush_fails
                 (PyStr.or_else (Chunk.brand chunk)
                    (QueueConsumer.extract_brand_from_queue queue_key))
                 "processing" "Processing failed" payload
                 (Chunk.chunk_id chunk) w1 Hno)
      as (w' & Hrf & Happ).
    exists w'. split; [exact Hrf|]. by rewrite <- Hredis.
Qed.

End facts.

Lemma handle_payload_failure_routes_witness :
  (forall n, Scenario.never_fails n = false)
  /\ exists w',
       Scenario.handle Scenario.s1_chunk "q:b:acme:chunks" "{not json"
       = (Ok tt, w')
       /\ appended "f:acme"
            (FailureJson {| FailureRecord.worker_id := "w1";
                            FailureRecord.brand := "acme";
                            FailureRecord.chunk_id := "unknown";
                            FailureRecord.reason := "Invalid JSON";
                            FailureRecord.payload := "{not json" |})
            (redis Scenario.start) (redis w').
Proof.
  split; [reflexivity|].
  exact (proj1 (handle_payload_failure_routes Scenario.mock_settings "w1"
                  Scenario.drift Scenario.isoformat_now Scenario.never_fails
                  Scenario.embed Scenario.cluster Scenario.summarize
                  Scenario.sentiment Scenario.detect
                  (Scenario.loads Scenario.s1_chunk)
                  (Scenario.validate Scenario.s1_chunk)
                  "q:b:acme:chunks" "{not json" 2 Scenario.start
                  (fun n => eq_refl))
               "Expecting value" eq_refl).
Defined.

Lemma handle_payload_counts_once_witness :
  let run := Scenario.handle Scenario.s1_chunk "q:acme:chunks" "{not json" in
  fst run = Ok tt
  /\ increments "worker_chunks_failed_total" (metrics (snd run)) = 1
  /\ increments "worker_chunks_processed_total" (metrics (snd run)) = 0.
Proof.
  cbv zeta. split; [vm_compute; reflexivity|].
  destruct (handle_payload_counts_once Scenario.mock_settings "w1"
              Scenario.drift Scenario.isoformat_now Scenario.never_fails
              Scenario.embed Scenario.cluster Scenario.summarize
              Scenario.sentiment Scenario.detect
              (Scenario.loads Scenario.s1_chunk)
              (Scenario.validate Scenario.s1_chunk)
              "q:acme:chunks" "{not json" 2 Scenario.start
              (snd (Scenario.handle Scenario.s1_chunk "q:acme:chunks"
                                    "{not json"))
              ltac:(vm_compute; reflexivity))
    as [(Hp & _)|(Hp & Hf & _)].
  - vm_compute in Hp. discriminate.
  - split; [exact Hf|exact Hp].
Defined.

End AppCountFacts.
